(** * Heuristic business-signal classifiers of the GenAi route handlers

    A shallow embedding of the helper functions and request handlers of
    [routes/market.js] (market, pitch and planning routers) and of the
    funding router, with the properties the specification states about them.

    Numbers are JavaScript Numbers, that is IEEE 754 binary64 values: they
    are modelled by the primitive type [float], whose operations round to
    nearest-even exactly as the JavaScript operators do.  Universal
    statements are proved through the Standard Library's specification
    [Prim2SF] of the primitive operations. *)

From Stdlib Require Import ZArith Floats Uint63 String Ascii List Bool Lia.
From stdpp Require Import base gmap strings.
Import ListNotations.

Set Warnings "-inexact-float,-register-all".

Local Open Scope string_scope.
Local Open Scope list_scope.

(** ** JavaScript Number operations *)

Module Number.

Local Open Scope float_scope.

(** [a > b] *)
Definition gtb (a b : float) : bool := b <? a.

(** [a !== b] on Numbers *)
Definition neqb (a b : float) : bool := negb (a =? b).

(** [Math.min(a, b)]: NaN if either argument is NaN, and -0 is smaller
    than +0. *)
Definition Math_min (a b : float) : float :=
  if is_nan a || is_nan b then nan
  else if a <? b then a
  else if b <? a then b
  else if get_sign a then a else b.

(** [Math.abs(a)] *)
Definition Math_abs (a : float) : float := abs a.

(** A non-negative integer (an array or string length) as a Number;
    exact below 2^53. *)
Definition of_nat (n : nat) : float :=
  of_uint63 (Uint63.of_Z (Z.of_nat n)).

End Number.

Notation "a >? b" := (Number.gtb a b) (at level 70, no associativity) : float_scope.
Notation "a !== b" := (Number.neqb a b) (at level 70, no associativity) : float_scope.

(** ** JavaScript String and Array helpers *)

(** [names.join(', ')] *)
Definition join (sep : string) (l : list string) : string := String.concat sep l.

(** [l.push(x)] on a local array: the array after the push. *)
Definition push {A} (l : list A) (x : A) : list A := l ++ [x].

(** [hay.includes(needle)] *)
Fixpoint includes (needle hay : string) : bool :=
  String.prefix needle hay ||
  match hay with
  | EmptyString => false
  | String _ hay' => includes needle hay'
  end.

(** [s || d] for a string that may be undefined: the empty string and
    undefined are falsy. *)
Definition orDefault (s : option string) (d : string) : string :=
  match s with
  | Some v => if String.eqb v "" then d else v
  | None => d
  end.

(** ** JSON values, the payloads passed to [res.json] *)

Inductive Json :=
| JNull
| JBool (b : bool)
| JNum (n : float)
| JStr (s : string)
| JArr (items : list Json)
| JObj (fields : list (string * Json)).

Module JsonOps.

(** [o.key] on an object literal; [None] stands for undefined. *)
Fixpoint lookup (key : string) (fields : list (string * Json)) : option Json :=
  match fields with
  | [] => None
  | (k, v) :: rest => if String.eqb k key then Some v else lookup key rest
  end.

Definition get (key : string) (o : Json) : option Json :=
  match o with
  | JObj fields => lookup key fields
  | _ => None
  end.

Definition strings (l : list string) : Json := JArr (map JStr l).

End JsonOps.

(** ** The text signal returned by the Natural Language API *)

Module Sentiment.
Record t := mk { score : float; magnitude : float }.
End Sentiment.

Module Entity.
(** [metadata_description] is [metadata.description], a key that may be
    absent from the metadata map. *)
Record t := mk {
  name : string;
  type : string;
  salience : float;
  sentiment : Sentiment.t;
  metadata_description : option string
}.
End Entity.

Module Sentence.
(** [text_content] is [text.content]; one character of the model stands
    for one UTF-16 code unit, so that [String.length] is [.length]. *)
Record t := mk { text_content : string }.
End Sentence.

Module Syntax.
Record t := mk { sentences : list Sentence.t }.
End Syntax.

Module Category.
Record t := mk { name : string; confidence : float }.
End Category.

(** The record built by [analyzeMarketData], [analyzeFundingData] and
    [analyzeBusinessIdea]; [analyzePitch] builds it without categories. *)
Module Analysis.
Record t := mk {
  sentiment : Sentiment.t;
  entities : list Entity.t;
  syntax : Syntax.t;
  categories : list Category.t
}.
End Analysis.

(** ** The request monad: backend calls, exceptions and the response *)

Module Server.

(** One request to the Natural Language backend. *)
Inductive ApiCall :=
| AnalyzeSentiment (content : string)
| AnalyzeEntities (content : string)
| AnalyzeSyntax (content : string)
| ClassifyText (content : string).

(** The language client: each method answers from the backend state [S]
    (availability, quota, ...) with a result or a rejection [E], and
    moves the backend to its next state. *)
Record LanguageServiceClient (S E : Type) := {
  analyzeSentiment : string -> S -> (E + Sentiment.t) * S;
  analyzeEntities : string -> S -> (E + list Entity.t) * S;
  analyzeSyntax : string -> S -> (E + Syntax.t) * S;
  classifyText : string -> S -> (E + option (list Category.t)) * S
}.
Arguments analyzeSentiment {S E}.
Arguments analyzeEntities {S E}.
Arguments analyzeSyntax {S E}.
Arguments classifyText {S E}.

(** What [res] was asked to send. *)
Record Reply := mkReply { status : nat; body : Json }.

Record World (S E : Type) := mkWorld {
  backend : S;
  calls : list ApiCall;
  replies : list Reply;
  console : list (string * E)
}.
Arguments mkWorld {S E}.
Arguments backend {S E}.
Arguments calls {S E}.
Arguments replies {S E}.
Arguments console {S E}.

Section Monad.

Context {S E : Type}.

(** A computation either throws [E] or returns [A], and changes the world. *)
Definition M (A : Type) : Type := World S E -> (E + A) * World S E.

Definition ret {A} (a : A) : M A := fun w => (inr a, w).

Definition bind {A B} (c : M A) (k : A -> M B) : M B :=
  fun w =>
    match c w with
    | (inl e, w') => (inl e, w')
    | (inr a, w') => k a w'
    end.

(** [try { body } catch (error) { handler }] *)
Definition tryCatch {A} (body : M A) (handler : E -> M A) : M A :=
  fun w =>
    match body w with
    | (inl e, w') => handler e w'
    | (inr a, w') => (inr a, w')
    end.

(** [await languageClient.method({document})], recorded in [calls]. *)
Definition await {A} (call : ApiCall) (method : S -> (E + A) * S) : M A :=
  fun w =>
    let (r, s') := method (backend w) in
    (r, mkWorld s' (calls w ++ [call]) (replies w) (console w)).

(** [res.json(payload)] *)
Definition res_json (payload : Json) : M unit :=
  fun w => (inr tt, mkWorld (backend w) (calls w) (replies w ++ [mkReply 200 payload]) (console w)).

(** [res.status(code).json(payload)] *)
Definition res_status_json (code : nat) (payload : Json) : M unit :=
  fun w => (inr tt, mkWorld (backend w) (calls w) (replies w ++ [mkReply code payload]) (console w)).

(** [console.error(tag, error)] *)
Definition console_error (tag : string) (error : E) : M unit :=
  fun w => (inr tt, mkWorld (backend w) (calls w) (replies w) (console w ++ [(tag, error)])).

End Monad.

End Server.

Notation "'let*' x ':=' c 'in' k" := (Server.bind c (fun x => k))
  (at level 10, x name, c at level 100, k at level 200).
Notation "'do' c 'then' k" := (Server.bind c (fun _ => k))
  (at level 10, c at level 100, k at level 200).

(** ** Market router: [/analyze], [/competitors], [/strategy]
    ([routes/market.js], first module) *)

Module Market.

Import Server.
Local Open Scope float_scope.

(** *** Helper functions *)

Definition extractKeyFactors (analysis : Analysis.t) : list Json :=
  map (fun e => JObj [("factor", JStr (Entity.name e));
                      ("importance", JNum (Entity.salience e));
                      ("sentiment", JNum (Sentiment.score (Entity.sentiment e)))])
    (List.filter (fun e => Entity.salience e >? 0.3) (Analysis.entities analysis)).

Definition extractMarketSize (analysis : Analysis.t) : list Json :=
  let numbers := List.filter (fun e => String.eqb (Entity.type e) "NUMBER") (Analysis.entities analysis) in
  map (fun n => JObj [("value", JStr (Entity.name n));
                      ("context", JStr (orDefault (Entity.metadata_description n) "market size"))])
    numbers.

Definition extractTrends (analysis : Analysis.t) : list Json :=
  map (fun e => JObj [("trend", JStr (Entity.name e));
                      ("impact", JNum (Sentiment.score (Entity.sentiment e)));
                      ("relevance", JNum (Entity.salience e))])
    (List.filter (fun e => (Entity.salience e >? 0.2) && (Sentiment.score (Entity.sentiment e) !== 0))
       (Analysis.entities analysis)).

Definition extractChallenges (analysis : Analysis.t) : list Json :=
  map (fun e => JObj [("challenge", JStr (Entity.name e));
                      ("severity", JNum (Number.Math_abs (Sentiment.score (Entity.sentiment e))));
                      ("relevance", JNum (Entity.salience e))])
    (List.filter (fun e => Sentiment.score (Entity.sentiment e) <? 0) (Analysis.entities analysis)).

Definition extractOpportunities (analysis : Analysis.t) : list Json :=
  map (fun e => JObj [("opportunity", JStr (Entity.name e));
                      ("potential", JNum (Sentiment.score (Entity.sentiment e)));
                      ("relevance", JNum (Entity.salience e))])
    (List.filter (fun e => (Sentiment.score (Entity.sentiment e) >? 0) && (Entity.salience e >? 0.2))
       (Analysis.entities analysis)).

Definition analyzeTrends (analysis : Analysis.t) : list Json :=
  map (fun e => JObj [("trend", JStr (Entity.name e));
                      ("growth", JStr (if Sentiment.score (Entity.sentiment e) >? 0 then "Growing" else "Declining"));
                      ("confidence", JNum (Entity.salience e))])
    (List.filter (fun e => Entity.salience e >? 0.2) (Analysis.entities analysis)).

Definition generateForecast (analysis : Analysis.t) : Json :=
  let trends := List.filter (fun e => Entity.salience e >? 0.3) (Analysis.entities analysis) in
  let sentiment := Sentiment.score (Analysis.sentiment analysis) in
  JObj [("outlook", JStr (if sentiment >? 0 then "Positive" else "Challenging"));
        ("confidence", JNum (Number.Math_abs sentiment));
        ("keyDrivers", JsonOps.strings (map Entity.name trends))].

Definition generateMarketRecommendations (marketAnalysis industryAnalysis : Analysis.t) : list string :=
  let recommendations := [] in
  let recommendations :=
    if Sentiment.score (Analysis.sentiment marketAnalysis) >? 0.3
    then push recommendations "Consider aggressive market entry strategies"
    else if Sentiment.score (Analysis.sentiment marketAnalysis) <? 0
    then push recommendations "Focus on niche market segments initially"
    else recommendations in
  let challenges := extractChallenges industryAnalysis in
  let recommendations :=
    if (0 <? length challenges)%nat
    then push recommendations "Develop mitigation strategies for identified challenges"
    else recommendations in
  recommendations.

Definition extractCompetitors (analysis : Analysis.t) : list Json :=
  map (fun e => JObj [("name", JStr (Entity.name e));
                      ("marketPresence", JNum (Entity.salience e));
                      ("sentiment", JNum (Sentiment.score (Entity.sentiment e)))])
    (List.filter (fun e => String.eqb (Entity.type e) "ORGANIZATION") (Analysis.entities analysis)).

Definition analyzeStrengths (analysis : Analysis.t) : list Json :=
  map (fun e => JObj [("strength", JStr (Entity.name e));
                      ("impact", JNum (Sentiment.score (Entity.sentiment e)));
                      ("relevance", JNum (Entity.salience e))])
    (List.filter (fun e => Sentiment.score (Entity.sentiment e) >? 0) (Analysis.entities analysis)).

Definition analyzeWeaknesses (analysis : Analysis.t) : list Json :=
  map (fun e => JObj [("weakness", JStr (Entity.name e));
                      ("impact", JNum (Number.Math_abs (Sentiment.score (Entity.sentiment e))));
                      ("relevance", JNum (Entity.salience e))])
    (List.filter (fun e => Sentiment.score (Entity.sentiment e) <? 0) (Analysis.entities analysis)).

Definition generateCompetitorRecommendations (analysis : Analysis.t) : list string :=
  let recommendations := [] in
  let competitors := extractCompetitors analysis in
  let recommendations :=
    if (3 <? length competitors)%nat
    then push recommendations "Market is highly competitive - focus on differentiation"
    else if (length competitors <? 2)%nat
    then push recommendations "Consider first-mover advantages in this market"
    else recommendations in
  let recommendations :=
    if Sentiment.score (Analysis.sentiment analysis) <? -0.2
    then push recommendations "Develop strong competitive advantages before market entry"
    else recommendations in
  recommendations.

Definition generateEntryStrategy (analysis : Analysis.t) : Json :=
  let keyGoals :=
    map Entity.name (List.filter (fun e => Entity.salience e >? 0.3) (Analysis.entities analysis)) in
  JObj [("approach", JStr (if Sentiment.score (Analysis.sentiment analysis) >? 0 then "Aggressive" else "Conservative"));
        ("keyObjectives", JsonOps.strings keyGoals);
        ("timeline", JStr (if (5 <? length (Analysis.entities analysis))%nat then "Long-term" else "Short-term"))].

Definition analyzeResources (analysis : Analysis.t) : list Json :=
  map (fun e => JObj [("resource", JStr (Entity.name e));
                      ("availability", JStr (if Sentiment.score (Entity.sentiment e) >? 0 then "Available" else "Limited"));
                      ("priority", JNum (Entity.salience e))])
    (List.filter (fun e => Entity.salience e >? 0.2) (Analysis.entities analysis)).

Definition generateMitigation (constraint : Entity.t) : string :=
  "Develop contingency plans for " +:+ Entity.name constraint.

Definition analyzeConstraints (analysis : Analysis.t) : list Json :=
  map (fun e => JObj [("constraint", JStr (Entity.name e));
                      ("severity", JNum (Number.Math_abs (Sentiment.score (Entity.sentiment e))));
                      ("mitigation", JStr (generateMitigation e))])
    (List.filter (fun e => Sentiment.score (Entity.sentiment e) <? 0) (Analysis.entities analysis)).

Definition generateActionPlan (goalsAnalysis resourcesAnalysis : Analysis.t) : list Json :=
  let actions := [] in
  let goals := List.filter (fun e => Entity.salience e >? 0.3) (Analysis.entities goalsAnalysis) in
  let actions :=
    fold_left (fun actions goal =>
                 push actions
                   (JObj [("objective", JStr (Entity.name goal));
                          ("priority", JNum (Entity.salience goal));
                          ("timeline", JStr (if Sentiment.score (Entity.sentiment goal) >? 0
                                             then "Short-term" else "Long-term"))]))
      goals actions in
  let resources := List.filter (fun e => Entity.salience e >? 0.2) (Analysis.entities resourcesAnalysis) in
  let actions :=
    fold_left (fun actions resource =>
                 push actions
                   (JObj [("action", JStr ("Allocate " +:+ Entity.name resource));
                          ("priority", JNum (Entity.salience resource));
                          ("status", JStr (if Sentiment.score (Entity.sentiment resource) >? 0
                                           then "Ready" else "Needs preparation"))]))
      resources actions in
  actions.

(** *** Route handlers *)

Section Handlers.

Context {S E : Type} (languageClient : LanguageServiceClient S E).

Definition analyzeMarketData (text : string) : M (S := S) (E := E) Analysis.t :=
  let* sentimentResult := await (AnalyzeSentiment text) (analyzeSentiment languageClient text) in
  let* entityResult := await (AnalyzeEntities text) (analyzeEntities languageClient text) in
  let* syntaxResult := await (AnalyzeSyntax text) (analyzeSyntax languageClient text) in
  let* classificationResult := await (ClassifyText text) (classifyText languageClient text) in
  ret (Analysis.mk sentimentResult entityResult syntaxResult (default [] classificationResult)).

Record AnalyzeBody := { market : string; industry : string; trends : string }.

Definition analyzeRoute (body : AnalyzeBody) : M (S := S) (E := E) unit :=
  tryCatch
    (let* marketAnalysis := analyzeMarketData (market body) in
     let* industryAnalysis := analyzeMarketData (industry body) in
     let* trendsAnalysis := analyzeMarketData (trends body) in
     let analysis :=
       JObj [("marketOverview",
              JObj [("sentiment", JNum (Sentiment.score (Analysis.sentiment marketAnalysis)));
                    ("keyFactors", JArr (extractKeyFactors marketAnalysis));
                    ("marketSize", JArr (extractMarketSize marketAnalysis))]);
             ("industryAnalysis",
              JObj [("trends", JArr (extractTrends industryAnalysis));
                    ("challenges", JArr (extractChallenges industryAnalysis));
                    ("opportunities", JArr (extractOpportunities industryAnalysis))]);
             ("growthPotential",
              JObj [("trends", JArr (analyzeTrends trendsAnalysis));
                    ("forecast", generateForecast trendsAnalysis)]);
             ("recommendations",
              JsonOps.strings (generateMarketRecommendations marketAnalysis industryAnalysis))] in
     res_json (JObj [("analysis", analysis)]))
    (fun error =>
       do console_error "Market Analysis Error:" error then
       res_status_json 500 (JObj [("error", JStr "Failed to analyze market")])).

Record CompetitorsBody := { competitors : string; strengths : string; weaknesses : string }.

Definition competitorsRoute (body : CompetitorsBody) : M (S := S) (E := E) unit :=
  tryCatch
    (let* competitorAnalysis := analyzeMarketData (competitors body) in
     let* strengthsAnalysis := analyzeMarketData (strengths body) in
     let* weaknessesAnalysis := analyzeMarketData (weaknesses body) in
     let analysis :=
       JObj [("competitorOverview", JArr (extractCompetitors competitorAnalysis));
             ("competitiveAdvantages", JArr (analyzeStrengths strengthsAnalysis));
             ("marketGaps", JArr (analyzeWeaknesses weaknessesAnalysis));
             ("recommendations", JsonOps.strings (generateCompetitorRecommendations competitorAnalysis))] in
     res_json (JObj [("analysis", analysis)]))
    (fun error =>
       do console_error "Competitor Analysis Error:" error then
       res_status_json 500 (JObj [("error", JStr "Failed to analyze competitors")])).

Record StrategyBody := { goals : string; resources : string; constraints : string }.

Definition strategyRoute (body : StrategyBody) : M (S := S) (E := E) unit :=
  tryCatch
    (let* goalsAnalysis := analyzeMarketData (goals body) in
     let* resourcesAnalysis := analyzeMarketData (resources body) in
     let* constraintsAnalysis := analyzeMarketData (constraints body) in
     let strategy :=
       JObj [("marketEntry", generateEntryStrategy goalsAnalysis);
             ("resourceAllocation", JArr (analyzeResources resourcesAnalysis));
             ("riskMitigation", JArr (analyzeConstraints constraintsAnalysis));
             ("actionPlan", JArr (generateActionPlan goalsAnalysis resourcesAnalysis))] in
     res_json (JObj [("strategy", strategy)]))
    (fun error =>
       do console_error "Strategy Error:" error then
       res_status_json 500 (JObj [("error", JStr "Failed to generate strategy")])).

End Handlers.

End Market.

(** ** Pitch router: [/generate-deck], [/mentor-qa], [/practice-feedback]
    ([routes/market.js], second module) *)

Module Pitch.

Import Server.
Local Open Scope float_scope.

(** *** Helper functions *)

Definition extractKeyPoints (analysis : Analysis.t) : list Json :=
  map (fun e => JObj [("point", JStr (Entity.name e));
                      ("importance", JNum (Entity.salience e));
                      ("sentiment", JNum (Sentiment.score (Entity.sentiment e)))])
    (List.filter (fun e => Entity.salience e >? 0.3) (Analysis.entities analysis)).

Definition extractStrengths (analysis : Analysis.t) : list string :=
  map Entity.name
    (List.filter (fun e => (Sentiment.score (Entity.sentiment e) >? 0) && (Entity.salience e >? 0.2))
       (Analysis.entities analysis)).

Definition extractUniqueValue (analysis : Analysis.t) : Json :=
  let highValueEntities :=
    map Entity.name (List.filter (fun e => Entity.salience e >? 0.4) (Analysis.entities analysis)) in
  JObj [("keyFeatures", JsonOps.strings highValueEntities);
        ("overallSentiment", JNum (Sentiment.score (Analysis.sentiment analysis)))].

Definition extractOpportunities (analysis : Analysis.t) : list Json :=
  map (fun e => JObj [("name", JStr (Entity.name e));
                      ("type", JStr (Entity.type e));
                      ("relevance", JNum (Entity.salience e))])
    (List.filter (fun e => String.eqb (Entity.type e) "LOCATION" || String.eqb (Entity.type e) "ORGANIZATION")
       (Analysis.entities analysis)).

Definition extractTargetSegments (analysis : Analysis.t) : list Json :=
  map (fun e => JObj [("segment", JStr (Entity.name e));
                      ("type", JStr (Entity.type e));
                      ("sentiment", JNum (Sentiment.score (Entity.sentiment e)))])
    (List.filter (fun e => String.eqb (Entity.type e) "PERSON" || String.eqb (Entity.type e) "ORGANIZATION")
       (Analysis.entities analysis)).

Definition generatePitchRecommendations (analysis : Analysis.t) : list string :=
  let recommendations := [] in
  let recommendations :=
    if Sentiment.score (Analysis.sentiment analysis) <? 0.2
    then push recommendations "Enhance positive aspects of the pitch"
    else recommendations in
  let keyEntities := List.filter (fun e => Entity.salience e >? 0.3) (Analysis.entities analysis) in
  let recommendations :=
    if (length keyEntities <? 3)%nat
    then push recommendations "Include more specific details about key features/benefits"
    else recommendations in
  let sentenceCount := length (Syntax.sentences (Analysis.syntax analysis)) in
  let recommendations :=
    if (15 <? sentenceCount)%nat
    then push recommendations "Consider making the pitch more concise"
    else recommendations in
  recommendations.

Definition generateMentorResponse (questionAnalysis contextAnalysis : Analysis.t) : string :=
  let response := [] in
  let relevantContext :=
    map Entity.name (List.filter (fun e => Entity.salience e >? 0.3) (Analysis.entities contextAnalysis)) in
  let response :=
    if (0 <? length relevantContext)%nat
    then push response ("Based on " +:+ join ", " relevantContext +:+ ", here's my perspective:")
    else response in
  let response :=
    if Sentiment.score (Analysis.sentiment questionAnalysis) <? 0
    then push response "Let me address your concerns constructively."
    else response in
  join " " response.

Definition extractInsights (analysis : Analysis.t) : list Json :=
  map (fun e => JObj [("topic", JStr (Entity.name e));
                      ("relevance", JNum (Entity.salience e));
                      ("sentiment", JNum (Sentiment.score (Entity.sentiment e)))])
    (List.filter (fun e => Entity.salience e >? 0.2) (Analysis.entities analysis)).

Definition generateSuggestions (analysis : Analysis.t) : list string :=
  let suggestions := [] in
  let suggestions :=
    if (2 <? length (Syntax.sentences (Analysis.syntax analysis)))%nat
    then push suggestions "Consider breaking down your question into smaller parts"
    else suggestions in
  let keyTopics :=
    map Entity.name (List.filter (fun e => Entity.salience e >? 0.3) (Analysis.entities analysis)) in
  let suggestions :=
    if (0 <? length keyTopics)%nat
    then push suggestions ("Focus on key aspects: " +:+ join ", " keyTopics)
    else suggestions in
  suggestions.

Definition analyzeClarity (analysis : Analysis.t) : Json :=
  JObj [("score", JNum (Sentiment.magnitude (Analysis.sentiment analysis) * 100));
        ("keyTerms",
         JsonOps.strings
           (map Entity.name (List.filter (fun e => Entity.salience e >? 0.2) (Analysis.entities analysis))))].

Definition analyzeImpact (analysis : Analysis.t) : Json :=
  JObj [("score", JNum (Sentiment.score (Analysis.sentiment analysis) * 100));
        ("strongPoints",
         JsonOps.strings
           (map Entity.name
              (List.filter (fun e => Sentiment.score (Entity.sentiment e) >? 0.3) (Analysis.entities analysis))))].

Definition analyzeStructure (analysis : Analysis.t) : Json :=
  let sentences := Syntax.sentences (Analysis.syntax analysis) in
  JObj [("sentenceCount", JNum (Number.of_nat (length sentences)));
        ("averageLength",
         JNum (fold_left (fun acc s => acc + Number.of_nat (String.length (Sentence.text_content s)))
                 sentences 0
               / Number.of_nat (length sentences)));
        ("flow", JStr (if (10 <? length sentences)%nat then "Complex" else "Concise"))].

Definition generateImprovements (analysis : Analysis.t) : list string :=
  let improvements := [] in
  let improvements :=
    if (12 <? length (Syntax.sentences (Analysis.syntax analysis)))%nat
    then push improvements "Consider shortening the pitch for better impact"
    else improvements in
  let improvements :=
    if Sentiment.magnitude (Analysis.sentiment analysis) <? 0.5
    then push improvements "Add more emotional appeal to engage audience"
    else improvements in
  let keyPoints := List.filter (fun e => Entity.salience e >? 0.3) (Analysis.entities analysis) in
  let improvements :=
    if (length keyPoints <? 3)%nat
    then push improvements "Include more specific examples and key benefits"
    else improvements in
  improvements.

(** *** Route handlers *)

Section Handlers.

Context {S E : Type} (languageClient : LanguageServiceClient S E).

(** [analyzePitch] does not classify the text: the record it builds has
    no [categories] key, which no helper of this router reads. *)
Definition analyzePitch (text : string) : M (S := S) (E := E) Analysis.t :=
  let* sentimentResult := await (AnalyzeSentiment text) (analyzeSentiment languageClient text) in
  let* entityResult := await (AnalyzeEntities text) (analyzeEntities languageClient text) in
  let* syntaxResult := await (AnalyzeSyntax text) (analyzeSyntax languageClient text) in
  ret (Analysis.mk sentimentResult entityResult syntaxResult []).

Record GenerateDeckBody := { pitch : string; company : string; market : string }.

Definition generateDeckRoute (body : GenerateDeckBody) : M (S := S) (E := E) unit :=
  tryCatch
    (let* pitchAnalysis := analyzePitch (pitch body) in
     let* companyAnalysis := analyzePitch (company body) in
     let* marketAnalysis := analyzePitch (market body) in
     let deckContent :=
       JObj [("overview",
              JObj [("keyPoints", JArr (extractKeyPoints pitchAnalysis));
                    ("sentiment", JNum (Sentiment.score (Analysis.sentiment pitchAnalysis)))]);
             ("company",
              JObj [("strengths", JsonOps.strings (extractStrengths companyAnalysis));
                    ("uniqueValue", extractUniqueValue companyAnalysis)]);
             ("market",
              JObj [("opportunities", JArr (extractOpportunities marketAnalysis));
                    ("targetSegments", JArr (extractTargetSegments marketAnalysis))]);
             ("recommendations", JsonOps.strings (generatePitchRecommendations pitchAnalysis))] in
     res_json (JObj [("deckContent", deckContent)]))
    (fun error =>
       do console_error "Pitch Deck Error:" error then
       res_status_json 500 (JObj [("error", JStr "Failed to generate pitch deck")])).

Record MentorQaBody := { question : string; context : string }.

Definition mentorQaRoute (body : MentorQaBody) : M (S := S) (E := E) unit :=
  tryCatch
    (let* questionAnalysis := analyzePitch (question body) in
     let* contextAnalysis := analyzePitch (context body) in
     let response :=
       JObj [("answer", JStr (generateMentorResponse questionAnalysis contextAnalysis));
             ("insights", JArr (extractInsights contextAnalysis));
             ("suggestions", JsonOps.strings (generateSuggestions questionAnalysis))] in
     res_json response)
    (fun error =>
       do console_error "Mentor Q&A Error:" error then
       res_status_json 500 (JObj [("error", JStr "Failed to generate mentor response")])).

Record PracticeFeedbackBody := { pitchScript : string }.

Definition practiceFeedbackRoute (body : PracticeFeedbackBody) : M (S := S) (E := E) unit :=
  tryCatch
    (let* analysis := analyzePitch (pitchScript body) in
     let feedback :=
       JObj [("clarity", analyzeClarity analysis);
             ("impact", analyzeImpact analysis);
             ("structure", analyzeStructure analysis);
             ("improvements", JsonOps.strings (generateImprovements analysis))] in
     res_json (JObj [("feedback", feedback)]))
    (fun error =>
       do console_error "Practice Feedback Error:" error then
       res_status_json 500 (JObj [("error", JStr "Failed to generate practice feedback")])).

End Handlers.

End Pitch.

(** ** Planning router: [/idea-check], [/swot]
    ([routes/market.js], third module) *)

Module Planning.

Import Server.
Local Open Scope float_scope.

(** *** Helper functions *)

Definition generateRecommendations (analysis : Analysis.t) : list string :=
  let recommendations := [] in
  let recommendations :=
    if Sentiment.score (Analysis.sentiment analysis) <? 0
    then push recommendations "Consider refining the value proposition to address potential concerns"
    else recommendations in
  let marketEntities :=
    List.filter (fun e => String.eqb (Entity.type e) "LOCATION" || String.eqb (Entity.type e) "ORGANIZATION")
      (Analysis.entities analysis) in
  let recommendations :=
    if (0 <? length marketEntities)%nat
    then push recommendations
           ("Focus on key markets/organizations: " +:+ join ", " (map Entity.name marketEntities))
    else recommendations in
  let recommendations :=
    if (0 <? length (Analysis.categories analysis))%nat
    then push recommendations
           ("Consider expanding into related categories: "
            +:+ join ", " (map Category.name (Analysis.categories analysis)))
    else recommendations in
  recommendations.

Definition extractStrengths (ideaAnalysis marketAnalysis : Analysis.t) : list string :=
  let strengths := [] in
  let strengths :=
    if Sentiment.score (Analysis.sentiment ideaAnalysis) >? 0.3
    then push strengths "Strong positive market perception potential"
    else strengths in
  let keyMarketEntities :=
    map Entity.name (List.filter (fun e => Entity.salience e >? 0.3) (Analysis.entities marketAnalysis)) in
  let strengths :=
    if (0 <? length keyMarketEntities)%nat
    then push strengths ("Strong presence in key markets: " +:+ join ", " keyMarketEntities)
    else strengths in
  strengths.

Definition extractWeaknesses (ideaAnalysis competitionAnalysis : Analysis.t) : list string :=
  let weaknesses := [] in
  let weaknesses :=
    if Sentiment.score (Analysis.sentiment ideaAnalysis) <? 0
    then push weaknesses "Potential negative market perception"
    else weaknesses in
  let competitorStrengths :=
    map Entity.name
      (List.filter (fun e => (Entity.salience e >? 0.3) && (Sentiment.score (Entity.sentiment e) >? 0))
         (Analysis.entities competitionAnalysis)) in
  let weaknesses :=
    if (0 <? length competitorStrengths)%nat
    then push weaknesses ("Strong competition in: " +:+ join ", " competitorStrengths)
    else weaknesses in
  weaknesses.

Definition extractOpportunities (marketAnalysis : Analysis.t) : list string :=
  let opportunities := [] in
  let opportunities :=
    if Sentiment.score (Analysis.sentiment marketAnalysis) >? 0
    then push opportunities "Favorable market conditions"
    else opportunities in
  let opportunities :=
    fold_left (fun opportunities category =>
                 if Category.confidence category >? 0.7
                 then push opportunities ("High potential in " +:+ Category.name category)
                 else opportunities)
      (Analysis.categories marketAnalysis) opportunities in
  opportunities.

Definition extractThreats (competitionAnalysis marketAnalysis : Analysis.t) : list string :=
  let threats := [] in
  let threats :=
    if Sentiment.score (Analysis.sentiment marketAnalysis) <? -0.2
    then push threats "Challenging market conditions"
    else threats in
  let strongCompetitors :=
    map Entity.name
      (List.filter (fun e => (Entity.salience e >? 0.3) && (Sentiment.score (Entity.sentiment e) >? 0.5))
         (Analysis.entities competitionAnalysis)) in
  let threats :=
    if (0 <? length strongCompetitors)%nat
    then push threats ("Strong competition from: " +:+ join ", " strongCompetitors)
    else threats in
  threats.

(** The [response] object of [/idea-check]. *)
Definition ideaCheckResponse (analysis : Analysis.t) : Json :=
  JObj [("feasibility",
         JObj [("score", JNum (Sentiment.score (Analysis.sentiment analysis) * 100));
               ("explanation",
                JStr ("The idea sentiment analysis shows "
                      +:+ (if Sentiment.score (Analysis.sentiment analysis) >? 0 then "positive" else "negative")
                      +:+ " indicators"))]);
        ("marketPotential",
         JObj [("categories",
                JArr (map (fun c => JObj [("name", JStr (Category.name c));
                                          ("confidence", JNum (Category.confidence c))])
                        (Analysis.categories analysis)));
               ("keyEntities",
                JArr (map (fun e => JObj [("name", JStr (Entity.name e));
                                          ("type", JStr (Entity.type e));
                                          ("salience", JNum (Entity.salience e))])
                        (List.filter (fun e => Entity.salience e >? 0.1) (Analysis.entities analysis))))]);
        ("recommendations", JsonOps.strings (generateRecommendations analysis))].

(** The [swot] object of [/swot]. *)
Definition swotVerdict (ideaAnalysis marketAnalysis competitionAnalysis : Analysis.t) : Json :=
  JObj [("strengths", JsonOps.strings (extractStrengths ideaAnalysis marketAnalysis));
        ("weaknesses", JsonOps.strings (extractWeaknesses ideaAnalysis competitionAnalysis));
        ("opportunities", JsonOps.strings (extractOpportunities marketAnalysis));
        ("threats", JsonOps.strings (extractThreats competitionAnalysis marketAnalysis))].

(** *** Route handlers *)

Section Handlers.

Context {S E : Type} (languageClient : LanguageServiceClient S E).

Definition analyzeBusinessIdea (text : string) : M (S := S) (E := E) Analysis.t :=
  let* sentimentResult := await (AnalyzeSentiment text) (analyzeSentiment languageClient text) in
  let* entityResult := await (AnalyzeEntities text) (analyzeEntities languageClient text) in
  let* syntaxResult := await (AnalyzeSyntax text) (analyzeSyntax languageClient text) in
  let* classificationResult := await (ClassifyText text) (classifyText languageClient text) in
  ret (Analysis.mk sentimentResult entityResult syntaxResult (default [] classificationResult)).

Record IdeaCheckBody := { idea : string }.

Definition ideaCheckRoute (body : IdeaCheckBody) : M (S := S) (E := E) unit :=
  tryCatch
    (let* analysis := analyzeBusinessIdea (idea body) in
     let response := ideaCheckResponse analysis in
     res_json response)
    (fun error =>
       do console_error "Idea Check Error:" error then
       res_status_json 500 (JObj [("error", JStr "Failed to analyze idea")])).

Record SwotBody := { swot_idea : string; market : string; competition : string }.

Definition swotRoute (body : SwotBody) : M (S := S) (E := E) unit :=
  tryCatch
    (let* ideaAnalysis := analyzeBusinessIdea (swot_idea body) in
     let* marketAnalysis := analyzeBusinessIdea (market body) in
     let* competitionAnalysis := analyzeBusinessIdea (competition body) in
     let swot := swotVerdict ideaAnalysis marketAnalysis competitionAnalysis in
     res_json (JObj [("swot", swot)]))
    (fun error =>
       do console_error "SWOT Error:" error then
       res_status_json 500 (JObj [("error", JStr "Failed to generate SWOT analysis")])).

End Handlers.

End Planning.

(** ** Funding router: [/guidance], [/investor-match], [/readiness] *)

Module Funding.

Import Server.
Local Open Scope float_scope.

Record FundingNeeds := { amount : string; purposes : list string }.

Section WithHost.

(** [String.prototype.toLowerCase] of the host. *)
Variable toLowerCase : string -> string.

(** *** Helper functions *)

Definition determineStage (analysis : Analysis.t) : string :=
  let stageIndicators :=
    map Entity.name (List.filter (fun e => Entity.salience e >? 0.3) (Analysis.entities analysis)) in
  if existsb (fun i => includes "seed" (toLowerCase i)) stageIndicators then "Seed"
  else if existsb (fun i => includes "series a" (toLowerCase i)) stageIndicators then "Series A"
  else "Early Stage".

Definition analyzeFundingNeeds (analysis : Analysis.t) : FundingNeeds :=
  let numbers := List.filter (fun e => String.eqb (Entity.type e) "NUMBER") (Analysis.entities analysis) in
  {| amount := match numbers with
               | n :: _ => Entity.name n
               | [] => "Not specified"
               end;
     purposes := map Entity.name
                   (List.filter (fun e => Entity.salience e >? 0.2) (Analysis.entities analysis)) |}.

Definition extractMetrics (analysis : Analysis.t) : list Json :=
  map (fun e => JObj [("metric", JStr (Entity.name e));
                      ("importance", JNum (Entity.salience e));
                      ("sentiment", JNum (Sentiment.score (Entity.sentiment e)))])
    (List.filter (fun e => Entity.salience e >? 0.2) (Analysis.entities analysis)).

Definition generateFundingRecommendations (stageAnalysis needsAnalysis : Analysis.t) : list string :=
  let recommendations := [] in
  let recommendations :=
    if Sentiment.score (Analysis.sentiment stageAnalysis) <? 0
    then push recommendations "Consider bootstrapping or angel investment first"
    else if Sentiment.score (Analysis.sentiment stageAnalysis) >? 0.3
    then push recommendations "Ready for institutional investment"
    else recommendations in
  let fundingNeeds := analyzeFundingNeeds needsAnalysis in
  let recommendations :=
    if (length (purposes fundingNeeds) <? 3)%nat
    then push recommendations "Develop more detailed funding allocation plan"
    else recommendations in
  recommendations.

Definition generateTimeline (stageAnalysis needsAnalysis : Analysis.t) : list Json :=
  let timeline := [] in
  let stage := determineStage stageAnalysis in
  let needs := analyzeFundingNeeds needsAnalysis in
  let timeline :=
    push timeline
      (JObj [("phase", JStr "Preparation");
             ("duration", JStr "1-2 months");
             ("activities",
              JsonOps.strings ["Document preparation"; "Financial modeling"; "Pitch deck creation"])]) in
  let timeline :=
    push timeline
      (JObj [("phase", JStr "Outreach");
             ("duration", JStr "2-3 months");
             ("activities",
              JsonOps.strings ["Investor identification"; "Initial meetings"; "Pitch refinement"])]) in
  let timeline :=
    push timeline
      (JObj [("phase", JStr "Due Diligence");
             ("duration", JStr "1-2 months");
             ("activities",
              JsonOps.strings ["Financial review"; "Legal documentation"; "Negotiations"])]) in
  timeline.

Definition generateInvestorProfile (analysis : Analysis.t) : Json :=
  JObj [("stage", JStr (determineStage analysis));
        ("preferences",
         JArr (map (fun e => JObj [("criteria", JStr (Entity.name e));
                                   ("importance", JNum (Entity.salience e))])
                 (List.filter (fun e => Entity.salience e >? 0.2) (Analysis.entities analysis))));
        ("industries", JsonOps.strings (map Category.name (Analysis.categories analysis)))].

(** The body of the [forEach] callback of [calculateMatchScore]. *)
Definition matchStep (pitchEntities : gset string) (score : float) (e : string) : float :=
  if bool_decide (e ∈ pitchEntities) then score + 10 else score.

Definition calculateMatchScore (pitchAnalysis requirementsAnalysis : Analysis.t) : float :=
  let score := 0 in
  let score := score + (Sentiment.score (Analysis.sentiment pitchAnalysis) + 1) * 50 in
  let pitchEntities : gset string :=
    list_to_set (map (fun e => toLowerCase (Entity.name e)) (Analysis.entities pitchAnalysis)) in
  let reqEntities :=
    map (fun e => toLowerCase (Entity.name e)) (Analysis.entities requirementsAnalysis) in
  let score := fold_left (matchStep pitchEntities) reqEntities score in
  Number.Math_min 100 score.

Definition generateMatchRecommendations (pitchAnalysis preferencesAnalysis : Analysis.t) : list string :=
  let recommendations := [] in
  let recommendations :=
    if Sentiment.score (Analysis.sentiment pitchAnalysis) <? 0.2
    then push recommendations "Strengthen value proposition in pitch"
    else recommendations in
  let preferences :=
    map Entity.name
      (List.filter (fun e => Entity.salience e >? 0.3) (Analysis.entities preferencesAnalysis)) in
  let recommendations :=
    if (0 <? length preferences)%nat
    then push recommendations ("Focus on key preferences: " +:+ join ", " preferences)
    else recommendations in
  recommendations.

Definition calculateReadinessScore (businessAnalysis financialsAnalysis teamAnalysis : Analysis.t) : float :=
  let score := 0 in
  let score := score + (Sentiment.score (Analysis.sentiment businessAnalysis) + 1) * 20 in
  let score := score + (Sentiment.score (Analysis.sentiment financialsAnalysis) + 1) * 20 in
  let score := score + (Sentiment.score (Analysis.sentiment teamAnalysis) + 1) * 10 in
  Number.Math_min 100 score.

Definition assessBusinessReadiness (analysis : Analysis.t) : Json :=
  JObj [("score", JNum ((Sentiment.score (Analysis.sentiment analysis) + 1) * 50));
        ("strengths",
         JsonOps.strings
           (map Entity.name
              (List.filter (fun e => Sentiment.score (Entity.sentiment e) >? 0) (Analysis.entities analysis))));
        ("weaknesses",
         JsonOps.strings
           (map Entity.name
              (List.filter (fun e => Sentiment.score (Entity.sentiment e) <? 0) (Analysis.entities analysis))))].

Definition assessFinancialReadiness (analysis : Analysis.t) : Json :=
  JObj [("score", JNum ((Sentiment.score (Analysis.sentiment analysis) + 1) * 50));
        ("metrics",
         JArr (map (fun e => JObj [("metric", JStr (Entity.name e));
                                   ("context",
                                    JStr (orDefault (Entity.metadata_description e) "financial metric"))])
                 (List.filter (fun e => String.eqb (Entity.type e) "NUMBER") (Analysis.entities analysis))));
        ("concerns",
         JsonOps.strings
           (map Entity.name
              (List.filter (fun e => Sentiment.score (Entity.sentiment e) <? -0.2)
                 (Analysis.entities analysis))))].

Definition assessTeamReadiness (analysis : Analysis.t) : Json :=
  JObj [("score", JNum ((Sentiment.score (Analysis.sentiment analysis) + 1) * 50));
        ("strengths",
         JsonOps.strings
           (map Entity.name
              (List.filter (fun e => String.eqb (Entity.type e) "PERSON"
                                     && (Sentiment.score (Entity.sentiment e) >? 0))
                 (Analysis.entities analysis))));
        ("gaps",
         JsonOps.strings
           (map Entity.name
              (List.filter (fun e => Sentiment.score (Entity.sentiment e) <? 0) (Analysis.entities analysis))))].

Definition generateReadinessImprovements
    (businessAnalysis financialsAnalysis teamAnalysis : Analysis.t) : list string :=
  let improvements := [] in
  let improvements :=
    if Sentiment.score (Analysis.sentiment businessAnalysis) <? 0.2
    then push improvements "Strengthen business model and market validation"
    else improvements in
  let financialMetrics :=
    List.filter (fun e => String.eqb (Entity.type e) "NUMBER") (Analysis.entities financialsAnalysis) in
  let improvements :=
    if (length financialMetrics <? 3)%nat
    then push improvements "Develop more comprehensive financial projections"
    else improvements in
  let teamMembers :=
    List.filter (fun e => String.eqb (Entity.type e) "PERSON") (Analysis.entities teamAnalysis) in
  let improvements :=
    if (length teamMembers <? 2)%nat
    then push improvements "Consider expanding core team or advisory board"
    else improvements in
  improvements.

(** *** Route handlers *)

Section Handlers.

Context {S E : Type} (languageClient : LanguageServiceClient S E).

Definition analyzeFundingData (text : string) : M (S := S) (E := E) Analysis.t :=
  let* sentimentResult := await (AnalyzeSentiment text) (analyzeSentiment languageClient text) in
  let* entityResult := await (AnalyzeEntities text) (analyzeEntities languageClient text) in
  let* syntaxResult := await (AnalyzeSyntax text) (analyzeSyntax languageClient text) in
  let* classificationResult := await (ClassifyText text) (classifyText languageClient text) in
  ret (Analysis.mk sentimentResult entityResult syntaxResult (default [] classificationResult)).

Record GuidanceBody := { stage : string; needs : string; metrics : string }.

Definition guidanceRoute (body : GuidanceBody) : M (S := S) (E := E) unit :=
  tryCatch
    (let* stageAnalysis := analyzeFundingData (stage body) in
     let* needsAnalysis := analyzeFundingData (needs body) in
     let* metricsAnalysis := analyzeFundingData (metrics body) in
     let guidance :=
       JObj [("fundingStrategy",
              JObj [("recommendedStage", JStr (determineStage stageAnalysis));
                    ("fundingNeeds",
                     let fundingNeeds := analyzeFundingNeeds needsAnalysis in
                     JObj [("amount", JStr (amount fundingNeeds));
                           ("purposes", JsonOps.strings (purposes fundingNeeds))]);
                    ("keyMetrics", JArr (extractMetrics metricsAnalysis))]);
             ("recommendations",
              JsonOps.strings (generateFundingRecommendations stageAnalysis needsAnalysis));
             ("timeline", JArr (generateTimeline stageAnalysis needsAnalysis))] in
     res_json (JObj [("guidance", guidance)]))
    (fun error =>
       do console_error "Funding Guidance Error:" error then
       res_status_json 500 (JObj [("error", JStr "Failed to generate funding guidance")])).

Record InvestorMatchBody := { pitch : string; requirements : string; preferences : string }.

Definition investorMatchRoute (body : InvestorMatchBody) : M (S := S) (E := E) unit :=
  tryCatch
    (let* pitchAnalysis := analyzeFundingData (pitch body) in
     let* requirementsAnalysis := analyzeFundingData (requirements body) in
     let* preferencesAnalysis := analyzeFundingData (preferences body) in
     let matches :=
       JObj [("investorProfile", generateInvestorProfile requirementsAnalysis);
             ("matchScore", JNum (calculateMatchScore pitchAnalysis requirementsAnalysis));
             ("recommendations",
              JsonOps.strings (generateMatchRecommendations pitchAnalysis preferencesAnalysis))] in
     res_json (JObj [("matches", matches)]))
    (fun error =>
       do console_error "Investor Matching Error:" error then
       res_status_json 500 (JObj [("error", JStr "Failed to generate investor matches")])).

Record ReadinessBody := { business : string; financials : string; team : string }.

Definition readinessRoute (body : ReadinessBody) : M (S := S) (E := E) unit :=
  tryCatch
    (let* businessAnalysis := analyzeFundingData (business body) in
     let* financialsAnalysis := analyzeFundingData (financials body) in
     let* teamAnalysis := analyzeFundingData (team body) in
     let assessment :=
       JObj [("overallScore",
              JNum (calculateReadinessScore businessAnalysis financialsAnalysis teamAnalysis));
             ("businessReadiness", assessBusinessReadiness businessAnalysis);
             ("financialReadiness", assessFinancialReadiness financialsAnalysis);
             ("teamReadiness", assessTeamReadiness teamAnalysis);
             ("improvements",
              JsonOps.strings
                (generateReadinessImprovements businessAnalysis financialsAnalysis teamAnalysis))] in
     res_json (JObj [("assessment", assessment)]))
    (fun error =>
       do console_error "Readiness Assessment Error:" error then
       res_status_json 500 (JObj [("error", JStr "Failed to assess funding readiness")])).

End Handlers.

End WithHost.

End Funding.

(** ** Skill-tracking router: [/analyze-resume], [/track-progress],
    [/get-recommendations] *)

Module Skilltrack.

Import Server.
Local Open Scope float_scope.

(** The line feed of the template literals. *)
Definition newline : string := String (ascii_of_nat 10) "".

(** The request sent to [predictionClient.predict]: one instance holding
    the prompt, and the sampling parameters. *)
Record PredictRequest := {
  prompt : string;
  temperature : float;
  maxOutputTokens : nat;
  topP : float;
  topK : nat
}.

(** A value written to a document field: a plain value, which is
    undefined when [None], or the [serverTimestamp()] sentinel. *)
Inductive FieldValue :=
| Plain (value : option Json)
| ServerTimestamp.

(** A write to the document store: [doc(path).set(data, {merge})] or
    [collection(path).add(data)]. *)
Inductive StoreWrite :=
| DocSet (path : list string) (data : list (string * FieldValue)) (merge : bool)
| CollectionAdd (path : list string) (data : list (string * FieldValue)).

(** The prediction client, answering with [response.predictions], and the
    document store; both act on the backend state [S]. *)
Record Clients (S E : Type) := {
  predict : PredictRequest -> S -> (E + list Json) * S;
  write : StoreWrite -> S -> (E + unit) * S
}.
Arguments predict {S E}.
Arguments write {S E}.

(** An object literal in which a property may be undefined: [res.json]
    leaves such a property out. *)
Fixpoint jsonObject (fields : list (string * option Json)) : list (string * Json) :=
  match fields with
  | [] => []
  | (k, Some v) :: rest => (k, v) :: jsonObject rest
  | (_, None) :: rest => jsonObject rest
  end.

(** [req.file] is absent when no file was uploaded; [resume] is
    [req.file.buffer.toString()] and [uid] is [req.user.uid]. *)
Record AnalyzeResumeRequest := { resume : option string; uid : string }.

(** The [request] object of [/analyze-resume]. *)
Definition resumeRequest (resumeText : string) : PredictRequest :=
  let prompt :=
    "Analyze resume and extract skills:" +:+ newline +:+ newline
    +:+ "Resume Content: " +:+ resumeText +:+ newline +:+ newline
    +:+ "Provide:" +:+ newline +:+ "1. Technical skills" +:+ newline
    +:+ "2. Soft skills" +:+ newline +:+ "3. Experience level" +:+ newline
    +:+ "4. Industry expertise" in
  {| prompt := prompt; temperature := 0.1; maxOutputTokens := 1024; topP := 0.8; topK := 40 |}.

(** The document that [/analyze-resume] merges into the user's profile. *)
Definition resumeWrite (req : AnalyzeResumeRequest) (analysis : option Json) : StoreWrite :=
  DocSet ["skill_profiles"; uid req]
    [("lastUpdated", ServerTimestamp);
     ("skills", Plain analysis);
     ("resumeAnalysis", Plain (Some (JBool true)))]
    true.

(** [progress_uid] is [req.user.uid]. *)
Record TrackProgressRequest := {
  skills : string; projectsCompleted : string; certifications : string; progress_uid : string
}.

(** The [request] object of [/track-progress]. *)
Definition progressRequest (req : TrackProgressRequest) : PredictRequest :=
  let prompt :=
    "Analyze skill progress:" +:+ newline +:+ newline
    +:+ "Skills: " +:+ skills req +:+ newline
    +:+ "Projects: " +:+ projectsCompleted req +:+ newline
    +:+ "Certifications: " +:+ certifications req +:+ newline +:+ newline
    +:+ "Provide:" +:+ newline +:+ "1. Skill growth assessment" +:+ newline
    +:+ "2. Proficiency levels" +:+ newline +:+ "3. Areas of improvement" +:+ newline
    +:+ "4. Next steps recommendations" in
  {| prompt := prompt; temperature := 0.2; maxOutputTokens := 1024; topP := 0.8; topK := 40 |}.

(** The document that [/track-progress] adds to the user's updates. *)
Definition progressWrite (req : TrackProgressRequest) (progress : option Json) : StoreWrite :=
  CollectionAdd ["skill_progress"; progress_uid req; "updates"]
    [("timestamp", ServerTimestamp);
     ("progress", Plain progress);
     ("input",
      Plain (Some (JObj [("skills", JStr (skills req));
                         ("projectsCompleted", JStr (projectsCompleted req));
                         ("certifications", JStr (certifications req))])))].

(** [recommendations_uid] is [req.user.uid]. *)
Record GetRecommendationsRequest := {
  currentSkills : string; careerGoals : string; timeframe : string; recommendations_uid : string
}.

(** The [request] object of [/get-recommendations]. *)
Definition recommendationsRequest (req : GetRecommendationsRequest) : PredictRequest :=
  let prompt :=
    "Recommend skill development path:" +:+ newline +:+ newline
    +:+ "Current Skills: " +:+ currentSkills req +:+ newline
    +:+ "Career Goals: " +:+ careerGoals req +:+ newline
    +:+ "Timeframe: " +:+ timeframe req +:+ newline +:+ newline
    +:+ "Provide:" +:+ newline +:+ "1. Priority skills to develop" +:+ newline
    +:+ "2. Learning resources" +:+ newline +:+ "3. Project suggestions" +:+ newline
    +:+ "4. Certification recommendations" in
  {| prompt := prompt; temperature := 0.3; maxOutputTokens := 1024; topP := 0.8; topK := 40 |}.

(** The document that [/get-recommendations] adds to the user's paths. *)
Definition recommendationsWrite (req : GetRecommendationsRequest) (recommendations : option Json) : StoreWrite :=
  CollectionAdd ["skill_recommendations"; recommendations_uid req; "paths"]
    [("timestamp", ServerTimestamp);
     ("recommendations", Plain recommendations);
     ("input",
      Plain (Some (JObj [("currentSkills", JStr (currentSkills req));
                         ("careerGoals", JStr (careerGoals req));
                         ("timeframe", JStr (timeframe req))])))].

Section Handlers.

Context {S E : Type} (clients : Clients S E).

(** [await client.method(...)] on the prediction client or the store. *)
Definition perform {A} (method : S -> (E + A) * S) : M (S := S) (E := E) A :=
  fun w =>
    let (r, s') := method (backend w) in
    (r, mkWorld s' (calls w) (replies w) (console w)).

Definition analyzeResumeRoute (req : AnalyzeResumeRequest) : M (S := S) (E := E) unit :=
  tryCatch
    (match resume req with
     | None => res_status_json 400 (JObj [("error", JStr "No resume file provided")])
     | Some resumeText =>
         let request := resumeRequest resumeText in
         let* predictions := perform (predict clients request) in
         let analysis := head predictions in
         do perform (write clients (resumeWrite req analysis)) then
         res_json (JObj (jsonObject [("analysis", analysis)]))
     end)
    (fun error =>
       do console_error "Resume Analysis Error:" error then
       res_status_json 500 (JObj [("error", JStr "Failed to analyze resume")])).

Definition trackProgressRoute (req : TrackProgressRequest) : M (S := S) (E := E) unit :=
  tryCatch
    (let request := progressRequest req in
     let* predictions := perform (predict clients request) in
     let progress := head predictions in
     do perform (write clients (progressWrite req progress)) then
     res_json (JObj (jsonObject [("progress", progress)])))
    (fun error =>
       do console_error "Progress Tracking Error:" error then
       res_status_json 500 (JObj [("error", JStr "Failed to track progress")])).

Definition getRecommendationsRoute (req : GetRecommendationsRequest) : M (S := S) (E := E) unit :=
  tryCatch
    (let request := recommendationsRequest req in
     let* predictions := perform (predict clients request) in
     let recommendations := head predictions in
     do perform (write clients (recommendationsWrite req recommendations)) then
     res_json (JObj (jsonObject [("recommendations", recommendations)])))
    (fun error =>
       do console_error "Recommendation Error:" error then
       res_status_json 500 (JObj [("error", JStr "Failed to get recommendations")])).

End Handlers.

End Skilltrack.

(** ** Sample data *)

(** ASCII lower-casing: [toLowerCase] restricted to ASCII names. *)
Definition asciiLower (c : ascii) : ascii :=
  let n := nat_of_ascii c in
  if ((65 <=? n) && (n <=? 90))%nat then ascii_of_nat (n + 32) else c.

Fixpoint asciiToLowerCase (s : string) : string :=
  match s with
  | EmptyString => EmptyString
  | String c s' => String (asciiLower c) (asciiToLowerCase s')
  end.

Definition sampleEntity (n : string) (sal : float) : Entity.t :=
  Entity.mk n "OTHER" sal (Sentiment.mk 0 0) None.

Definition sampleAnalysis (s : float) (es : list Entity.t) : Analysis.t :=
  Analysis.mk (Sentiment.mk s 0) es (Syntax.mk []) [].

(** ** Vocabulary of the properties *)

Section ScoreVocabulary.

Local Open Scope float_scope.

(** The requirements entities whose lower-cased name occurs among the
    lower-cased names of the pitch entities. *)
Definition overlappingRequirements (toLowerCase : string -> string)
    (pitchAnalysis requirementsAnalysis : Analysis.t) : list Entity.t :=
  List.filter
    (fun e => bool_decide (toLowerCase (Entity.name e)
                           ∈ map (fun p => toLowerCase (Entity.name p)) (Analysis.entities pitchAnalysis)))
    (Analysis.entities requirementsAnalysis).

(** [x] plus 10, [k] times. *)
Definition plusTen (k : nat) (x : float) : float := Nat.iter k (fun s => s + 10) x.

(** The object [extractKeyFactors] builds for an entity. *)
Definition keyFactor (e : Entity.t) : Json :=
  JObj [("factor", JStr (Entity.name e));
        ("importance", JNum (Entity.salience e));
        ("sentiment", JNum (Sentiment.score (Entity.sentiment e)))].

(** The entities an [e.salience > T] filter keeps. *)
Definition salienceAbove (T : float) (l : list Entity.t) : list Entity.t :=
  List.filter (fun e => Entity.salience e >? T) l.

Definition c2_first : Entity.t := Entity.mk "market" "OTHER" 0.5 (Sentiment.mk 0.1 0.1) None.
Definition c2_second : Entity.t := Entity.mk "growth" "OTHER" 0.25 (Sentiment.mk 0.2 0.2) None.
Definition c2_third : Entity.t := Entity.mk "risk" "OTHER" 0.05 (Sentiment.mk (-0.1) 0.1) None.
Definition c2_analysis : Analysis.t :=
  Analysis.mk (Sentiment.mk 0.5 0.5) [c2_first; c2_second; c2_third] (Syntax.mk []) [].

Definition c6_idea : Analysis.t := Analysis.mk (Sentiment.mk 0.5 0.5) [] (Syntax.mk []) [].
Definition c6_market : Analysis.t :=
  Analysis.mk (Sentiment.mk 0.5 0.5) [] (Syntax.mk []) [Category.mk "/Finance" 0.9].
Definition c6_competition : Analysis.t := Analysis.mk (Sentiment.mk 0 0) [] (Syntax.mk []) [].

Definition c10_analysis : Analysis.t :=
  Analysis.mk (Sentiment.mk (-0.5) 1.5) [] (Syntax.mk []) [].

End ScoreVocabulary.

(** The [score] of the [feasibility] object of the [/idea-check] response. *)
Definition feasibilityScore (analysis : Analysis.t) : option Json :=
  match JsonOps.get "feasibility" (Planning.ideaCheckResponse analysis) with
  | Some feasibility => JsonOps.get "score" feasibility
  | None => None
  end.

(** The value found in a reply payload by following property names, as a
    client reading [payload.a.b.c] would. *)
Fixpoint fieldAt (path : list string) (payload : Json) : option Json :=
  match path with
  | [] => Some payload
  | key :: rest =>
      match JsonOps.get key payload with
      | Some value => fieldAt rest value
      | None => None
      end
  end.

Section RequestVocabulary.

Import Server.

Context {S E : Type}.

(** The extractor of a router and the backend calls it plans for a text. *)
Variable extract : string -> M (S := S) (E := E) Analysis.t.
Variable plan : string -> list ApiCall.

(** [failsAt fields w e wf]: extracting the fields in order from world
    [w], every field before some field succeeds and that field throws
    [e], leaving world [wf]. *)
Inductive failsAt : list string -> World S E -> E -> World S E -> Prop :=
| fails_here text rest w e wf :
    extract text w = (inl e, wf) -> failsAt (text :: rest) w e wf
| fails_later text rest w a w1 e wf :
    extract text w = (inr a, w1) -> failsAt rest w1 e wf -> failsAt (text :: rest) w e wf.

(** An extraction only talks to the backend: it performs its planned
    calls in order, once each, stops at the first call that fails, and
    writes neither a reply nor a console line. *)
Definition followsPlan : Prop :=
  forall text w,
    replies (snd (extract text w)) = replies w
    /\ console (snd (extract text w)) = console w
    /\ match fst (extract text w) with
       | inr _ => calls (snd (extract text w)) = calls w ++ plan text
       | inl _ => exists n, calls (snd (extract text w)) = calls w ++ firstn n (plan text)
       end.

(** A route aborts on an extraction failure when its run ends at the
    backend state and call trace of the failure (nothing is retried and no
    further field is extracted), having written one console line and
    exactly one reply: status 500 with the route's error message. *)
Definition abortsOnFailure (fields : list string) (route : M unit) (tag message : string) : Prop :=
  forall w e wf,
    failsAt fields w e wf ->
    route w =
      (inr tt,
       mkWorld (backend wf) (calls wf)
         (replies w ++ [mkReply 500 (JObj [("error", JStr message)])])
         (console w ++ [(tag, e)]))
    /\ exists n, calls wf = calls w ++ firstn n (flat_map plan fields).

End RequestVocabulary.

Arguments fails_here {S E extract}.
Arguments fails_later {S E extract}.

Section RunVocabulary.

Import Server.

(** The backend calls of an extraction that classifies the text. *)
Definition fullPlan (text : string) : list ApiCall :=
  [AnalyzeSentiment text; AnalyzeEntities text; AnalyzeSyntax text; ClassifyText text].

(** The backend calls of [analyzePitch]. *)
Definition pitchPlan (text : string) : list ApiCall :=
  [AnalyzeSentiment text; AnalyzeEntities text; AnalyzeSyntax text].

(** [succeedsWith extract fields w analyses wf]: extracting the fields in
    order from world [w] succeeds for each and returns [analyses]. *)
Inductive succeedsWith {S E : Type} (extract : string -> M (S := S) (E := E) Analysis.t) :
    list string -> World S E -> list Analysis.t -> World S E -> Prop :=
| succeeds_nil w : succeedsWith extract [] w [] w
| succeeds_cons text rest w a w1 analyses wf :
    extract text w = (inr a, w1) -> succeedsWith extract rest w1 analyses wf ->
    succeedsWith extract (text :: rest) w (a :: analyses) wf.

(** Two runs send the same verdict: each appends one reply of status 200,
    with the same payload. *)
Definition sameVerdict {S1 E1 S2 E2 : Type}
    (route1 : M (S := S1) (E := E1) unit) (w1 : World S1 E1)
    (route2 : M (S := S2) (E := E2) unit) (w2 : World S2 E2) : Prop :=
  exists payload,
    replies (snd (route1 w1)) = replies w1 ++ [mkReply 200 payload]
    /\ replies (snd (route2 w2)) = replies w2 ++ [mkReply 200 payload].

End RunVocabulary.

(** The number of elements of a JSON array. *)
Definition arrayLength (j : option Json) : option nat :=
  match j with
  | Some (JArr items) => Some (length items)
  | _ => None
  end.

Section ReplyVocabulary.

Import Server.

(** A route answers [w] once: it returns normally and appends exactly one
    reply, of status 200 or 500. *)
Definition answersOnce {S E : Type} (route : M (S := S) (E := E) unit) : Prop :=
  forall w,
    fst (route w) = inr tt
    /\ exists reply,
         replies (snd (route w)) = replies w ++ [reply]
         /\ (status reply = 200 \/ status reply = 500).

(** A route completes on success when, all its extractions succeeding, its
    run ends with the backend as the last extraction left it, the planned
    calls of all fields made in order and once each, nothing written to the
    console, and exactly one reply, of status 200. *)
Definition completesOnSuccess {S E : Type}
    (extract : string -> M (S := S) (E := E) Analysis.t) (plan : string -> list ApiCall)
    (fields : list string) (route : M (S := S) (E := E) unit) : Prop :=
  forall w analyses wf,
    succeedsWith extract fields w analyses wf ->
    exists payload,
      route w =
        (inr tt,
         mkWorld (backend wf) (calls w ++ flat_map plan fields)
           (replies w ++ [mkReply 200 payload]) (console w)).

End ReplyVocabulary.

Section SkilltrackVocabulary.

Import Server Skilltrack.

(** The outcome of one skill-tracking request: the prediction is asked
    once; if it fails nothing is written; otherwise its first prediction
    is written once; the reply is 200 with that same prediction only if
    both succeeded, and 500 with the route's message otherwise. *)
Definition predictThenStore {S E : Type} (clients : Clients S E) (request : PredictRequest) (writeOf : option Json -> StoreWrite)
    (key tag message : string) (route : M (S := S) (E := E) unit) : Prop :=
  forall w,
    match predict clients request (backend w) with
    | (inl e, s1) =>
        route w =
          (inr tt,
           mkWorld s1 (calls w)
             (replies w ++ [mkReply 500 (JObj [("error", JStr message)])])
             (console w ++ [(tag, e)]))
    | (inr predictions, s1) =>
        match write clients (writeOf (head predictions)) s1 with
        | (inl e, s2) =>
            route w =
              (inr tt,
               mkWorld s2 (calls w)
                 (replies w ++ [mkReply 500 (JObj [("error", JStr message)])])
                 (console w ++ [(tag, e)]))
        | (inr _, s2) =>
            route w =
              (inr tt,
               mkWorld s2 (calls w)
                 (replies w ++ [mkReply 200 (JObj (jsonObject [(key, head predictions)]))])
                 (console w))
        end
    end.

End SkilltrackVocabulary.

Definition sampleFeedbackBody : Pitch.PracticeFeedbackBody := {| Pitch.pitchScript := "We sell shoes." |}.

(** A prediction client that always answers and a store that records its
    writes. *)
Definition memoryClients : Skilltrack.Clients (list Skilltrack.StoreWrite) string :=
  {| Skilltrack.predict := fun _ store => (inr [JStr "Python, SQL"; JStr "Go"], store);
     Skilltrack.write := fun w store => (inr tt, store ++ [w]) |}.

Definition sampleProgressRequest : Skilltrack.TrackProgressRequest :=
  {| Skilltrack.skills := "Python"; Skilltrack.projectsCompleted := "2";
     Skilltrack.certifications := "none"; Skilltrack.progress_uid := "user-1" |}.

(** A backend with a quota: every call consumes one unit and is rejected
    once the quota is used up. *)
Definition quotaCall {A} (answer : A) (quota : nat) : (string + A) * nat :=
  match quota with
  | O => (inl "RESOURCE_EXHAUSTED", O)
  | Datatypes.S quota' => (inr answer, quota')
  end.

Definition quotaClient : Server.LanguageServiceClient nat string :=
  {| Server.analyzeSentiment := fun _ => quotaCall (Sentiment.mk 0.5 0.5);
     Server.analyzeEntities := fun text => quotaCall [sampleEntity text 0.5];
     Server.analyzeSyntax := fun text => quotaCall (Syntax.mk [Sentence.mk text]);
     Server.classifyText := fun _ => quotaCall None |}.

(** A backend that always answers, with the given document sentiment and
    nothing else. *)
Definition steadyClient (sentiment : Sentiment.t) : Server.LanguageServiceClient unit string :=
  {| Server.analyzeSentiment := fun _ st => (inr sentiment, st);
     Server.analyzeEntities := fun _ st => (inr [], st);
     Server.analyzeSyntax := fun _ st => (inr (Syntax.mk []), st);
     Server.classifyText := fun _ st => (inr None, st) |}.

Definition sampleAnalyzeBody : Market.AnalyzeBody :=
  {| Market.market := "fintech"; Market.industry := "banking"; Market.trends := "open banking" |}.

(** The sign carried by a non-NaN value. *)
Definition sf_sign_is (s : bool) (x : spec_float) : Prop :=
  match x with
  | S754_zero s' | S754_infinity s' | S754_finite s' _ _ => s' = s
  | S754_nan => False
  end.

(** Values that are neither NaN nor negative, -0 excluded. *)
Definition nonneg (x : spec_float) : Prop := sf_sign_is false x.

(** ** Facts about binary64 rounding, on the specification [spec_float] *)

Module Binary64.

Local Open Scope Z_scope.

Lemma shr_1_nonneg mrs : 0 <= shr_m mrs -> 0 <= shr_m (shr_1 mrs).
Proof.
  destruct mrs as [m r s]; simpl.
  destruct m as [|p|p]; simpl; intros H; try lia.
  - destruct p; simpl; lia.
Qed.

Lemma iter_pos_shr_1_nonneg n : forall mrs,
  0 <= shr_m mrs -> 0 <= shr_m (SpecFloat.iter_pos shr_1 n mrs).
Proof.
  induction n as [n IH|n IH|]; simpl; intros mrs H.
  - apply IH, IH, shr_1_nonneg, H.
  - apply IH, IH, H.
  - apply shr_1_nonneg, H.
Qed.

Lemma shr_record_of_loc_m m l : shr_m (shr_record_of_loc m l) = m.
Proof. destruct l as [|[]]; reflexivity. Qed.

Lemma shr_nonneg mrs e n : 0 <= shr_m mrs -> 0 <= shr_m (fst (shr mrs e n)).
Proof.
  intros H. destruct n; simpl; trivial.
  apply iter_pos_shr_1_nonneg, H.
Qed.

Lemma shr_fexp_nonneg m e l : 0 <= m -> 0 <= shr_m (fst (shr_fexp prec emax m e l)).
Proof.
  intros H. unfold shr_fexp. apply shr_nonneg. now rewrite shr_record_of_loc_m.
Qed.

Lemma round_nearest_even_nonneg m l : 0 <= m -> 0 <= round_nearest_even m l.
Proof.
  intros H. destruct l as [|[]]; simpl; try lia.
  destruct (Z.even m); lia.
Qed.

(** Rounding a non-negative mantissa never produces NaN and keeps the
    sign it was given. *)
Lemma binary_round_aux_sign s m e l :
  0 <= m -> sf_sign_is s (binary_round_aux prec emax s m e l).
Proof.
  intros H. unfold binary_round_aux.
  pose proof (shr_fexp_nonneg m e l H) as H1.
  destruct (shr_fexp prec emax m e l) as [mrs' e'].
  pose proof (shr_fexp_nonneg _ e' loc_Exact
                (round_nearest_even_nonneg _ (loc_of_shr_record mrs') H1)) as H2.
  destruct (shr_fexp prec emax _ e' loc_Exact) as [mrs'' e''].
  simpl in H2.
  destruct (shr_m mrs'') as [|p|p]; [reflexivity| |lia].
  destruct (e'' <=? emax - prec); reflexivity.
Qed.

Lemma binary_round_sign s m e : sf_sign_is s (binary_round prec emax s m e).
Proof.
  unfold binary_round.
  destruct (shl_align m e _) as [mz ez].
  apply binary_round_aux_sign. lia.
Qed.

Lemma SFadd_nonneg x y : nonneg x -> nonneg y -> nonneg (SF64add x y).
Proof.
  unfold nonneg.
  destruct x as [sx|sx| |sx mx ex], y as [sy|sy| |sy my ey]; simpl;
    intros Hx Hy; subst; try contradiction; try reflexivity.
  unfold binary_normalize.
  destruct (shl_align mx ex _) as [a ?], (shl_align my ey _) as [b ?]; simpl.
  apply binary_round_sign.
Qed.

Lemma SFmul_nonneg_finite x my ey :
  nonneg x -> nonneg (SF64mul x (S754_finite false my ey)).
Proof.
  unfold nonneg.
  destruct x as [sx|sx| |sx mx ex]; simpl; intros Hx; subst; try contradiction; try reflexivity.
  apply binary_round_aux_sign. lia.
Qed.


(** *** Alignment and digit counts *)

Lemma iter_xO_pow m d : Zpos (Pos.iter xO m d) = Zpos m * 2 ^ Zpos d.
Proof.
  revert m. induction d as [|d IH] using Pos.peano_ind; intros m.
  - simpl. lia.
  - rewrite Pos.iter_succ, Pos2Z.inj_succ, Z.pow_succ_r by lia.
    rewrite Pos2Z.inj_xO, IH. lia.
Qed.

Lemma shl_align_fst m e e' :
  e' <= e -> Zpos (fst (shl_align m e e')) = Zpos m * 2 ^ (e - e').
Proof.
  intros H. unfold shl_align.
  destruct (e' - e) as [|p|p] eqn:Hd; cbn [fst].
  - replace (e - e') with 0 by lia. rewrite Z.pow_0_r. lia.
  - lia.
  - rewrite iter_xO_pow. f_equal. f_equal.
    pose proof (Pos2Z.opp_pos p). lia.
Qed.

Lemma digits2_pos_bound m : Zpos m < 2 ^ Zpos (digits2_pos m).
Proof.
  induction m as [m IH|m IH|]; simpl digits2_pos.
  - rewrite Pos2Z.inj_succ, Z.pow_succ_r, Pos2Z.inj_xI by lia. lia.
  - rewrite Pos2Z.inj_succ, Z.pow_succ_r by lia. change (Zpos m~0) with (2 * Zpos m). lia.
  - reflexivity.
Qed.

Lemma digits2_pos_lower m : 2 ^ (Zpos (digits2_pos m) - 1) <= Zpos m.
Proof.
  induction m as [m IH|m IH|]; simpl digits2_pos;
    try pose proof (Pos2Z.is_pos (digits2_pos m)) as Hpos.
  - rewrite Pos2Z.inj_succ, Pos2Z.inj_xI.
    replace (Z.succ (Zpos (digits2_pos m)) - 1) with (Z.succ (Zpos (digits2_pos m) - 1)) by lia.
    rewrite Z.pow_succ_r by lia. lia.
  - rewrite Pos2Z.inj_succ. change (Zpos m~0) with (2 * Zpos m).
    replace (Z.succ (Zpos (digits2_pos m)) - 1) with (Z.succ (Zpos (digits2_pos m) - 1)) by lia.
    rewrite Z.pow_succ_r by lia. lia.
  - simpl. lia.
Qed.

(** A valid finite binary64 value has at most 53 digits and an exponent
    of at least -1074. *)
Lemma bounded_digits m e :
  bounded prec emax m e = true ->
  Zpos (digits2_pos m) <= 53 /\ -1074 <= e <= 971 /\
  (Zpos (digits2_pos m) = 53 \/ e = -1074).
Proof.
  unfold bounded, canonical_mantissa, fexp, SpecFloat.emin, prec, emax.
  intros H. apply andb_true_iff in H. destruct H as [H1 H2].
  apply Z.eqb_eq in H1. apply Z.leb_le in H2. lia.
Qed.

Lemma bounded_mantissa m e : bounded prec emax m e = true -> Zpos m < 2 ^ 53.
Proof.
  intros H. apply bounded_digits in H. destruct H as [H _].
  pose proof (digits2_pos_bound m) as Hb.
  eapply Z.lt_le_trans; [exact Hb|].
  apply Z.pow_le_mono_r; lia.
Qed.


(** *** Sums of finite values *)

Lemma SFadd_finite sx mx ex sy my ey :
  SF64add (S754_finite sx mx ex) (S754_finite sy my ey) =
  binary_normalize prec emax
    (cond_Zopp sx (Zpos (fst (shl_align mx ex (Z.min ex ey))))
     + cond_Zopp sy (Zpos (fst (shl_align my ey (Z.min ex ey)))))
    (Z.min ex ey) false.
Proof. reflexivity. Qed.

Lemma binary_normalize_nonneg z e : 0 <= z -> nonneg (binary_normalize prec emax z e false).
Proof.
  intros H. destruct z as [|p|p]; cbn [binary_normalize]; [reflexivity| |lia].
  apply binary_round_sign.
Qed.

Lemma SFleb_neg_finite my ey m e :
  SFleb (S754_finite true my ey) (S754_finite true m e) = true ->
  e < ey \/ (e = ey /\ Zpos m <= Zpos my).
Proof.
  unfold SFleb, SFcompare.
  destruct (Z.compare_spec ey e) as [Heq|Hlt|Hgt]; intros H; try discriminate; [|lia].
  right. split; [lia|].
  change (Pos.compare_cont Eq my m) with (Pos.compare my m) in H.
  destruct (Pos.compare_spec my m) as [Hm|Hm|Hm]; cbn in H; try discriminate; lia.
Qed.

(** Only a finite value itself compares equal to it. *)
Lemma SFeqb_finite x s m e : SFeqb x (S754_finite s m e) = true -> x = S754_finite s m e.
Proof.
  unfold SFeqb, SFcompare.
  destruct x as [sx|sx| |sx mx ex]; try discriminate.
  - destruct s; discriminate.
  - destruct sx; discriminate.
  - change (Pos.compare_cont Eq mx m) with (Pos.compare mx m).
    destruct sx, s; try discriminate;
      destruct (Z.compare_spec ex e) as [He|He|He]; try discriminate;
      destruct (Pos.compare_spec mx m) as [Hm|Hm|Hm]; try discriminate;
      intros _; now subst.
Qed.

(** [x >= -y] gives [x + y >= 0], -0 excluded, for a finite positive [y]. *)
Lemma SFadd_ge_opp x my ey :
  valid_binary x = true -> bounded prec emax my ey = true ->
  SFleb (S754_finite true my ey) x = true ->
  nonneg (SF64add x (S754_finite false my ey)).
Proof.
  intros Hv Hy Hle.
  destruct x as [sx|sx| |sx m e].
  - reflexivity.
  - destruct sx; [discriminate|reflexivity].
  - discriminate.
  - rewrite SFadd_finite. apply binary_normalize_nonneg.
    rewrite !shl_align_fst by lia.
    destruct sx; cbn [cond_Zopp]; [|lia].
    apply SFleb_neg_finite in Hle.
    cbn [valid_binary] in Hv.
    pose proof (bounded_mantissa m e Hv) as Hm.
    apply bounded_digits in Hv. apply bounded_digits in Hy.
    pose proof (digits2_pos_lower my) as Hlow.
    destruct Hle as [Hlt|[-> Hmm]].
    + replace (Z.min e ey) with e by lia.
      rewrite Z.sub_diag, Z.pow_0_r.
      assert (Hd : Zpos (digits2_pos my) = 53) by lia.
      rewrite Hd in Hlow. change (2 ^ (53 - 1)) with 4503599627370496 in Hlow.
      change (2 ^ 53) with 9007199254740992 in Hm.
      assert (2 ^ 1 <= 2 ^ (ey - e)) by (apply Z.pow_le_mono_r; lia).
      change (2 ^ 1) with 2 in *. nia.
    + rewrite Z.min_id, Z.sub_diag, Z.pow_0_r. lia.
Qed.

(** *** Order *)

Lemma SFcompare_finite_spec s m1 e1 m2 e2 :
  SFcompare (S754_finite s m1 e1) (S754_finite s m2 e2) =
  Some (let c := match (e1 ?= e2)%Z with Eq => (m1 ?= m2)%positive | c => c end in
        if s then CompOpp c else c).
Proof.
  unfold SFcompare. change (Pos.compare_cont Eq m1 m2) with (Pos.compare m1 m2).
  destruct s, (e1 ?= e2)%Z; reflexivity.
Qed.

Lemma SFleb_ltb_trans a b c : SFleb a b = true -> SFltb b c = true -> SFltb a c = true.
Proof.
  unfold SFleb, SFltb.
  destruct a as [sa|sa| |sa ma ea], b as [sb|sb| |sb mb eb], c as [sc|sc| |sc mc ec];
    try discriminate;
    repeat match goal with s : bool |- _ => destruct s end;
    try discriminate; try reflexivity;
    try (cbn; discriminate); try (cbn; reflexivity);
    rewrite ?SFcompare_finite_spec; cbn;
    (destruct (Z.compare_spec ea eb); try discriminate);
    (destruct (Z.compare_spec eb ec); try discriminate);
    (destruct (Z.compare_spec ea ec); try discriminate);
    try lia; try reflexivity; cbn;
    try (destruct (Pos.compare_spec ma mb); cbn; try discriminate);
    try (destruct (Pos.compare_spec mb mc); cbn; try discriminate);
    try (destruct (Pos.compare_spec ma mc); cbn; try discriminate);
    intros; try discriminate; try reflexivity; try lia.
Qed.

(** *** Exact rounding *)

Lemma shr_1_div2 mrs : 0 <= shr_m mrs -> shr_m (shr_1 mrs) = shr_m mrs / 2.
Proof.
  destruct mrs as [m r s]. cbn [shr_m shr_1].
  destruct m as [|p|p]; intros H; try lia; [reflexivity|].
  destruct p as [p|p|]; cbn [shr_m].
  - change (Zpos p~1) with (2 * Zpos p + 1). apply Z.div_unique with 1; lia.
  - change (Zpos p~0) with (2 * Zpos p). apply Z.div_unique with 0; lia.
  - reflexivity.
Qed.

Lemma iter_pos_shr_1_div p : forall mrs,
  0 <= shr_m mrs -> shr_m (SpecFloat.iter_pos shr_1 p mrs) = shr_m mrs / 2 ^ Zpos p.
Proof.
  induction p as [p IH|p IH|]; intros mrs H; cbn [SpecFloat.iter_pos].
  - rewrite IH by (apply iter_pos_shr_1_nonneg, shr_1_nonneg, H).
    rewrite IH by (apply shr_1_nonneg, H).
    rewrite shr_1_div2 by exact H.
    rewrite !Z.div_div by lia.
    f_equal. change (Zpos p~1) with (2 * Zpos p + 1).
    rewrite Z.pow_add_r, Z.pow_mul_r by lia. change (2 ^ 2) with 4. 
    rewrite Z.pow_1_r.
    replace 4 with (2 * 2) by lia. rewrite Z.pow_mul_l. lia.
  - rewrite IH by (apply iter_pos_shr_1_nonneg, H).
    rewrite IH by exact H.
    rewrite !Z.div_div by lia.
    f_equal. change (Zpos p~0) with (2 * Zpos p).
    rewrite Z.pow_mul_r by lia. change (2 ^ 2) with 4.
    replace 4 with (2 * 2) by lia. rewrite Z.pow_mul_l. lia.
  - rewrite shr_1_div2 by exact H. reflexivity.
Qed.

(** [shr_fexp] on an exact location: the mantissa is divided by the power
    of two that brings it to the canonical exponent. *)
Lemma shr_fexp_exact m e :
  0 < m ->
  let n := fexp prec emax (Zdigits2 m + e) - e in
  shr_m (fst (shr_fexp prec emax m e loc_Exact)) = m / 2 ^ Z.max n 0
  /\ snd (shr_fexp prec emax m e loc_Exact) = e + Z.max n 0.
Proof.
  intros Hm n. unfold shr_fexp. fold n. cbn [shr_record_of_loc]. unfold shr.
  destruct n as [|p|p] eqn:Hn.
  - cbn [fst snd shr_m]. rewrite Z.max_id, Z.pow_0_r, Z.div_1_r. split; lia.
  - cbn [fst snd]. rewrite iter_pos_shr_1_div by (cbn; lia). cbn [shr_m].
    replace (Z.max (Zpos p) 0) with (Zpos p) by lia. split; reflexivity.
  - cbn [fst snd shr_m]. replace (Z.max (Zneg p) 0) with 0 by lia.
    rewrite Z.pow_0_r, Z.div_1_r. split; lia.
Qed.

Lemma fexp_eq z : fexp prec emax z = Z.max (z - 53) (-1074).
Proof. reflexivity. Qed.

Lemma Zdigits2_bounds z : 0 < z -> 2 ^ (Zdigits2 z - 1) <= z < 2 ^ Zdigits2 z.
Proof.
  destruct z as [|p|p]; intros H; try lia. cbn [Zdigits2].
  split; [apply digits2_pos_lower | apply digits2_pos_bound].
Qed.

Lemma Zdigits2_pos z : 0 < z -> 1 <= Zdigits2 z.
Proof. destruct z as [|p|p]; intros H; try lia. cbn [Zdigits2]. lia. Qed.

(** An upper bound by a power of two bounds the digit count. *)
Lemma Zdigits2_le z k : 0 < z -> z < 2 ^ k -> Zdigits2 z <= k.
Proof.
  intros Hz Hk. pose proof (Zdigits2_bounds z Hz) as [Hlo _].
  pose proof (Zdigits2_pos z Hz).
  destruct (Z.le_gt_cases (Zdigits2 z) k) as [|Hgt]; [assumption|].
  assert (2 ^ k <= 2 ^ (Zdigits2 z - 1)) by (apply Z.pow_le_mono_r; lia). lia.
Qed.

Lemma Zdigits2_ge z k : 0 <= k -> 2 ^ k <= z -> k + 1 <= Zdigits2 z.
Proof.
  intros Hk Hz. assert (0 < z) by (pose proof (Z.pow_pos_nonneg 2 k); lia).
  pose proof (Zdigits2_bounds z H) as [_ Hhi].
  pose proof (Zdigits2_pos z H).
  destruct (Z.le_gt_cases (k + 1) (Zdigits2 z)) as [|Hgt]; [assumption|].
  assert (2 ^ Zdigits2 z <= 2 ^ k) by (apply Z.pow_le_mono_r; lia). lia.
Qed.

Lemma round_nearest_even_bounds q l : q <= round_nearest_even q l <= q + 1.
Proof. destruct l as [|[]]; cbn; try lia. destruct (Z.even q); lia. Qed.

(** Rounding an exact positive mantissa: it is shifted to its canonical
    exponent, rounded to [r], and shifted once more if [r] gained a digit. *)
Lemma binary_round_aux_exact s M E :
  0 < M ->
  1 <= M / 2 ^ Z.max (fexp prec emax (Zdigits2 M + E) - E) 0 ->
  exists r,
    M / 2 ^ Z.max (fexp prec emax (Zdigits2 M + E) - E) 0 <= r
      <= M / 2 ^ Z.max (fexp prec emax (Zdigits2 M + E) - E) 0 + 1
    /\ binary_round_aux prec emax s M E loc_Exact =
       match r / 2 ^ Z.max (fexp prec emax (Zdigits2 r + (E + Z.max (fexp prec emax (Zdigits2 M + E) - E) 0))
                           - (E + Z.max (fexp prec emax (Zdigits2 M + E) - E) 0)) 0 with
       | Z0 => S754_zero s
       | Zpos m =>
           if E + Z.max (fexp prec emax (Zdigits2 M + E) - E) 0
              + Z.max (fexp prec emax (Zdigits2 r + (E + Z.max (fexp prec emax (Zdigits2 M + E) - E) 0))
                       - (E + Z.max (fexp prec emax (Zdigits2 M + E) - E) 0)) 0 <=? emax - prec
           then S754_finite s m
                  (E + Z.max (fexp prec emax (Zdigits2 M + E) - E) 0
                   + Z.max (fexp prec emax (Zdigits2 r + (E + Z.max (fexp prec emax (Zdigits2 M + E) - E) 0))
                            - (E + Z.max (fexp prec emax (Zdigits2 M + E) - E) 0)) 0)
           else S754_infinity s
       | Zneg _ => S754_nan
       end.
Proof.
  intros HM Hq. unfold binary_round_aux.
  pose proof (shr_fexp_exact M E HM) as [H1 H2]. cbv zeta in H1, H2.
  destruct (shr_fexp prec emax M E loc_Exact) as [mrs' e']. cbn [fst snd] in H1, H2.
  set (r := round_nearest_even (shr_m mrs') (loc_of_shr_record mrs')).
  pose proof (round_nearest_even_bounds (shr_m mrs') (loc_of_shr_record mrs')) as Hr.
  fold r in Hr. rewrite H1 in Hr.
  exists r. split; [exact Hr|].
  assert (Hrpos : 0 < r) by lia.
  pose proof (shr_fexp_exact r e' Hrpos) as [H3 H4]. cbv zeta in H3, H4.
  destruct (shr_fexp prec emax r e' loc_Exact) as [mrs'' e'']. cbn [fst snd] in H3, H4.
  rewrite H3, H4, H2. reflexivity.
Qed.

(** In the normal range the rounded mantissa is at least the truncated
    one, unless the exponent was raised by a carry or the result overflowed. *)
Lemma binary_round_aux_exact_lower s M E :
  0 < M -> 53 <= Zdigits2 M -> -1074 <= Zdigits2 M + E - 53 ->
  binary_round_aux prec emax s M E loc_Exact = S754_infinity s
  \/ exists m' e', binary_round_aux prec emax s M E loc_Exact = S754_finite s m' e'
       /\ ((e' = E + Zdigits2 M - 53 /\ M / 2 ^ (Zdigits2 M - 53) <= Zpos m')
           \/ e' = E + Zdigits2 M - 53 + 1).
Proof.
  intros HM Hd Hn.
  pose proof (Zdigits2_bounds M HM) as [Hlo Hhi].
  set (d := Zdigits2 M) in *.
  assert (Hn1 : Z.max (fexp prec emax (d + E) - E) 0 = d - 53) by (rewrite fexp_eq; lia).
  assert (Hpow : 2 ^ (d - 1) = 2 ^ (d - 53) * 2 ^ 52) by (rewrite <- Z.pow_add_r by lia; f_equal; lia).
  assert (Hpow' : 2 ^ d = 2 ^ (d - 53) * 2 ^ 53) by (rewrite <- Z.pow_add_r by lia; f_equal; lia).
  assert (Hp : 0 < 2 ^ (d - 53)) by (apply Z.pow_pos_nonneg; lia).
  assert (Hq1 : 2 ^ 52 <= M / 2 ^ (d - 53)) by (apply Z.div_le_lower_bound; lia).
  assert (Hq2 : M / 2 ^ (d - 53) < 2 ^ 53) by (apply Z.div_lt_upper_bound; lia).
  destruct (binary_round_aux_exact s M E HM) as (r & Hr & Hres).
  { fold d. rewrite Hn1. change (2 ^ 52) with 4503599627370496 in Hq1. lia. }
  fold d in Hr, Hres. rewrite Hn1 in Hr, Hres.
  set (q := M / 2 ^ (d - 53)) in *.
  assert (Hr52 : 2 ^ 52 <= r) by lia.
  assert (Hr54 : r < 2 ^ 54).
  { change (2 ^ 53) with 9007199254740992 in Hq2.
    change (2 ^ 54) with 18014398509481984. lia. }
  assert (Hrpos : 0 < r) by (change (2 ^ 52) with 4503599627370496 in Hr52; lia).
  pose proof (Zdigits2_ge r 52 ltac:(lia) Hr52) as Hdr1.
  pose proof (Zdigits2_le r 54 Hrpos Hr54) as Hdr2.
  assert (Hn2 : Z.max (fexp prec emax (Zdigits2 r + (E + (d - 53))) - (E + (d - 53))) 0 = Zdigits2 r - 53)
    by (rewrite fexp_eq; lia).
  rewrite Hn2 in Hres.
  destruct (Z.eq_dec (Zdigits2 r) 53) as [H53|H53].
  - rewrite H53 in Hres. rewrite Z.sub_diag, Z.pow_0_r, Z.div_1_r, Z.add_0_r in Hres.
    destruct r as [|m'|m']; try lia.
    destruct (_ <=? _) in Hres; [right|left; exact Hres].
    exists m', (E + (d - 53)). split; [exact Hres|]. left. split; lia.
  - assert (H54 : Zdigits2 r = 54) by lia.
    rewrite H54 in Hres. change (54 - 53) with 1 in Hres. rewrite Z.pow_1_r in Hres.
    assert (Hhalf : 1 <= r / 2).
    { apply Z.div_le_lower_bound; [lia|]. change (2 ^ 52) with 4503599627370496 in Hr52. lia. }
    destruct (r / 2) as [|m'|m']; try lia.
    destruct (_ <=? _) in Hres; [right|left; exact Hres].
    exists m', (E + (d - 53) + 1). split; [exact Hres|]. right. lia.
Qed.

(** Away from underflow, rounding a positive mantissa gives a non-zero
    value of the given sign. *)
Lemma binary_round_aux_exact_nonzero s M E :
  0 < M -> -1074 < Zdigits2 M + E ->
  match binary_round_aux prec emax s M E loc_Exact with
  | S754_finite s' _ _ | S754_infinity s' => s' = s
  | _ => False
  end.
Proof.
  intros HM Hn.
  pose proof (Zdigits2_bounds M HM) as [Hlo Hhi].
  pose proof (Zdigits2_pos M HM) as Hd.
  set (d := Zdigits2 M) in *.
  set (n1 := Z.max (fexp prec emax (d + E) - E) 0).
  assert (Hn1 : 0 <= n1 <= d - 1) by (unfold n1; rewrite fexp_eq; lia).
  assert (He' : -1074 <= E + n1) by (unfold n1; rewrite fexp_eq; lia).
  assert (Hp : 0 < 2 ^ n1) by (apply Z.pow_pos_nonneg; lia).
  assert (Hq : 1 <= M / 2 ^ n1).
  { apply Z.div_le_lower_bound; [lia|].
    assert (2 ^ n1 <= 2 ^ (d - 1)) by (apply Z.pow_le_mono_r; lia). lia. }
  destruct (binary_round_aux_exact s M E HM) as (r & Hr & Hres); [exact Hq|].
  fold d in Hr, Hres. fold n1 in Hr, Hres.
  assert (Hrpos : 0 < r) by lia.
  pose proof (Zdigits2_bounds r Hrpos) as [Hrlo _].
  pose proof (Zdigits2_pos r Hrpos) as Hdr.
  set (n2 := Z.max (fexp prec emax (Zdigits2 r + (E + n1)) - (E + n1)) 0) in *.
  assert (Hn2 : 0 <= n2 <= Zdigits2 r - 1) by (unfold n2; rewrite fexp_eq; lia).
  assert (Hp2 : 0 < 2 ^ n2) by (apply Z.pow_pos_nonneg; lia).
  assert (Hfin : 1 <= r / 2 ^ n2).
  { apply Z.div_le_lower_bound; [lia|].
    assert (2 ^ n2 <= 2 ^ (Zdigits2 r - 1)) by (apply Z.pow_le_mono_r; lia). lia. }
  rewrite Hres. destruct (r / 2 ^ n2) as [|m'|m']; try lia.
  destruct (_ <=? _); reflexivity.
Qed.

(** *** Products of finite values *)

Lemma SFmul_finite sx mx ex sy my ey :
  SF64mul (S754_finite sx mx ex) (S754_finite sy my ey) =
  binary_round_aux prec emax (xorb sx sy) (Zpos (mx * my)) (ex + ey) loc_Exact.
Proof. reflexivity. Qed.

(** A negative value times a finite value that is at least 1 is negative:
    the product cannot underflow to -0. *)
Lemma SFmul_neg_pos x mc ec :
  valid_binary x = true -> Zpos (digits2_pos mc) = 53 -> -52 <= ec ->
  SFltb x (S754_zero false) = true ->
  SFltb (SF64mul x (S754_finite false mc ec)) (S754_zero false) = true.
Proof.
  intros Hv Hc Hec Hx.
  destruct x as [sx|sx| |sx m e]; try discriminate.
  - destruct sx; [reflexivity|discriminate].
  - destruct sx; [|discriminate].
    rewrite SFmul_finite. cbn [xorb].
    cbn [valid_binary] in Hv. apply bounded_digits in Hv.
    pose proof (digits2_pos_lower mc) as Hmc. rewrite Hc in Hmc.
    change (2 ^ (53 - 1)) with 4503599627370496 in Hmc.
    assert (HM : 2 ^ 52 <= Zpos (m * mc)).
    { change (2 ^ 52) with 4503599627370496. rewrite Pos2Z.inj_mul. nia. }
    pose proof (Zdigits2_ge _ 52 ltac:(lia) HM) as Hd.
    pose proof (binary_round_aux_exact_nonzero true (Zpos (m * mc)) (e + ec) ltac:(lia) ltac:(lia)) as Hr.
    destruct (binary_round_aux _ _ _ _ _ _) as [s'|s'| |s' m' e']; try contradiction;
      subst s'; reflexivity.
Qed.

(** A normal positive value grows strictly when multiplied by a value
    greater than 1. *)
Lemma SFmul_gt_one x mc ec :
  valid_binary x = true -> bounded prec emax mc ec = true -> Zpos (digits2_pos mc) = 53 ->
  SFltb (S754_finite false 4503599627370496 (-52)) x = true ->
  SFltb (S754_finite false mc ec) (SF64mul x (S754_finite false mc ec)) = true.
Proof.
  intros Hv Hb Hc Hx.
  destruct x as [sx|sx| |sx m e]; try discriminate.
  - destruct sx; [discriminate|reflexivity].
  - destruct sx; [discriminate|].
    unfold SFltb in Hx. rewrite SFcompare_finite_spec in Hx. cbv zeta iota in Hx.
    assert (Hxe : -52 < e \/ (e = -52 /\ 4503599627370496 < Zpos m)).
    { destruct (Z.compare_spec (-52) e) as [He|He|He]; try discriminate; [right|left; lia].
      split; [lia|].
      destruct (Pos.compare_spec 4503599627370496 m) as [Hm|Hm|Hm]; try discriminate. lia. }
    clear Hx.
    rewrite SFmul_finite. cbn [xorb].
    cbn [valid_binary] in Hv.
    pose proof (bounded_mantissa m e Hv) as Hm53.
    pose proof (bounded_mantissa mc ec Hb) as Hmc53.
    apply bounded_digits in Hv. apply bounded_digits in Hb.
    pose proof (digits2_pos_lower mc) as Hmc. rewrite Hc in Hmc.
    pose proof (digits2_pos_lower m) as Hm52.
    assert (Hdm : Zpos (digits2_pos m) = 53) by lia.
    rewrite Hdm in Hm52.
    change (2 ^ (53 - 1)) with 4503599627370496 in Hmc, Hm52.
    change (2 ^ 53) with 9007199254740992 in Hm53, Hmc53.
    set (M := Zpos (m * mc)).
    assert (HMeq : M = Zpos m * Zpos mc) by (unfold M; apply Pos2Z.inj_mul).
    assert (HM1 : 2 ^ 104 <= M) by (change (2 ^ 104) with (4503599627370496 * 4503599627370496); nia).
    assert (HM2 : M < 2 ^ 106) by (change (2 ^ 106) with (9007199254740992 * 9007199254740992); nia).
    assert (HM0 : 0 < M) by (unfold M; lia).
    pose proof (Zdigits2_ge M 104 ltac:(lia) HM1) as Hd1.
    pose proof (Zdigits2_le M 106 HM0 HM2) as Hd2.
    destruct (binary_round_aux_exact_lower false M (e + ec) HM0 ltac:(lia) ltac:(lia))
      as [Hinf|(m' & e' & Hres & Hcase)].
    + rewrite Hinf. reflexivity.
    + rewrite Hres. unfold SFltb. rewrite SFcompare_finite_spec. cbv zeta iota.
      destruct (Z.compare_spec ec e') as [He|He|He]; try reflexivity.
      * destruct Hcase as [[He' Hq]|He']; [|lia].
        assert (Hd : Zdigits2 M = 105) by lia.
        assert (He52 : e = -52) by lia.
        destruct Hxe as [|[_ Hgt]]; [lia|].
        rewrite Hd in Hq. change (105 - 53) with 52 in Hq.
        assert (Hlow : Zpos mc + 1 <= M / 2 ^ 52).
        { apply Z.div_le_lower_bound; [reflexivity|].
          change (2 ^ 52) with 4503599627370496. nia. }
        destruct (Pos.compare_spec mc m') as [Hc'|Hc'|Hc']; try reflexivity; lia.
      * destruct Hcase as [[He' _]|He']; lia.
Qed.

End Binary64.

(** ** Facts about JavaScript Numbers *)

Module NumberFacts.

Import Binary64.
Local Open Scope float_scope.

Lemma is_nan_false x : nonneg (Prim2SF x) -> is_nan x = false.
Proof.
  unfold is_nan. rewrite FloatAxioms.eqb_spec. intros H.
  destruct (Prim2SF x) as [s|s| |s m e]; cbn in H; try contradiction; subst; cbn.
  - reflexivity.
  - reflexivity.
  - unfold SFeqb, SFcompare. rewrite Z.compare_refl.
    change (Pos.compare_cont Eq m m) with (Pos.compare m m).
    now rewrite Pos.compare_refl.
Qed.

Lemma zero_leb x : nonneg (Prim2SF x) -> (0 <=? x) = true.
Proof.
  rewrite FloatAxioms.leb_spec. intros H.
  change (Prim2SF 0) with (S754_zero false).
  destruct (Prim2SF x) as [s|s| |s m e]; cbn in H; try contradiction; subst; reflexivity.
Qed.

(** [0 + x] is [x] unless [x] is -0. *)
Lemma zero_add x : nonneg (Prim2SF x) -> 0 + x = x.
Proof.
  intros H. apply Prim2SF_inj. rewrite FloatAxioms.add_spec.
  change (Prim2SF 0) with (S754_zero false).
  destruct (Prim2SF x) as [s|s| |s m e]; cbn in H; try contradiction; subst; reflexivity.
Qed.

Lemma add_nonneg x y : nonneg (Prim2SF x) -> nonneg (Prim2SF y) -> nonneg (Prim2SF (x + y)).
Proof. rewrite FloatAxioms.add_spec. apply SFadd_nonneg. Qed.

Lemma mul_nonneg x c my ey :
  Prim2SF c = S754_finite false my ey -> nonneg (Prim2SF x) -> nonneg (Prim2SF (x * c)).
Proof. intros Hc Hx. rewrite FloatAxioms.mul_spec, Hc. now apply SFmul_nonneg_finite. Qed.

(** [x >= -c] gives [x + c >= 0] for a finite positive [c]. *)
Lemma add_ge_opp x c c' my ey :
  Prim2SF c = S754_finite false my ey -> Prim2SF c' = S754_finite true my ey ->
  (c' <=? x) = true -> nonneg (Prim2SF (x + c)).
Proof.
  intros Hc Hc' Hle. rewrite FloatAxioms.add_spec, Hc.
  rewrite FloatAxioms.leb_spec, Hc' in Hle.
  apply SFadd_ge_opp; trivial.
  - apply Prim2SF_valid.
  - pose proof (Prim2SF_valid c) as Hv. now rewrite Hc in Hv.
Qed.

Lemma add_one_nonneg x : (-1 <=? x) = true -> nonneg (Prim2SF (x + 1)).
Proof. apply add_ge_opp with (my := 4503599627370496%positive) (ey := (-52)%Z); reflexivity. Qed.

Lemma ltb_leb x y : (x <? y) = true -> (x <=? y) = true.
Proof.
  rewrite FloatAxioms.ltb_spec, FloatAxioms.leb_spec. unfold SFltb, SFleb.
  destruct (SFcompare _ _) as [[]|]; congruence.
Qed.

(** Two Numbers that are not NaN and not ordered either way are equal. *)
Lemma not_ltb_leb x y :
  is_nan x = false -> is_nan y = false -> (y <? x) = false -> (x <=? y) = true.
Proof.
  unfold is_nan. rewrite !FloatAxioms.eqb_spec, FloatAxioms.ltb_spec, FloatAxioms.leb_spec.
  unfold SFeqb, SFltb, SFleb.
  destruct (Prim2SF x) as [sx|sx| |sx mx ex], (Prim2SF y) as [sy|sy| |sy my ey];
    cbn; try discriminate; try reflexivity;
    repeat match goal with b : bool |- _ => destruct b end; cbn; try discriminate; try reflexivity;
    intros _ _; rewrite (Z.compare_antisym ex ey);
    change (Pos.compare_cont Eq my mx) with (Pos.compare my mx);
    change (Pos.compare_cont Eq mx my) with (Pos.compare mx my);
    rewrite (Pos.compare_antisym mx my);
    destruct (ex ?= ey)%Z; cbn; try discriminate; try reflexivity;
    destruct (mx ?= my)%positive; cbn; try discriminate; reflexivity.
Qed.

(** [Math.min(100, x)] lies in [0, 100] for every [x >= 0]. *)
Lemma Math_min_100_bounds x :
  nonneg (Prim2SF x) ->
  (0 <=? Number.Math_min 100 x) = true /\ (Number.Math_min 100 x <=? 100) = true.
Proof.
  intros H. unfold Number.Math_min.
  rewrite (is_nan_false x H).
  change (is_nan 100) with false. cbn [orb].
  destruct (100 <? x) eqn:H1; [split; reflexivity|].
  destruct (x <? 100) eqn:H2.
  - split; [now apply zero_leb | now apply ltb_leb].
  - change (get_sign 100) with false. cbv iota.
    split; [now apply zero_leb|].
    apply not_ltb_leb; trivial. now apply is_nan_false.
Qed.

(** [a <= b < c] gives [a < c]. *)
Lemma leb_ltb_trans a b c : (a <=? b) = true -> (b <? c) = true -> (a <? c) = true.
Proof. rewrite FloatAxioms.leb_spec, !FloatAxioms.ltb_spec. apply SFleb_ltb_trans. Qed.

(** A negative Number times a finite Number that is at least 1 is negative. *)
Lemma mul_neg x c mc ec :
  Prim2SF c = S754_finite false mc ec -> Zpos (digits2_pos mc) = 53%Z -> (-52 <= ec)%Z ->
  (x <? 0) = true -> (x * c <? 0) = true.
Proof.
  intros Hc Hd He. rewrite !FloatAxioms.ltb_spec, FloatAxioms.mul_spec, Hc.
  change (Prim2SF 0) with (S754_zero false).
  apply SFmul_neg_pos; trivial. apply Prim2SF_valid.
Qed.

(** A normal positive Number grows strictly when multiplied by a Number
    greater than 1. *)
Lemma mul_gt_one x c mc ec :
  Prim2SF c = S754_finite false mc ec -> Zpos (digits2_pos mc) = 53%Z ->
  (1 <? x) = true -> (c <? x * c) = true.
Proof.
  intros Hc Hd. rewrite !FloatAxioms.ltb_spec, FloatAxioms.mul_spec, Hc.
  change (Prim2SF 1) with (S754_finite false 4503599627370496 (-52)).
  apply SFmul_gt_one; trivial.
  - apply Prim2SF_valid.
  - pose proof (Prim2SF_valid c) as Hv. now rewrite Hc in Hv.
Qed.

End NumberFacts.

Example match_60 :
  Funding.calculateMatchScore asciiToLowerCase
    (sampleAnalysis 0 [sampleEntity "Fintech" 0.5; sampleEntity "Berlin" 0.2])
    (sampleAnalysis 0.7 [sampleEntity "FINTECH" 0.5; sampleEntity "Paris" 0.2]) = 60%float.
Proof. vm_compute. reflexivity. Qed.

(** ** Match score and readiness score *)

Section MatchScore.

Local Open Scope float_scope.
Import Binary64 NumberFacts.

Variable toLowerCase : string -> string.

Lemma plusTen_succ_r k x : plusTen (S k) x = plusTen k (x + 10).
Proof. unfold plusTen. now rewrite Nat.iter_succ_r. Qed.

Lemma fold_matchStep (pitchEntities : gset string) (names : list string) (x : float) :
  fold_left (Funding.matchStep pitchEntities) names x =
  plusTen (length (List.filter (fun e => bool_decide (e ∈ pitchEntities)) names)) x.
Proof.
  revert x. induction names as [|n names IH]; intros x; [reflexivity|].
  cbn [fold_left List.filter]. rewrite IH. unfold Funding.matchStep.
  destruct (bool_decide (n ∈ pitchEntities)); [|reflexivity].
  cbn [length]. now rewrite plusTen_succ_r.
Qed.

Lemma filter_map_length {A B} (f : A -> B) (P : B -> bool) (l : list A) :
  length (List.filter P (map f l)) = length (List.filter (fun a => P (f a)) l).
Proof.
  induction l as [|a l IH]; [reflexivity|].
  cbn [map List.filter]. destruct (P (f a)); cbn [length]; now rewrite IH.
Qed.

Lemma matchScore_loop (pitchAnalysis requirementsAnalysis : Analysis.t) (x : float) :
  fold_left
    (Funding.matchStep
       (list_to_set (map (fun e => toLowerCase (Entity.name e)) (Analysis.entities pitchAnalysis))))
    (map (fun e => toLowerCase (Entity.name e)) (Analysis.entities requirementsAnalysis)) x =
  plusTen (length (overlappingRequirements toLowerCase pitchAnalysis requirementsAnalysis)) x.
Proof.
  rewrite fold_matchStep, filter_map_length. unfold overlappingRequirements.
  do 2 f_equal. apply List.filter_ext. intros e.
  apply bool_decide_ext. apply elem_of_list_to_set.
Qed.

Lemma plusTen_nonneg k x : nonneg (Prim2SF x) -> nonneg (Prim2SF (plusTen k x)).
Proof.
  revert x. induction k as [|k IH]; intros x H; [exact H|].
  rewrite plusTen_succ_r. apply IH. apply add_nonneg; [exact H|reflexivity].
Qed.

Lemma base_nonneg s c my ey :
  Prim2SF c = S754_finite false my ey -> (-1 <=? s) = true -> nonneg (Prim2SF ((s + 1) * c)).
Proof. intros Hc Hs. eapply mul_nonneg; [exact Hc|]. now apply add_one_nonneg. Qed.

(** A Number equal to zero (either sign) plus a finite Number is that Number. *)
Lemma eqb_zero_add x c s m e :
  Prim2SF c = S754_finite s m e -> (x =? 0) = true -> x + c = c.
Proof.
  intros Hc Hx. apply Prim2SF_inj. rewrite FloatAxioms.add_spec, Hc.
  rewrite FloatAxioms.eqb_spec in Hx. change (Prim2SF 0) with (S754_zero false) in Hx.
  destruct (Prim2SF x) as [sx|sx| |sx mx ex]; try discriminate; try reflexivity.
  - destruct sx; discriminate.
  - destruct sx; discriminate.
Qed.

(** C1: for pitch sentiment in [-1,1], the match score is
    min(100, (sentiment + 1) * 50 plus 10 for each requirements entity
    whose lower-cased name occurs among the lower-cased pitch entity
    names); with sentiment 0 and exactly one such entity it is 60. *)
Theorem calculateMatchScore_formula (pitchAnalysis requirementsAnalysis : Analysis.t) :
  (-1 <=? Sentiment.score (Analysis.sentiment pitchAnalysis)) = true ->
  (Sentiment.score (Analysis.sentiment pitchAnalysis) <=? 1) = true ->
  Funding.calculateMatchScore toLowerCase pitchAnalysis requirementsAnalysis =
    Number.Math_min 100
      (plusTen (length (overlappingRequirements toLowerCase pitchAnalysis requirementsAnalysis))
         ((Sentiment.score (Analysis.sentiment pitchAnalysis) + 1) * 50))
  /\ ((Sentiment.score (Analysis.sentiment pitchAnalysis) =? 0) = true ->
      length (overlappingRequirements toLowerCase pitchAnalysis requirementsAnalysis) = 1%nat ->
      Funding.calculateMatchScore toLowerCase pitchAnalysis requirementsAnalysis = 60).
Proof.
  intros Hlo Hhi.
  assert (Heq : Funding.calculateMatchScore toLowerCase pitchAnalysis requirementsAnalysis =
                Number.Math_min 100
                  (plusTen (length (overlappingRequirements toLowerCase pitchAnalysis requirementsAnalysis))
                     ((Sentiment.score (Analysis.sentiment pitchAnalysis) + 1) * 50))).
  { unfold Funding.calculateMatchScore. cbv zeta.
    rewrite matchScore_loop, zero_add; [reflexivity|].
    now apply base_nonneg with (my := 7036874417766400%positive) (ey := (-47)%Z). }
  split; [exact Heq|].
  intros Hz Hk. rewrite Heq, Hk.
  rewrite (eqb_zero_add _ 1 false 4503599627370496%positive (-52)%Z eq_refl Hz).
  reflexivity.
Qed.

End MatchScore.

Lemma calculateMatchScore_formula_witness :
  Funding.calculateMatchScore asciiToLowerCase
    (sampleAnalysis 0 [sampleEntity "Fintech" 0.5; sampleEntity "Berlin" 0.2])
    (sampleAnalysis 0.7 [sampleEntity "FINTECH" 0.5; sampleEntity "Paris" 0.2]) = 60%float.
Proof.
  refine (proj2 (calculateMatchScore_formula asciiToLowerCase
                   (sampleAnalysis 0 [sampleEntity "Fintech" 0.5; sampleEntity "Berlin" 0.2])
                   (sampleAnalysis 0.7 [sampleEntity "FINTECH" 0.5; sampleEntity "Paris" 0.2]) _ _) _ _);
    vm_compute; reflexivity.
Defined.

Section ReadinessScore.

Local Open Scope float_scope.
Import Binary64 NumberFacts.

(** A Number equal to -1 is -1. *)
Lemma eqb_minus_one x : (x =? -1) = true -> x = -1.
Proof.
  intros H. apply Prim2SF_inj. rewrite FloatAxioms.eqb_spec in H.
  change (Prim2SF (-1)) with (S754_finite true 4503599627370496 (-52)) in *.
  now apply SFeqb_finite.
Qed.

(** C3: for sentiments in [-1,1], the readiness score is
    min(100, (business + 1) * 20 + (financial + 1) * 20 + (team + 1) * 10);
    a financial sentiment of -1 contributes 0, not a negative amount. *)
Theorem calculateReadinessScore_formula (businessAnalysis financialsAnalysis teamAnalysis : Analysis.t) :
  (-1 <=? Sentiment.score (Analysis.sentiment businessAnalysis)) = true ->
  (Sentiment.score (Analysis.sentiment businessAnalysis) <=? 1) = true ->
  (-1 <=? Sentiment.score (Analysis.sentiment financialsAnalysis)) = true ->
  (Sentiment.score (Analysis.sentiment financialsAnalysis) <=? 1) = true ->
  (-1 <=? Sentiment.score (Analysis.sentiment teamAnalysis)) = true ->
  (Sentiment.score (Analysis.sentiment teamAnalysis) <=? 1) = true ->
  Funding.calculateReadinessScore businessAnalysis financialsAnalysis teamAnalysis =
    Number.Math_min 100
      ((Sentiment.score (Analysis.sentiment businessAnalysis) + 1) * 20
       + (Sentiment.score (Analysis.sentiment financialsAnalysis) + 1) * 20
       + (Sentiment.score (Analysis.sentiment teamAnalysis) + 1) * 10)
  /\ ((Sentiment.score (Analysis.sentiment financialsAnalysis) =? -1) = true ->
      (Sentiment.score (Analysis.sentiment financialsAnalysis) + 1) * 20 = 0
      /\ ((Sentiment.score (Analysis.sentiment financialsAnalysis) + 1) * 20 <? 0) = false).
Proof.
  intros Hb _ _ _ _ _. split.
  - unfold Funding.calculateReadinessScore. cbv zeta.
    rewrite zero_add; [reflexivity|].
    apply base_nonneg with (my := 5629499534213120%positive) (ey := (-48)%Z); [reflexivity|exact Hb].
  - intros Hf. rewrite (eqb_minus_one _ Hf). split; reflexivity.
Qed.

End ReadinessScore.

Lemma calculateReadinessScore_formula_witness :
  Funding.calculateReadinessScore (sampleAnalysis 0.5 []) (sampleAnalysis (-1) []) (sampleAnalysis 0.25 []) =
    42.5%float
  /\ ((-1 + 1) * 20 = 0)%float.
Proof.
  pose proof (calculateReadinessScore_formula
                (sampleAnalysis 0.5 []) (sampleAnalysis (-1) []) (sampleAnalysis 0.25 [])
                eq_refl eq_refl eq_refl eq_refl eq_refl eq_refl) as [H1 H2].
  split.
  - rewrite H1. vm_compute. reflexivity.
  - apply (H2 eq_refl).
Defined.

Section ScoreRange.

Local Open Scope float_scope.
Import Binary64 NumberFacts.

Variable toLowerCase : string -> string.

(** C4: whenever the document sentiment scores lie in [-1,1], the match
    score and the readiness score lie in [0,100], whatever the sentiment
    magnitudes and however many entities there are. *)
Theorem scores_in_range (pitchAnalysis requirementsAnalysis businessAnalysis financialsAnalysis teamAnalysis : Analysis.t) :
  (-1 <=? Sentiment.score (Analysis.sentiment pitchAnalysis)) = true ->
  (Sentiment.score (Analysis.sentiment pitchAnalysis) <=? 1) = true ->
  (-1 <=? Sentiment.score (Analysis.sentiment businessAnalysis)) = true ->
  (Sentiment.score (Analysis.sentiment businessAnalysis) <=? 1) = true ->
  (-1 <=? Sentiment.score (Analysis.sentiment financialsAnalysis)) = true ->
  (Sentiment.score (Analysis.sentiment financialsAnalysis) <=? 1) = true ->
  (-1 <=? Sentiment.score (Analysis.sentiment teamAnalysis)) = true ->
  (Sentiment.score (Analysis.sentiment teamAnalysis) <=? 1) = true ->
  ((0 <=? Funding.calculateMatchScore toLowerCase pitchAnalysis requirementsAnalysis) = true
   /\ (Funding.calculateMatchScore toLowerCase pitchAnalysis requirementsAnalysis <=? 100) = true)
  /\ ((0 <=? Funding.calculateReadinessScore businessAnalysis financialsAnalysis teamAnalysis) = true
      /\ (Funding.calculateReadinessScore businessAnalysis financialsAnalysis teamAnalysis <=? 100) = true).
Proof.
  intros Hp _ Hb _ Hf _ Ht _. split.
  - unfold Funding.calculateMatchScore. cbv zeta.
    apply Math_min_100_bounds.
    rewrite matchScore_loop. apply plusTen_nonneg.
    apply add_nonneg; [reflexivity|].
    apply base_nonneg with (my := 7036874417766400%positive) (ey := (-47)%Z); [reflexivity|exact Hp].
  - unfold Funding.calculateReadinessScore. cbv zeta.
    apply Math_min_100_bounds.
    apply add_nonneg; [apply add_nonneg; [apply add_nonneg; [reflexivity|]|]|].
    + apply base_nonneg with (my := 5629499534213120%positive) (ey := (-48)%Z); [reflexivity|exact Hb].
    + apply base_nonneg with (my := 5629499534213120%positive) (ey := (-48)%Z); [reflexivity|exact Hf].
    + apply base_nonneg with (my := 5629499534213120%positive) (ey := (-49)%Z); [reflexivity|exact Ht].
Qed.

End ScoreRange.

Lemma scores_in_range_witness :
  ((0 <=? Funding.calculateMatchScore asciiToLowerCase
            (sampleAnalysis 1 [sampleEntity "a" 0.5; sampleEntity "b" 0.5])
            (sampleAnalysis 0 [sampleEntity "A" 0.5; sampleEntity "B" 0.5; sampleEntity "a" 0.1]))%float = true
   /\ (Funding.calculateMatchScore asciiToLowerCase
         (sampleAnalysis 1 [sampleEntity "a" 0.5; sampleEntity "b" 0.5])
         (sampleAnalysis 0 [sampleEntity "A" 0.5; sampleEntity "B" 0.5; sampleEntity "a" 0.1]) <=? 100)%float = true)
  /\ ((0 <=? Funding.calculateReadinessScore
               (sampleAnalysis (-1) []) (sampleAnalysis (-1) []) (sampleAnalysis (-1) []))%float = true
      /\ (Funding.calculateReadinessScore
            (sampleAnalysis (-1) []) (sampleAnalysis (-1) []) (sampleAnalysis (-1) []) <=? 100)%float = true).
Proof.
  apply (scores_in_range asciiToLowerCase
           (sampleAnalysis 1 [sampleEntity "a" 0.5; sampleEntity "b" 0.5])
           (sampleAnalysis 0 [sampleEntity "A" 0.5; sampleEntity "B" 0.5; sampleEntity "a" 0.1])
           (sampleAnalysis (-1) []) (sampleAnalysis (-1) []) (sampleAnalysis (-1) []));
    reflexivity.
Defined.

(** ** Salience filters *)

Section SalienceFilters.

Local Open Scope float_scope.
Import NumberFacts.

(** C2, as stated, fails: with saliences 0.5, 0.25 and 0.05 the key
    factors are not the first two entities, because 0.25 > 0.3 is false. *)
Lemma extractKeyFactors_scenario_counterexample :
  Market.extractKeyFactors c2_analysis <> [keyFactor c2_first; keyFactor c2_second].
Proof. vm_compute. discriminate. Qed.

(** C2, amended: with document sentiment 0.5 and three entities of
    salience 0.5, 0.25 and 0.05 in that order, the key factors are exactly
    the first entity. *)
Theorem extractKeyFactors_scenario
    (magnitude : float) (syntax : Syntax.t) (categories : list Category.t)
    (n1 t1 n2 t2 n3 t3 : string) (s1 s2 s3 : Sentiment.t) (d1 d2 d3 : option string) :
  Market.extractKeyFactors
    (Analysis.mk (Sentiment.mk 0.5 magnitude)
       [Entity.mk n1 t1 0.5 s1 d1; Entity.mk n2 t2 0.25 s2 d2; Entity.mk n3 t3 0.05 s3 d3]
       syntax categories)
  = [keyFactor (Entity.mk n1 t1 0.5 s1 d1)].
Proof. reflexivity. Qed.

(** C5: salience filtering is monotonic in the threshold: for thresholds
    T1 >= T2 every entity kept by [salience > T1] is kept by
    [salience > T2]; the key factors (threshold 0.3) are built from a
    subset of the entities the resource list (threshold 0.2) is built from. *)
Theorem salience_filter_monotone (T1 T2 : float) (l : list Entity.t) :
  (T2 <=? T1) = true ->
  incl (salienceAbove T1 l) (salienceAbove T2 l)
  /\ (forall analysis,
        Market.extractKeyFactors analysis = map keyFactor (salienceAbove 0.3 (Analysis.entities analysis))
        /\ length (Market.analyzeResources analysis) = length (salienceAbove 0.2 (Analysis.entities analysis))
        /\ incl (salienceAbove 0.3 (Analysis.entities analysis))
                (salienceAbove 0.2 (Analysis.entities analysis))).
Proof.
  assert (Hmono : forall A B k, (B <=? A) = true -> incl (salienceAbove A k) (salienceAbove B k)).
  { intros A B k HBA e He. unfold salienceAbove in *.
    apply filter_In in He. destruct He as [Hin Hgt].
    apply filter_In. split; [exact Hin|].
    unfold Number.gtb in *. now apply leb_ltb_trans with A. }
  intros H. split; [now apply Hmono|].
  intros analysis. split; [reflexivity|]. split.
  - unfold Market.analyzeResources. now rewrite length_map.
  - now apply Hmono.
Qed.

End SalienceFilters.

Lemma salience_filter_monotone_witness :
  incl (salienceAbove 0.3 [c2_first; c2_second; c2_third])
       (salienceAbove 0.2 [c2_first; c2_second; c2_third]).
Proof.
  apply (salience_filter_monotone 0.3 0.2 [c2_first; c2_second; c2_third]).
  reflexivity.
Defined.

(** ** SWOT lists *)

Section Swot.

Local Open Scope float_scope.

(** A loop that pushes [f x] for the elements satisfying [p] appends the
    mapped selection. *)
Lemma fold_left_push_filter {A B} (p : A -> bool) (f : A -> B) (l : list A) (acc : list B) :
  fold_left (fun acc x => if p x then push acc (f x) else acc) l acc =
  acc ++ map f (List.filter p l).
Proof.
  revert acc. induction l as [|x l IH]; intros acc; cbn [fold_left List.filter map].
  - now rewrite app_nil_r.
  - rewrite IH. destruct (p x); [|reflexivity].
    unfold push. cbn [map]. now rewrite <- app_assoc.
Qed.

(** C6, as stated, fails: with empty entity arrays the strengths and the
    opportunities still receive their sentiment-based and category-based
    entries. *)
Lemma swot_empty_entities_counterexample :
  Analysis.entities c6_idea = [] /\ Analysis.entities c6_market = []
  /\ Analysis.entities c6_competition = []
  /\ Planning.extractStrengths c6_idea c6_market = ["Strong positive market perception potential"]
  /\ Planning.extractOpportunities c6_market = ["Favorable market conditions"; "High potential in /Finance"]
  /\ JsonOps.get "strengths" (Planning.swotVerdict c6_idea c6_market c6_competition)
     <> Some (JArr []).
Proof. repeat split; try reflexivity. vm_compute. discriminate. Qed.

(** C6, amended: with empty entity arrays each SWOT list is an array
    holding no entity-derived entry: strengths, weaknesses and threats hold
    at most their sentiment-based entry, and opportunities holds the
    sentiment-based entry followed by one entry per category of
    confidence above 0.7. *)
Theorem swot_empty_entities (ideaAnalysis marketAnalysis competitionAnalysis : Analysis.t) :
  Analysis.entities marketAnalysis = [] ->
  Analysis.entities competitionAnalysis = [] ->
  Planning.extractStrengths ideaAnalysis marketAnalysis =
    (if Sentiment.score (Analysis.sentiment ideaAnalysis) >? 0.3
     then ["Strong positive market perception potential"] else [])
  /\ Planning.extractWeaknesses ideaAnalysis competitionAnalysis =
    (if Sentiment.score (Analysis.sentiment ideaAnalysis) <? 0
     then ["Potential negative market perception"] else [])
  /\ Planning.extractOpportunities marketAnalysis =
    (if Sentiment.score (Analysis.sentiment marketAnalysis) >? 0
     then ["Favorable market conditions"] else [])
    ++ map (fun c => "High potential in " +:+ Category.name c)
         (List.filter (fun c => Category.confidence c >? 0.7) (Analysis.categories marketAnalysis))
  /\ Planning.extractThreats competitionAnalysis marketAnalysis =
    (if Sentiment.score (Analysis.sentiment marketAnalysis) <? -0.2
     then ["Challenging market conditions"] else [])
  /\ Planning.swotVerdict ideaAnalysis marketAnalysis competitionAnalysis =
    JObj [("strengths", JsonOps.strings (Planning.extractStrengths ideaAnalysis marketAnalysis));
          ("weaknesses", JsonOps.strings (Planning.extractWeaknesses ideaAnalysis competitionAnalysis));
          ("opportunities", JsonOps.strings (Planning.extractOpportunities marketAnalysis));
          ("threats", JsonOps.strings (Planning.extractThreats competitionAnalysis marketAnalysis))].
Proof.
  intros Hm Hc. repeat split.
  - unfold Planning.extractStrengths. rewrite Hm. cbn [List.filter map length Nat.ltb Nat.leb].
    now destruct (_ >? _).
  - unfold Planning.extractWeaknesses. rewrite Hc. cbn [List.filter map length Nat.ltb Nat.leb].
    now destruct (_ <? _).
  - unfold Planning.extractOpportunities. cbv zeta.
    apply (fold_left_push_filter (fun c => Category.confidence c >? 0.7)
             (fun c => "High potential in " +:+ Category.name c)).
  - unfold Planning.extractThreats. rewrite Hc. cbn [List.filter map length Nat.ltb Nat.leb].
    now destruct (_ <? _).
Qed.

End Swot.

Lemma swot_empty_entities_witness :
  Planning.extractStrengths c6_idea c6_market = ["Strong positive market perception potential"]
  /\ Planning.extractWeaknesses c6_idea c6_competition = []
  /\ Planning.extractThreats c6_competition c6_market = [].
Proof.
  destruct (swot_empty_entities c6_idea c6_market c6_competition eq_refl eq_refl)
    as (H1 & H2 & _ & H4 & _).
  rewrite H1, H2, H4. repeat split.
Defined.

(** ** Pitch structure *)

Section PitchStructure.

Local Open Scope float_scope.

(** C7 fails on the code: for a text signal whose syntax analysis has no
    sentence, [analyzeStructure] divides 0 by 0 without any guard, so that
    [averageLength] is NaN (no exception is raised). *)
Theorem analyzeStructure_zero_sentences (analysis : Analysis.t) :
  Syntax.sentences (Analysis.syntax analysis) = [] ->
  JsonOps.get "averageLength" (Pitch.analyzeStructure analysis) = Some (JNum nan)
  /\ JsonOps.get "sentenceCount" (Pitch.analyzeStructure analysis) = Some (JNum 0)
  /\ JsonOps.get "flow" (Pitch.analyzeStructure analysis) = Some (JStr "Concise").
Proof.
  intros H. unfold Pitch.analyzeStructure. rewrite H. repeat split.
Qed.

End PitchStructure.

Lemma analyzeStructure_zero_sentences_witness :
  JsonOps.get "averageLength" (Pitch.analyzeStructure (sampleAnalysis 0.5 [sampleEntity "app" 0.5]))
  = Some (JNum nan).
Proof.
  apply (analyzeStructure_zero_sentences (sampleAnalysis 0.5 [sampleEntity "app" 0.5])).
  reflexivity.
Defined.

(** ** Scores that are not clamped *)

Section UnclampedScores.

Local Open Scope float_scope.
Import Server NumberFacts.

Context {S E : Type} (languageClient : LanguageServiceClient S E).

(** C10: the feasibility score that the [/idea-check] route returns and
    the impact score that the practice feedback returns are the sentiment
    score times 100, negative whenever the sentiment score is negative
    (-100 at -1); the clarity score returned is the sentiment magnitude
    times 100 and exceeds 100 whenever the magnitude exceeds 1.  None of
    them is clamped: whenever the extraction yields the analysis, the
    route's single reply has status 200 and carries these values. *)
Theorem unclamped_scores (analysis : Analysis.t) :
  (-1 <=? Sentiment.score (Analysis.sentiment analysis)) = true ->
  (Sentiment.score (Analysis.sentiment analysis) <=? 1) = true ->
  (forall body w w1,
      Planning.analyzeBusinessIdea languageClient (Planning.idea body) w = (inr analysis, w1) ->
      exists response,
        Planning.ideaCheckRoute languageClient body w =
          (inr tt,
           mkWorld (backend w1) (calls w1) (replies w1 ++ [mkReply 200 response]) (console w1))
        /\ fieldAt ["feasibility"; "score"] response
           = Some (JNum (Sentiment.score (Analysis.sentiment analysis) * 100)))
  /\ (forall body w w1,
      Pitch.analyzePitch languageClient (Pitch.pitchScript body) w = (inr analysis, w1) ->
      exists response,
        Pitch.practiceFeedbackRoute languageClient body w =
          (inr tt,
           mkWorld (backend w1) (calls w1) (replies w1 ++ [mkReply 200 response]) (console w1))
        /\ fieldAt ["feedback"; "impact"; "score"] response
           = Some (JNum (Sentiment.score (Analysis.sentiment analysis) * 100))
        /\ fieldAt ["feedback"; "clarity"; "score"] response
           = Some (JNum (Sentiment.magnitude (Analysis.sentiment analysis) * 100)))
  /\ feasibilityScore analysis = Some (JNum (Sentiment.score (Analysis.sentiment analysis) * 100))
  /\ JsonOps.get "score" (Pitch.analyzeImpact analysis)
     = Some (JNum (Sentiment.score (Analysis.sentiment analysis) * 100))
  /\ JsonOps.get "score" (Pitch.analyzeClarity analysis)
     = Some (JNum (Sentiment.magnitude (Analysis.sentiment analysis) * 100))
  /\ ((Sentiment.score (Analysis.sentiment analysis) <? 0) = true ->
      (Sentiment.score (Analysis.sentiment analysis) * 100 <? 0) = true)
  /\ ((Sentiment.score (Analysis.sentiment analysis) =? -1) = true ->
      Sentiment.score (Analysis.sentiment analysis) * 100 = -100)
  /\ ((1 <? Sentiment.magnitude (Analysis.sentiment analysis)) = true ->
      (100 <? Sentiment.magnitude (Analysis.sentiment analysis) * 100) = true).
Proof.
  intros _ _. split; [|split].
  - intros body w w1 Hrun.
    unfold Planning.ideaCheckRoute, tryCatch, bind. rewrite Hrun.
    eexists. split; reflexivity.
  - intros body w w1 Hrun.
    unfold Pitch.practiceFeedbackRoute, tryCatch, bind. rewrite Hrun.
    eexists. split; [reflexivity|]. split; reflexivity.
  - split; [reflexivity|]. split; [reflexivity|]. split; [reflexivity|].
    split; [|split].
    + apply mul_neg with (mc := 7036874417766400%positive) (ec := (-46)%Z); [reflexivity|reflexivity|lia].
    + intros H. rewrite (eqb_minus_one _ H). reflexivity.
    + apply mul_gt_one with (mc := 7036874417766400%positive) (ec := (-46)%Z); reflexivity.
Qed.

End UnclampedScores.

Lemma unclamped_scores_witness :
  (exists response,
      Planning.ideaCheckRoute (steadyClient (Sentiment.mk (-0.5) 1.5))
        {| Planning.idea := "Shoes for dogs" |} (Server.mkWorld tt [] [] [])
      = (inr tt,
         Server.mkWorld tt
           [Server.AnalyzeSentiment "Shoes for dogs"; Server.AnalyzeEntities "Shoes for dogs";
            Server.AnalyzeSyntax "Shoes for dogs"; Server.ClassifyText "Shoes for dogs"]
           [Server.mkReply 200 response] [])
      /\ fieldAt ["feasibility"; "score"] response = Some (JNum (-0.5 * 100)%float))
  /\ (exists response,
      Pitch.practiceFeedbackRoute (steadyClient (Sentiment.mk (-0.5) 1.5))
        {| Pitch.pitchScript := "We sell shoes." |} (Server.mkWorld tt [] [] [])
      = (inr tt,
         Server.mkWorld tt
           [Server.AnalyzeSentiment "We sell shoes."; Server.AnalyzeEntities "We sell shoes.";
            Server.AnalyzeSyntax "We sell shoes."]
           [Server.mkReply 200 response] [])
      /\ fieldAt ["feedback"; "impact"; "score"] response = Some (JNum (-0.5 * 100)%float)
      /\ fieldAt ["feedback"; "clarity"; "score"] response = Some (JNum (1.5 * 100)%float))
  /\ feasibilityScore c10_analysis = Some (JNum (-50)%float)
  /\ (-0.5 * 100 <? 0)%float = true
  /\ (100 <? 1.5 * 100)%float = true.
Proof.
  destruct (unclamped_scores (steadyClient (Sentiment.mk (-0.5) 1.5)) c10_analysis eq_refl eq_refl)
    as (Hidea & Hpitch & H1 & _ & _ & H4 & _ & H6).
  split; [exact (Hidea {| Planning.idea := "Shoes for dogs" |} (Server.mkWorld tt [] [] []) _ eq_refl)|].
  split; [exact (Hpitch {| Pitch.pitchScript := "We sell shoes." |} (Server.mkWorld tt [] [] []) _ eq_refl)|].
  split; [exact H1|]. split; [exact (H4 eq_refl)|exact (H6 eq_refl)].
Defined.

(** ** Failure of a text-signal extraction *)

Section ExtractionFailure.

Import Server.

Context {S E : Type}.

Variable extract : string -> M (S := S) (E := E) Analysis.t.
Variable plan : string -> list ApiCall.

Lemma failsAt_trace fields w e wf :
  followsPlan extract plan -> failsAt extract fields w e wf ->
  replies wf = replies w /\ console wf = console w
  /\ exists n, calls wf = calls w ++ firstn n (flat_map plan fields).
Proof.
  intros Hplan H. induction H as [text rest w e wf Hrun|text rest w a w1 e wf Hrun Hrest IH].
  - destruct (Hplan text w) as (Hr & Hc & Hcalls). rewrite Hrun in *. cbn [fst snd] in *.
    split; [exact Hr|]. split; [exact Hc|].
    destruct Hcalls as [n Hn].
    exists (Nat.min n (length (plan text))). rewrite Hn. f_equal. cbn [flat_map].
    rewrite firstn_app.
    replace (Nat.min n (length (plan text)) - length (plan text))%nat with 0%nat by lia.
    cbn [firstn]. rewrite app_nil_r.
    destruct (Nat.le_ge_cases n (length (plan text))) as [Hle|Hge].
    + now rewrite Nat.min_l.
    + rewrite Nat.min_r by exact Hge. now rewrite !firstn_all2.
  - destruct (Hplan text w) as (Hr & Hc & Hcalls). rewrite Hrun in *. cbn [fst snd] in *.
    destruct IH as (IHr & IHc & n & IHn).
    split; [congruence|]. split; [congruence|].
    exists (length (plan text) + n)%nat. rewrite IHn, Hcalls. cbn [flat_map].
    rewrite firstn_app_2. now rewrite app_assoc.
Qed.

Lemma aborts_intro fields route tag message :
  followsPlan extract plan ->
  (forall w e wf,
      failsAt extract fields w e wf ->
      route w =
        (inr tt,
         mkWorld (backend wf) (calls wf)
           (replies wf ++ [mkReply 500 (JObj [("error", JStr message)])])
           (console wf ++ [(tag, e)]))) ->
  abortsOnFailure extract plan fields route tag message.
Proof.
  intros Hplan Hroute w e wf Hfail.
  destruct (failsAt_trace fields w e wf Hplan Hfail) as (Hr & Hc & Hn).
  split; [|exact Hn]. rewrite (Hroute w e wf Hfail). now rewrite Hr, Hc.
Qed.

End ExtractionFailure.

Section ExtractorPlans.

Import Server.

Context {S E : Type} (languageClient : LanguageServiceClient S E).

Lemma analyzeMarketData_followsPlan :
  followsPlan (Market.analyzeMarketData languageClient) fullPlan.
Proof.
  intros text w. unfold Market.analyzeMarketData, bind, await, ret, fullPlan.
  destruct (analyzeSentiment languageClient text (backend w)) as [[e1|r1] s1]; cbn.
  { repeat split. now exists 1%nat. }
  destruct (analyzeEntities languageClient text s1) as [[e2|r2] s2]; cbn.
  { repeat split. exists 2%nat. now rewrite <- app_assoc. }
  destruct (analyzeSyntax languageClient text s2) as [[e3|r3] s3]; cbn.
  { repeat split. exists 3%nat. now rewrite <- !app_assoc. }
  destruct (classifyText languageClient text s3) as [[e4|r4] s4]; cbn.
  { repeat split. exists 4%nat. now rewrite <- !app_assoc. }
  repeat split. now rewrite <- !app_assoc.
Qed.

Lemma analyzeBusinessIdea_followsPlan :
  followsPlan (Planning.analyzeBusinessIdea languageClient) fullPlan.
Proof. exact analyzeMarketData_followsPlan. Qed.

Lemma analyzeFundingData_followsPlan :
  followsPlan (Funding.analyzeFundingData languageClient) fullPlan.
Proof. exact analyzeMarketData_followsPlan. Qed.

Lemma analyzePitch_followsPlan :
  followsPlan (Pitch.analyzePitch languageClient) pitchPlan.
Proof.
  intros text w. unfold Pitch.analyzePitch, bind, await, ret, pitchPlan.
  destruct (analyzeSentiment languageClient text (backend w)) as [[e1|r1] s1]; cbn.
  { repeat split. now exists 1%nat. }
  destruct (analyzeEntities languageClient text s1) as [[e2|r2] s2]; cbn.
  { repeat split. exists 2%nat. now rewrite <- app_assoc. }
  destruct (analyzeSyntax languageClient text s2) as [[e3|r3] s3]; cbn.
  { repeat split. exists 3%nat. now rewrite <- !app_assoc. }
  repeat split. now rewrite <- !app_assoc.
Qed.

End ExtractorPlans.

Section RoutesAbort.

Import Server.

Context {S E : Type} (languageClient : LanguageServiceClient S E).
Variable toLowerCase : string -> string.

Ltac failing_run H :=
  let Hrun := fresh "Hrun" in
  let Hrest := fresh "Hrest" in
  inversion H as [? ? ? ? ? Hrun | ? ? ? ? ? ? ? Hrun Hrest]; subst; clear H;
  rewrite Hrun; cbv beta iota;
  [ reflexivity | first [ solve [ inversion Hrest ] | failing_run Hrest ] ].

Ltac route_aborts unfold_route plan_lemma :=
  intros body; apply aborts_intro; [ apply plan_lemma | ];
  let H := fresh "Hfail" in
  intros w e wf H; unfold_route; unfold tryCatch, bind;
  failing_run H.

(** C8: in every analysis route, when the extraction of one of its text
    fields fails the request ends with a single reply, status 500 with
    the route's error message: no call is retried, no later field is
    extracted, and no verdict of the fields that succeeded is sent. *)
Theorem extraction_failure_aborts_request :
  (forall body,
     abortsOnFailure (Market.analyzeMarketData languageClient) fullPlan
       [Market.market body; Market.industry body; Market.trends body]
       (Market.analyzeRoute languageClient body)
       "Market Analysis Error:" "Failed to analyze market")
  /\ (forall body,
     abortsOnFailure (Market.analyzeMarketData languageClient) fullPlan
       [Market.competitors body; Market.strengths body; Market.weaknesses body]
       (Market.competitorsRoute languageClient body)
       "Competitor Analysis Error:" "Failed to analyze competitors")
  /\ (forall body,
     abortsOnFailure (Market.analyzeMarketData languageClient) fullPlan
       [Market.goals body; Market.resources body; Market.constraints body]
       (Market.strategyRoute languageClient body)
       "Strategy Error:" "Failed to generate strategy")
  /\ (forall body,
     abortsOnFailure (Pitch.analyzePitch languageClient) pitchPlan
       [Pitch.pitch body; Pitch.company body; Pitch.market body]
       (Pitch.generateDeckRoute languageClient body)
       "Pitch Deck Error:" "Failed to generate pitch deck")
  /\ (forall body,
     abortsOnFailure (Pitch.analyzePitch languageClient) pitchPlan
       [Pitch.question body; Pitch.context body]
       (Pitch.mentorQaRoute languageClient body)
       "Mentor Q&A Error:" "Failed to generate mentor response")
  /\ (forall body,
     abortsOnFailure (Pitch.analyzePitch languageClient) pitchPlan
       [Pitch.pitchScript body]
       (Pitch.practiceFeedbackRoute languageClient body)
       "Practice Feedback Error:" "Failed to generate practice feedback")
  /\ (forall body,
     abortsOnFailure (Planning.analyzeBusinessIdea languageClient) fullPlan
       [Planning.idea body]
       (Planning.ideaCheckRoute languageClient body)
       "Idea Check Error:" "Failed to analyze idea")
  /\ (forall body,
     abortsOnFailure (Planning.analyzeBusinessIdea languageClient) fullPlan
       [Planning.swot_idea body; Planning.market body; Planning.competition body]
       (Planning.swotRoute languageClient body)
       "SWOT Error:" "Failed to generate SWOT analysis")
  /\ (forall body,
     abortsOnFailure (Funding.analyzeFundingData languageClient) fullPlan
       [Funding.stage body; Funding.needs body; Funding.metrics body]
       (Funding.guidanceRoute toLowerCase languageClient body)
       "Funding Guidance Error:" "Failed to generate funding guidance")
  /\ (forall body,
     abortsOnFailure (Funding.analyzeFundingData languageClient) fullPlan
       [Funding.pitch body; Funding.requirements body; Funding.preferences body]
       (Funding.investorMatchRoute toLowerCase languageClient body)
       "Investor Matching Error:" "Failed to generate investor matches")
  /\ (forall body,
     abortsOnFailure (Funding.analyzeFundingData languageClient) fullPlan
       [Funding.business body; Funding.financials body; Funding.team body]
       (Funding.readinessRoute languageClient body)
       "Readiness Assessment Error:" "Failed to assess funding readiness").
Proof.
  repeat apply conj.
  - route_aborts ltac:(unfold Market.analyzeRoute) (analyzeMarketData_followsPlan languageClient).
  - route_aborts ltac:(unfold Market.competitorsRoute) (analyzeMarketData_followsPlan languageClient).
  - route_aborts ltac:(unfold Market.strategyRoute) (analyzeMarketData_followsPlan languageClient).
  - route_aborts ltac:(unfold Pitch.generateDeckRoute) (analyzePitch_followsPlan languageClient).
  - route_aborts ltac:(unfold Pitch.mentorQaRoute) (analyzePitch_followsPlan languageClient).
  - route_aborts ltac:(unfold Pitch.practiceFeedbackRoute) (analyzePitch_followsPlan languageClient).
  - route_aborts ltac:(unfold Planning.ideaCheckRoute) (analyzeBusinessIdea_followsPlan languageClient).
  - route_aborts ltac:(unfold Planning.swotRoute) (analyzeBusinessIdea_followsPlan languageClient).
  - route_aborts ltac:(unfold Funding.guidanceRoute) (analyzeFundingData_followsPlan languageClient).
  - route_aborts ltac:(unfold Funding.investorMatchRoute) (analyzeFundingData_followsPlan languageClient).
  - route_aborts ltac:(unfold Funding.readinessRoute) (analyzeFundingData_followsPlan languageClient).
Qed.

End RoutesAbort.

Lemma extraction_failure_aborts_request_witness :
  Market.analyzeRoute quotaClient sampleAnalyzeBody (Server.mkWorld 6 [] [] []) =
    (inr tt,
     Server.mkWorld 0
       [Server.AnalyzeSentiment "fintech"; Server.AnalyzeEntities "fintech";
        Server.AnalyzeSyntax "fintech"; Server.ClassifyText "fintech";
        Server.AnalyzeSentiment "banking"; Server.AnalyzeEntities "banking";
        Server.AnalyzeSyntax "banking"]
       [Server.mkReply 500 (JObj [("error", JStr "Failed to analyze market")])]
       [("Market Analysis Error:", "RESOURCE_EXHAUSTED")]).
Proof.
  assert (Hfail : failsAt (Market.analyzeMarketData quotaClient)
                    ["fintech"; "banking"; "open banking"] (Server.mkWorld 6 [] [] [])
                    "RESOURCE_EXHAUSTED"
                    (Server.mkWorld 0
                       [Server.AnalyzeSentiment "fintech"; Server.AnalyzeEntities "fintech";
                        Server.AnalyzeSyntax "fintech"; Server.ClassifyText "fintech";
                        Server.AnalyzeSentiment "banking"; Server.AnalyzeEntities "banking";
                        Server.AnalyzeSyntax "banking"] [] [])).
  { eapply fails_later; [reflexivity|]. apply fails_here. reflexivity. }
  exact (proj1 (proj1 (extraction_failure_aborts_request quotaClient asciiToLowerCase)
                  sampleAnalyzeBody _ _ _ Hfail)).
Defined.

(** ** Determinism of the classifier *)

Section Determinism.

Import Server.

Lemma succeedsWith_replies {S E : Type} (extract : string -> M (S := S) (E := E) Analysis.t) plan
    fields w analyses wf :
  followsPlan extract plan -> succeedsWith extract fields w analyses wf -> replies wf = replies w.
Proof.
  intros Hplan H. induction H as [w|text rest w a w1 analyses wf Hrun Hrest IH]; [reflexivity|].
  destruct (Hplan text w) as (Hr & _). rewrite Hrun in Hr. cbn [snd] in Hr. congruence.
Qed.

Ltac successful_run H :=
  let Hrun := fresh "Hrun" in
  let Hrest := fresh "Hrest" in
  inversion H as [ | ? ? ? ? ? ? ? Hrun Hrest]; subst; clear H;
  try (rewrite Hrun; cbv beta iota; successful_run Hrest).

Ltac same_verdict unfold_route plan_lemma1 plan_lemma2 :=
  intros body1 body2 w1 w2 wf1 wf2 a b c H1 H2;
  pose proof (succeedsWith_replies _ _ _ _ _ _ plan_lemma1 H1) as Hr1;
  pose proof (succeedsWith_replies _ _ _ _ _ _ plan_lemma2 H2) as Hr2;
  eexists; unfold_route; unfold tryCatch, bind;
  successful_run H1; successful_run H2;
  unfold res_json; cbn [snd replies]; rewrite Hr1, Hr2; split; reflexivity.

Context {S1 E1 S2 E2 : Type}.
Variable client1 : LanguageServiceClient S1 E1.
Variable client2 : LanguageServiceClient S2 E2.
Variable toLowerCase : string -> string.

(** C9: the classifier is deterministic.  Equal text signals give equal
    key factors, recommendations, match score and readiness score; and in
    the routes that call them the verdict sent depends on nothing but the
    text signals: two runs, whatever their backends, backend states, call
    histories, earlier replies and console, send the same verdict when
    their extractions return the same text signals. *)
Theorem classifier_deterministic :
  (forall a a', a = a' -> Market.extractKeyFactors a = Market.extractKeyFactors a')
  /\ (forall a b a' b', a = a' -> b = b' ->
        Market.generateMarketRecommendations a b = Market.generateMarketRecommendations a' b')
  /\ (forall a b a' b', a = a' -> b = b' ->
        Funding.calculateMatchScore toLowerCase a b = Funding.calculateMatchScore toLowerCase a' b')
  /\ (forall a b c a' b' c', a = a' -> b = b' -> c = c' ->
        Funding.calculateReadinessScore a b c = Funding.calculateReadinessScore a' b' c')
  /\ (forall body1 body2 w1 w2 wf1 wf2 marketAnalysis industryAnalysis trendsAnalysis,
        succeedsWith (Market.analyzeMarketData client1)
          [Market.market body1; Market.industry body1; Market.trends body1] w1
          [marketAnalysis; industryAnalysis; trendsAnalysis] wf1 ->
        succeedsWith (Market.analyzeMarketData client2)
          [Market.market body2; Market.industry body2; Market.trends body2] w2
          [marketAnalysis; industryAnalysis; trendsAnalysis] wf2 ->
        sameVerdict (Market.analyzeRoute client1 body1) w1 (Market.analyzeRoute client2 body2) w2)
  /\ (forall body1 body2 w1 w2 wf1 wf2 pitchAnalysis requirementsAnalysis preferencesAnalysis,
        succeedsWith (Funding.analyzeFundingData client1)
          [Funding.pitch body1; Funding.requirements body1; Funding.preferences body1] w1
          [pitchAnalysis; requirementsAnalysis; preferencesAnalysis] wf1 ->
        succeedsWith (Funding.analyzeFundingData client2)
          [Funding.pitch body2; Funding.requirements body2; Funding.preferences body2] w2
          [pitchAnalysis; requirementsAnalysis; preferencesAnalysis] wf2 ->
        sameVerdict (Funding.investorMatchRoute toLowerCase client1 body1) w1
          (Funding.investorMatchRoute toLowerCase client2 body2) w2)
  /\ (forall body1 body2 w1 w2 wf1 wf2 businessAnalysis financialsAnalysis teamAnalysis,
        succeedsWith (Funding.analyzeFundingData client1)
          [Funding.business body1; Funding.financials body1; Funding.team body1] w1
          [businessAnalysis; financialsAnalysis; teamAnalysis] wf1 ->
        succeedsWith (Funding.analyzeFundingData client2)
          [Funding.business body2; Funding.financials body2; Funding.team body2] w2
          [businessAnalysis; financialsAnalysis; teamAnalysis] wf2 ->
        sameVerdict (Funding.readinessRoute client1 body1) w1
          (Funding.readinessRoute client2 body2) w2).
Proof.
  split; [now intros a a' <-|]. split; [now intros a b a' b' <- <-|].
  split; [now intros a b a' b' <- <-|]. split; [now intros a b c a' b' c' <- <- <-|].
  split; [|split].
  - same_verdict ltac:(unfold Market.analyzeRoute)
      (analyzeMarketData_followsPlan client1) (analyzeMarketData_followsPlan client2).
  - same_verdict ltac:(unfold Funding.investorMatchRoute)
      (analyzeFundingData_followsPlan client1) (analyzeFundingData_followsPlan client2).
  - same_verdict ltac:(unfold Funding.readinessRoute)
      (analyzeFundingData_followsPlan client1) (analyzeFundingData_followsPlan client2).
Qed.

End Determinism.

Lemma classifier_deterministic_witness :
  sameVerdict
    (Market.analyzeRoute quotaClient sampleAnalyzeBody) (Server.mkWorld 12 [] [] [])
    (Market.analyzeRoute quotaClient sampleAnalyzeBody)
    (Server.mkWorld 30 [Server.ClassifyText "earlier"] [Server.mkReply 200 JNull]
       [("Strategy Error:", "earlier")]).
Proof.
  eapply (proj1 (proj2 (proj2 (proj2 (proj2
            (classifier_deterministic quotaClient quotaClient asciiToLowerCase)))))).
  - repeat (eapply succeeds_cons; [cbv; reflexivity|]). apply succeeds_nil.
  - repeat (eapply succeeds_cons; [cbv; reflexivity|]). apply succeeds_nil.
Defined.

(** ** Every request is answered once *)

Section RoutesReply.

Import Server.

Lemma followsPlan_replies {S E : Type} (extract : string -> M (S := S) (E := E) Analysis.t) plan text w :
  followsPlan extract plan -> replies (snd (extract text w)) = replies w.
Proof. intros H. apply (H text w). Qed.

Ltac answer_cases plan_lemma :=
  match goal with
  | |- context [match ?extract ?text ?w with _ => _ end] =>
      let H := fresh "Hr" in
      pose proof (followsPlan_replies _ _ text w plan_lemma) as H;
      destruct (extract text w) as [[?|?] ?]; cbn [snd] in H; cbv beta iota;
      [ | answer_cases plan_lemma ]
  | _ => idtac
  end.

Ltac answers_once unfold_route plan_lemma :=
  intros body w; unfold_route; unfold tryCatch, bind;
  answer_cases plan_lemma;
  unfold console_error, res_status_json, res_json; cbn [fst snd replies];
  (split; [reflexivity|]; eexists;
   split; [repeat match goal with H : replies _ = replies _ |- _ => rewrite H; clear H end; reflexivity
          | cbn; auto]).

Context {S E : Type} (languageClient : LanguageServiceClient S E).
Variable toLowerCase : string -> string.

(** X1: every text-signal route answers every request exactly once, with
    status 200 or 500, and never lets an exception escape, whatever the
    backend does. *)
Theorem routes_answer_once :
  (forall body, answersOnce (Market.analyzeRoute languageClient body))
  /\ (forall body, answersOnce (Market.competitorsRoute languageClient body))
  /\ (forall body, answersOnce (Market.strategyRoute languageClient body))
  /\ (forall body, answersOnce (Pitch.generateDeckRoute languageClient body))
  /\ (forall body, answersOnce (Pitch.mentorQaRoute languageClient body))
  /\ (forall body, answersOnce (Pitch.practiceFeedbackRoute languageClient body))
  /\ (forall body, answersOnce (Planning.ideaCheckRoute languageClient body))
  /\ (forall body, answersOnce (Planning.swotRoute languageClient body))
  /\ (forall body, answersOnce (Funding.guidanceRoute toLowerCase languageClient body))
  /\ (forall body, answersOnce (Funding.investorMatchRoute toLowerCase languageClient body))
  /\ (forall body, answersOnce (Funding.readinessRoute languageClient body)).
Proof.
  repeat apply conj.
  - answers_once ltac:(unfold Market.analyzeRoute) (analyzeMarketData_followsPlan languageClient).
  - answers_once ltac:(unfold Market.competitorsRoute) (analyzeMarketData_followsPlan languageClient).
  - answers_once ltac:(unfold Market.strategyRoute) (analyzeMarketData_followsPlan languageClient).
  - answers_once ltac:(unfold Pitch.generateDeckRoute) (analyzePitch_followsPlan languageClient).
  - answers_once ltac:(unfold Pitch.mentorQaRoute) (analyzePitch_followsPlan languageClient).
  - answers_once ltac:(unfold Pitch.practiceFeedbackRoute) (analyzePitch_followsPlan languageClient).
  - answers_once ltac:(unfold Planning.ideaCheckRoute) (analyzeBusinessIdea_followsPlan languageClient).
  - answers_once ltac:(unfold Planning.swotRoute) (analyzeBusinessIdea_followsPlan languageClient).
  - answers_once ltac:(unfold Funding.guidanceRoute) (analyzeFundingData_followsPlan languageClient).
  - answers_once ltac:(unfold Funding.investorMatchRoute) (analyzeFundingData_followsPlan languageClient).
  - answers_once ltac:(unfold Funding.readinessRoute) (analyzeFundingData_followsPlan languageClient).
Qed.

End RoutesReply.

(** ** Requests whose extractions all succeed *)

Section RoutesSucceed.

Import Server.

Lemma succeedsWith_trace {S E : Type} (extract : string -> M (S := S) (E := E) Analysis.t) plan
    fields w analyses wf :
  followsPlan extract plan -> succeedsWith extract fields w analyses wf ->
  replies wf = replies w /\ console wf = console w
  /\ calls wf = calls w ++ flat_map plan fields.
Proof.
  intros Hplan H. induction H as [w|text rest w a w1 analyses wf Hrun Hrest IH].
  - cbn [flat_map]. now rewrite app_nil_r.
  - destruct (Hplan text w) as (Hr & Hc & Hcalls). rewrite Hrun in *. cbn [fst snd] in *.
    destruct IH as (IHr & IHc & IHcalls).
    split; [congruence|]. split; [congruence|].
    rewrite IHcalls, Hcalls. cbn [flat_map]. now rewrite app_assoc.
Qed.

Ltac all_succeed H :=
  let Hrun := fresh "Hrun" in
  let Hrest := fresh "Hrest" in
  inversion H as [ | ? ? ? ? ? ? ? Hrun Hrest]; subst; clear H;
  try (rewrite Hrun; cbv beta iota; all_succeed Hrest).

Ltac completes unfold_route plan_lemma :=
  let H := fresh "Hok" in
  intros body w analyses wf H;
  destruct (succeedsWith_trace _ _ _ _ _ _ plan_lemma H) as (Hr & Hc & Hcalls);
  unfold_route; unfold tryCatch, bind;
  all_succeed H;
  unfold res_json; rewrite <- Hcalls, <- Hr, <- Hc; eexists; reflexivity.

Context {S E : Type} (languageClient : LanguageServiceClient S E).
Variable toLowerCase : string -> string.

(** X2: in every text-signal route, when all extractions succeed the
    backend has been called exactly as planned (sentiment, entities,
    syntax and classification for each field in order, no classification
    in the pitch router), whatever calls were made before, nothing is
    logged, and the only reply has status 200. *)
Theorem routes_complete_on_success :
  (forall body,
     completesOnSuccess (Market.analyzeMarketData languageClient) fullPlan
       [Market.market body; Market.industry body; Market.trends body]
       (Market.analyzeRoute languageClient body))
  /\ (forall body,
     completesOnSuccess (Market.analyzeMarketData languageClient) fullPlan
       [Market.competitors body; Market.strengths body; Market.weaknesses body]
       (Market.competitorsRoute languageClient body))
  /\ (forall body,
     completesOnSuccess (Market.analyzeMarketData languageClient) fullPlan
       [Market.goals body; Market.resources body; Market.constraints body]
       (Market.strategyRoute languageClient body))
  /\ (forall body,
     completesOnSuccess (Pitch.analyzePitch languageClient) pitchPlan
       [Pitch.pitch body; Pitch.company body; Pitch.market body]
       (Pitch.generateDeckRoute languageClient body))
  /\ (forall body,
     completesOnSuccess (Pitch.analyzePitch languageClient) pitchPlan
       [Pitch.question body; Pitch.context body]
       (Pitch.mentorQaRoute languageClient body))
  /\ (forall body,
     completesOnSuccess (Pitch.analyzePitch languageClient) pitchPlan
       [Pitch.pitchScript body]
       (Pitch.practiceFeedbackRoute languageClient body))
  /\ (forall body,
     completesOnSuccess (Planning.analyzeBusinessIdea languageClient) fullPlan
       [Planning.idea body]
       (Planning.ideaCheckRoute languageClient body))
  /\ (forall body,
     completesOnSuccess (Planning.analyzeBusinessIdea languageClient) fullPlan
       [Planning.swot_idea body; Planning.market body; Planning.competition body]
       (Planning.swotRoute languageClient body))
  /\ (forall body,
     completesOnSuccess (Funding.analyzeFundingData languageClient) fullPlan
       [Funding.stage body; Funding.needs body; Funding.metrics body]
       (Funding.guidanceRoute toLowerCase languageClient body))
  /\ (forall body,
     completesOnSuccess (Funding.analyzeFundingData languageClient) fullPlan
       [Funding.pitch body; Funding.requirements body; Funding.preferences body]
       (Funding.investorMatchRoute toLowerCase languageClient body))
  /\ (forall body,
     completesOnSuccess (Funding.analyzeFundingData languageClient) fullPlan
       [Funding.business body; Funding.financials body; Funding.team body]
       (Funding.readinessRoute languageClient body)).
Proof.
  repeat apply conj.
  - completes ltac:(unfold Market.analyzeRoute) (analyzeMarketData_followsPlan languageClient).
  - completes ltac:(unfold Market.competitorsRoute) (analyzeMarketData_followsPlan languageClient).
  - completes ltac:(unfold Market.strategyRoute) (analyzeMarketData_followsPlan languageClient).
  - completes ltac:(unfold Pitch.generateDeckRoute) (analyzePitch_followsPlan languageClient).
  - completes ltac:(unfold Pitch.mentorQaRoute) (analyzePitch_followsPlan languageClient).
  - completes ltac:(unfold Pitch.practiceFeedbackRoute) (analyzePitch_followsPlan languageClient).
  - completes ltac:(unfold Planning.ideaCheckRoute) (analyzeBusinessIdea_followsPlan languageClient).
  - completes ltac:(unfold Planning.swotRoute) (analyzeBusinessIdea_followsPlan languageClient).
  - completes ltac:(unfold Funding.guidanceRoute) (analyzeFundingData_followsPlan languageClient).
  - completes ltac:(unfold Funding.investorMatchRoute) (analyzeFundingData_followsPlan languageClient).
  - completes ltac:(unfold Funding.readinessRoute) (analyzeFundingData_followsPlan languageClient).
Qed.

End RoutesSucceed.

Lemma routes_complete_on_success_witness :
  exists payload,
    Pitch.practiceFeedbackRoute quotaClient sampleFeedbackBody
      (Server.mkWorld 5 [Server.ClassifyText "earlier"] [] []) =
      (inr tt,
       Server.mkWorld 2
         [Server.ClassifyText "earlier"; Server.AnalyzeSentiment "We sell shoes.";
          Server.AnalyzeEntities "We sell shoes."; Server.AnalyzeSyntax "We sell shoes."]
         [Server.mkReply 200 payload] []).
Proof.
  eapply (proj1 (proj2 (proj2 (proj2 (proj2 (proj2
            (routes_complete_on_success quotaClient asciiToLowerCase))))))
            sampleFeedbackBody (Server.mkWorld 5 [Server.ClassifyText "earlier"] [] []) _
            (Server.mkWorld 2
               [Server.ClassifyText "earlier"; Server.AnalyzeSentiment "We sell shoes.";
                Server.AnalyzeEntities "We sell shoes."; Server.AnalyzeSyntax "We sell shoes."] [] [])).
  eapply succeeds_cons; [cbv; reflexivity|]. apply succeeds_nil.
Defined.

(** ** Entity order *)

Section EntityOrder.

Local Open Scope float_scope.

Variable toLowerCase : string -> string.

Lemma filter_length_Permutation {A} (p : A -> bool) (l l' : list A) :
  Permutation l l' -> length (List.filter p l) = length (List.filter p l').
Proof.
  intros H. induction H as [|x l l' H IH|x y l|l l' l'' H1 IH1 H2 IH2]; cbn [List.filter].
  - reflexivity.
  - destruct (p x); cbn [length]; now rewrite IH.
  - destruct (p x), (p y); reflexivity.
  - now rewrite IH1.
Qed.

(** X3: the match score does not depend on the order in which the
    backend lists the entities of the pitch or of the requirements. *)
Theorem calculateMatchScore_order (pitchAnalysis pitchAnalysis' requirementsAnalysis requirementsAnalysis' : Analysis.t) :
  Sentiment.score (Analysis.sentiment pitchAnalysis) = Sentiment.score (Analysis.sentiment pitchAnalysis') ->
  Permutation (Analysis.entities pitchAnalysis) (Analysis.entities pitchAnalysis') ->
  Permutation (Analysis.entities requirementsAnalysis) (Analysis.entities requirementsAnalysis') ->
  Funding.calculateMatchScore toLowerCase pitchAnalysis requirementsAnalysis =
  Funding.calculateMatchScore toLowerCase pitchAnalysis' requirementsAnalysis'.
Proof.
  intros Hs Hp Hr. unfold Funding.calculateMatchScore. cbv zeta.
  rewrite !matchScore_loop, Hs. do 2 f_equal.
  unfold overlappingRequirements.
  rewrite (filter_length_Permutation _ _ _ Hr). f_equal.
  apply List.filter_ext. intros e. apply bool_decide_ext.
  rewrite !list_elem_of_In. split; apply Permutation_in; [|symmetry]; now apply Permutation_map.
Qed.

End EntityOrder.

Lemma calculateMatchScore_order_witness :
  Funding.calculateMatchScore asciiToLowerCase
    (sampleAnalysis 0.5 [sampleEntity "Fintech" 0.5; sampleEntity "Berlin" 0.2])
    (sampleAnalysis 0 [sampleEntity "berlin" 0.1; sampleEntity "Paris" 0.2])
  = Funding.calculateMatchScore asciiToLowerCase
      (sampleAnalysis 0.5 [sampleEntity "Berlin" 0.2; sampleEntity "Fintech" 0.5])
      (sampleAnalysis 0 [sampleEntity "Paris" 0.2; sampleEntity "berlin" 0.1]).
Proof.
  apply (calculateMatchScore_order asciiToLowerCase
           (sampleAnalysis 0.5 [sampleEntity "Fintech" 0.5; sampleEntity "Berlin" 0.2])
           (sampleAnalysis 0.5 [sampleEntity "Berlin" 0.2; sampleEntity "Fintech" 0.5])
           (sampleAnalysis 0 [sampleEntity "berlin" 0.1; sampleEntity "Paris" 0.2])
           (sampleAnalysis 0 [sampleEntity "Paris" 0.2; sampleEntity "berlin" 0.1]));
    [reflexivity | apply perm_swap | apply perm_swap].
Defined.

(** ** Further facts about the order of Numbers *)

Module OrderFacts.

Import Binary64.
Local Open Scope float_scope.

(** Comparing the other way round gives the opposite answer. *)
Lemma SFcompare_antisym x y : SFcompare y x = option_map CompOpp (SFcompare x y).
Proof.
  destruct x as [sx|sx| |sx mx ex], y as [sy|sy| |sy my ey]; try reflexivity;
    repeat match goal with b : bool |- _ => destruct b end; try reflexivity;
    rewrite !SFcompare_finite_spec; cbv zeta iota; cbn [option_map]; f_equal;
    rewrite (Z.compare_antisym ex ey), (Pos.compare_antisym mx my);
    destruct (ex ?= ey)%Z; cbn [CompOpp]; try reflexivity;
    destruct (mx ?= my)%positive; reflexivity.
Qed.

Lemma ltb_asymm x y : (x <? y) = true -> (y <? x) = false.
Proof.
  rewrite !FloatAxioms.ltb_spec. unfold SFltb.
  rewrite (SFcompare_antisym (Prim2SF x) (Prim2SF y)).
  destruct (SFcompare (Prim2SF x) (Prim2SF y)) as [[]|]; cbn; congruence.
Qed.

Lemma ltb_neqb x y : (x <? y) = true -> (y !== x) = true.
Proof.
  unfold Number.neqb. rewrite FloatAxioms.ltb_spec, FloatAxioms.eqb_spec. unfold SFltb, SFeqb.
  rewrite (SFcompare_antisym (Prim2SF x) (Prim2SF y)).
  destruct (SFcompare (Prim2SF x) (Prim2SF y)) as [[]|]; cbn; congruence.
Qed.

(** The absolute value of a negative Number is positive. *)
Lemma abs_neg_pos x : (x <? 0) = true -> (0 <? abs x) = true.
Proof.
  rewrite !FloatAxioms.ltb_spec, abs_spec. change (Prim2SF 0) with (S754_zero false).
  destruct (Prim2SF x) as [s|s| |s m e]; try discriminate; destruct s; try discriminate; reflexivity.
Qed.

End OrderFacts.

(** ** Buckets of entities *)

Section Buckets.

Local Open Scope float_scope.
Import NumberFacts OrderFacts.

Lemma filter_exclusive_length {A} (p q : A -> bool) (l : list A) :
  (forall x, p x = true -> q x = false) ->
  (length (List.filter p l) + length (List.filter q l) <= length l)%nat.
Proof.
  intros H. induction l as [|x l IH]; cbn [List.filter length]; [lia|].
  destruct (p x) eqn:Hp.
  - rewrite (H x Hp). cbn [length]. lia.
  - destruct (q x); cbn [length]; lia.
Qed.

Lemma filter_implies_length {A} (p q : A -> bool) (l : list A) :
  (forall x, p x = true -> q x = true) ->
  (length (List.filter p l) <= length (List.filter q l))%nat.
Proof.
  intros H. induction l as [|x l IH]; cbn [List.filter length]; [lia|].
  destruct (p x) eqn:Hp.
  - rewrite (H x Hp). cbn [length]. lia.
  - destruct (q x); cbn [length]; lia.
Qed.

(** X4: in the business and team readiness assessments no entity is
    counted on both sides: the strengths and the weaknesses (or gaps)
    together never outnumber the entities of the analysis. *)
Theorem readiness_buckets_disjoint (analysis : Analysis.t) :
  (exists ns nw,
      arrayLength (JsonOps.get "strengths" (Funding.assessBusinessReadiness analysis)) = Some ns
      /\ arrayLength (JsonOps.get "weaknesses" (Funding.assessBusinessReadiness analysis)) = Some nw
      /\ (ns + nw <= length (Analysis.entities analysis))%nat)
  /\ (exists ns ng,
      arrayLength (JsonOps.get "strengths" (Funding.assessTeamReadiness analysis)) = Some ns
      /\ arrayLength (JsonOps.get "gaps" (Funding.assessTeamReadiness analysis)) = Some ng
      /\ (ns + ng <= length (Analysis.entities analysis))%nat).
Proof.
  split.
  - do 2 eexists. split; [reflexivity|]. split; [reflexivity|].
    rewrite !length_map. apply filter_exclusive_length.
    intros e He. now apply ltb_asymm.
  - do 2 eexists. split; [reflexivity|]. split; [reflexivity|].
    rewrite !length_map. apply filter_exclusive_length.
    intros e He. apply andb_true_iff in He. destruct He as [_ He]. now apply ltb_asymm.
Qed.

(** X5: in the industry analysis of [/analyze] every opportunity is also
    reported as a trend, with the same name, sentiment and salience. *)
Theorem opportunities_are_trends (analysis : Analysis.t) (name potential relevance : Json) :
  In (JObj [("opportunity", name); ("potential", potential); ("relevance", relevance)])
     (Market.extractOpportunities analysis) ->
  In (JObj [("trend", name); ("impact", potential); ("relevance", relevance)])
     (Market.extractTrends analysis).
Proof.
  unfold Market.extractOpportunities, Market.extractTrends. rewrite !in_map_iff.
  intros (e & Heq & He). apply filter_In in He. destruct He as [Hin Hp].
  apply andb_true_iff in Hp. destruct Hp as [Hpos Hsal].
  injection Heq as <- <- <-.
  exists e. split; [reflexivity|]. apply filter_In. split; [exact Hin|].
  rewrite Hsal. cbn [andb]. now apply ltb_neqb.
Qed.

(** X6: every challenge, weakness and constraint carries a strictly
    positive severity (or impact): the absolute value of a negative
    sentiment score. *)
Theorem severities_are_positive (analysis : Analysis.t) :
  Forall (fun item => exists v, JsonOps.get "severity" item = Some (JNum v) /\ (0 <? v) = true)
    (Market.extractChallenges analysis)
  /\ Forall (fun item => exists v, JsonOps.get "impact" item = Some (JNum v) /\ (0 <? v) = true)
       (Market.analyzeWeaknesses analysis)
  /\ Forall (fun item => exists v, JsonOps.get "severity" item = Some (JNum v) /\ (0 <? v) = true)
       (Market.analyzeConstraints analysis).
Proof.
  unfold Market.extractChallenges, Market.analyzeWeaknesses, Market.analyzeConstraints.
  repeat split; apply List.Forall_forall; intros item; rewrite in_map_iff; intros (e & <- & He);
    apply filter_In in He; destruct He as [_ He];
    eexists; (split; [reflexivity|]); now apply abs_neg_pos.
Qed.

(** X7: in the practice feedback, whenever the clarity lists fewer than
    three key terms the improvements ask for more specific examples. *)
Theorem few_keyTerms_need_examples (analysis : Analysis.t) (n : nat) :
  arrayLength (JsonOps.get "keyTerms" (Pitch.analyzeClarity analysis)) = Some n ->
  (n < 3)%nat ->
  In "Include more specific examples and key benefits" (Pitch.generateImprovements analysis).
Proof.
  intros Hn Hlt. cbn in Hn. injection Hn as Hn. rewrite !length_map in Hn.
  assert (Hle : (length (List.filter (fun e => Entity.salience e >? 0.3) (Analysis.entities analysis)) <= n)%nat).
  { rewrite <- Hn. apply filter_implies_length. intros e He.
    unfold Number.gtb in *. now apply leb_ltb_trans with 0.3. }
  unfold Pitch.generateImprovements. cbv zeta.
  assert (Hk : (length (List.filter (fun e => Entity.salience e >? 0.3) (Analysis.entities analysis)) <? 3)%nat = true)
    by (apply Nat.ltb_lt; lia).
  rewrite Hk. unfold push. apply in_or_app. right. now left.
Qed.

Lemma fold_left_push_map {A B} (f : A -> B) (l : list A) (acc : list B) :
  fold_left (fun acc x => push acc (f x)) l acc = acc ++ map f l.
Proof.
  revert acc. induction l as [|x l IH]; intros acc; cbn [fold_left map].
  - now rewrite app_nil_r.
  - rewrite IH. unfold push. now rewrite <- app_assoc.
Qed.

(** X8: the action plan of [/strategy] lists one action per goal of
    salience above 0.3, in the order of the goals analysis, followed by one
    action per resource of salience above 0.2, in the order of the
    resources analysis. *)
Theorem generateActionPlan_layout (goalsAnalysis resourcesAnalysis : Analysis.t) :
  Market.generateActionPlan goalsAnalysis resourcesAnalysis =
    map (fun goal =>
           JObj [("objective", JStr (Entity.name goal));
                 ("priority", JNum (Entity.salience goal));
                 ("timeline", JStr (if Sentiment.score (Entity.sentiment goal) >? 0
                                    then "Short-term" else "Long-term"))])
      (salienceAbove 0.3 (Analysis.entities goalsAnalysis))
    ++ map (fun resource =>
              JObj [("action", JStr ("Allocate " +:+ Entity.name resource));
                    ("priority", JNum (Entity.salience resource));
                    ("status", JStr (if Sentiment.score (Entity.sentiment resource) >? 0
                                     then "Ready" else "Needs preparation"))])
         (salienceAbove 0.2 (Analysis.entities resourcesAnalysis))
  /\ length (Market.generateActionPlan goalsAnalysis resourcesAnalysis) =
     (length (salienceAbove 0.3 (Analysis.entities goalsAnalysis))
      + length (salienceAbove 0.2 (Analysis.entities resourcesAnalysis)))%nat.
Proof.
  assert (H : Market.generateActionPlan goalsAnalysis resourcesAnalysis =
              map (fun goal =>
                     JObj [("objective", JStr (Entity.name goal));
                           ("priority", JNum (Entity.salience goal));
                           ("timeline", JStr (if Sentiment.score (Entity.sentiment goal) >? 0
                                              then "Short-term" else "Long-term"))])
                (salienceAbove 0.3 (Analysis.entities goalsAnalysis))
              ++ map (fun resource =>
                        JObj [("action", JStr ("Allocate " +:+ Entity.name resource));
                              ("priority", JNum (Entity.salience resource));
                              ("status", JStr (if Sentiment.score (Entity.sentiment resource) >? 0
                                               then "Ready" else "Needs preparation"))])
                   (salienceAbove 0.2 (Analysis.entities resourcesAnalysis))).
  { unfold Market.generateActionPlan, salienceAbove. cbv zeta.
    now rewrite !fold_left_push_map. }
  split; [exact H|]. now rewrite H, length_app, !length_map.
Qed.

End Buckets.

Lemma opportunities_are_trends_witness :
  In (JObj [("trend", JStr "open banking"); ("impact", JNum 0.5%float); ("relevance", JNum 0.4%float)])
     (Market.extractTrends
        (Analysis.mk (Sentiment.mk 0 0)
           [Entity.mk "open banking" "OTHER" 0.4 (Sentiment.mk 0.5 0.5) None] (Syntax.mk []) [])).
Proof.
  apply (opportunities_are_trends
           (Analysis.mk (Sentiment.mk 0 0)
              [Entity.mk "open banking" "OTHER" 0.4 (Sentiment.mk 0.5 0.5) None] (Syntax.mk []) [])).
  left. reflexivity.
Defined.

Lemma few_keyTerms_need_examples_witness :
  In "Include more specific examples and key benefits"
     (Pitch.generateImprovements (sampleAnalysis 0.5 [sampleEntity "shoes" 0.9; sampleEntity "price" 0.25])).
Proof.
  apply (few_keyTerms_need_examples
           (sampleAnalysis 0.5 [sampleEntity "shoes" 0.9; sampleEntity "price" 0.25]) 2);
    [reflexivity | lia].
Defined.

(** ** Skill-tracking requests *)

Section SkilltrackRoutes.

Import Server Skilltrack.

Context {S E : Type} (clients : Clients S E).

(** X9: [/analyze-resume] without an uploaded file answers 400 at once:
    neither the prediction backend nor the document store is touched and
    nothing is logged. *)
Theorem analyzeResume_without_file (req : AnalyzeResumeRequest) (w : World S E) :
  resume req = None ->
  analyzeResumeRoute clients req w =
    (inr tt,
     mkWorld (backend w) (calls w)
       (replies w ++ [mkReply 400 (JObj [("error", JStr "No resume file provided")])])
       (console w)).
Proof. intros H. unfold analyzeResumeRoute, tryCatch. now rewrite H. Qed.

Ltac predict_then_store :=
  intros w; unfold tryCatch, bind, perform;
  destruct (predict clients _ (backend w)) as [[e|predictions] s1]; [reflexivity|];
  cbn [backend];
  destruct (write clients _ s1) as [[e|[]] s2]; reflexivity.

(** X10: each skill-tracking request (for [/analyze-resume]: each request
    that carries an uploaded file) asks the prediction backend once and
    writes at most once, under the caller's own user id; what is stored is
    what is returned; a failed prediction leaves the store untouched, and
    any failure yields the single reply 500. *)
Theorem skilltrack_predict_then_store :
  (forall req resumeText,
      resume req = Some resumeText ->
      predictThenStore clients (resumeRequest resumeText) (resumeWrite req)
        "analysis" "Resume Analysis Error:" "Failed to analyze resume"
        (analyzeResumeRoute clients req))
  /\ (forall req,
      predictThenStore clients (progressRequest req) (progressWrite req)
        "progress" "Progress Tracking Error:" "Failed to track progress"
        (trackProgressRoute clients req))
  /\ (forall req,
      predictThenStore clients (recommendationsRequest req) (recommendationsWrite req)
        "recommendations" "Recommendation Error:" "Failed to get recommendations"
        (getRecommendationsRoute clients req)).
Proof.
  repeat apply conj.
  - intros req resumeText H. unfold analyzeResumeRoute. rewrite H. predict_then_store.
  - intros req. unfold trackProgressRoute. predict_then_store.
  - intros req. unfold getRecommendationsRoute. predict_then_store.
Qed.

End SkilltrackRoutes.

(** ** Facts about division and integer Numbers *)

Module DivisionFacts.

Import Binary64 NumberFacts.
Local Open Scope Z_scope.

(** In the normal range and below the overflow threshold, rounding a
    positive mantissa gives a finite non-zero value. *)
Lemma binary_round_aux_exact_finite s M E :
  0 < M -> 53 <= Zdigits2 M -> -1074 <= Zdigits2 M + E - 53 -> E + Zdigits2 M - 53 + 1 <= 971 ->
  exists m' e', binary_round_aux prec emax s M E loc_Exact = S754_finite s m' e'.
Proof.
  intros HM Hd Hn Hmax.
  destruct (binary_round_aux_exact_lower s M E HM Hd Hn) as [Hinf|(m' & e' & Hres & _)];
    [|now exists m', e'].
  exfalso. revert Hinf.
  pose proof (Zdigits2_bounds M HM) as [Hlo Hhi].
  set (d := Zdigits2 M) in *.
  assert (Hn1 : Z.max (fexp prec emax (d + E) - E) 0 = d - 53) by (rewrite fexp_eq; lia).
  assert (Hpow : 2 ^ (d - 1) = 2 ^ (d - 53) * 2 ^ 52) by (rewrite <- Z.pow_add_r by lia; f_equal; lia).
  assert (Hpow' : 2 ^ d = 2 ^ (d - 53) * 2 ^ 53) by (rewrite <- Z.pow_add_r by lia; f_equal; lia).
  assert (Hp : 0 < 2 ^ (d - 53)) by (apply Z.pow_pos_nonneg; lia).
  assert (Hq1 : 2 ^ 52 <= M / 2 ^ (d - 53)) by (apply Z.div_le_lower_bound; lia).
  assert (Hq2 : M / 2 ^ (d - 53) < 2 ^ 53) by (apply Z.div_lt_upper_bound; lia).
  destruct (binary_round_aux_exact s M E HM) as (r & Hr & Hres).
  { fold d. rewrite Hn1. change (2 ^ 52) with 4503599627370496 in Hq1. lia. }
  fold d in Hr, Hres. rewrite Hn1 in Hr, Hres.
  assert (Hr52 : 2 ^ 52 <= r) by lia.
  assert (Hr54 : r < 2 ^ 54).
  { change (2 ^ 53) with 9007199254740992 in Hq2.
    change (2 ^ 54) with 18014398509481984. lia. }
  assert (Hrpos : 0 < r) by (change (2 ^ 52) with 4503599627370496 in Hr52; lia).
  pose proof (Zdigits2_ge r 52 ltac:(lia) Hr52) as Hdr1.
  pose proof (Zdigits2_le r 54 Hrpos Hr54) as Hdr2.
  assert (Hn2 : Z.max (fexp prec emax (Zdigits2 r + (E + (d - 53))) - (E + (d - 53))) 0 = Zdigits2 r - 53)
    by (rewrite fexp_eq; lia).
  rewrite Hn2 in Hres. rewrite Hres.
  destruct (r / 2 ^ (Zdigits2 r - 53)) as [|m'|m']; try discriminate.
  replace (E + (d - 53) + (Zdigits2 r - 53) <=? emax - prec) with true; [discriminate|].
  symmetry. apply Z.leb_le. change (emax - prec) with 971. lia.
Qed.

(** A positive integer below 2^63 is rounded to a finite positive value. *)
Lemma binary_normalize_pos_finite z :
  0 < z < 2 ^ 63 -> exists m e, binary_normalize prec emax z 0 false = S754_finite false m e.
Proof.
  intros [Hz Hz63]. destruct z as [|p|p]; try lia.
  cbn [binary_normalize]. unfold binary_round.
  pose proof (Zdigits2_bounds (Zpos p) Hz) as [Hlo Hhi].
  pose proof (Zdigits2_pos (Zpos p) Hz) as Hd1.
  pose proof (Zdigits2_le (Zpos p) 63 Hz Hz63) as Hd63.
  cbn [Zdigits2] in Hlo, Hhi, Hd1, Hd63.
  set (d := Zpos (digits2_pos p)) in *.
  rewrite Z.add_0_r, fexp_eq. replace (Z.max (d - 53) (-1074)) with (d - 53) by lia.
  destruct (Z.le_gt_cases 53 d) as [Hbig|Hsmall].
  - assert (Hsh : shl_align p 0 (d - 53) = (p, 0)).
    { unfold shl_align. destruct (d - 53 - 0) as [|q|q] eqn:Hq; try reflexivity. lia. }
    rewrite Hsh. apply binary_round_aux_exact_finite; cbn [Zdigits2]; fold d; lia.
  - pose proof (shl_align_fst p 0 (d - 53) ltac:(lia)) as Hfst.
    assert (Hsnd : snd (shl_align p 0 (d - 53)) = d - 53).
    { unfold shl_align. destruct (d - 53 - 0) as [|q|q] eqn:Hq; try lia. reflexivity. }
    destruct (shl_align p 0 (d - 53)) as [mz ez]. cbn [fst snd] in Hfst, Hsnd. subst ez.
    replace (0 - (d - 53)) with (53 - d) in Hfst by lia.
    assert (Hp : 0 < 2 ^ (53 - d)) by (apply Z.pow_pos_nonneg; lia).
    assert (H52 : 2 ^ 52 <= Zpos mz).
    { rewrite Hfst. replace 52 with ((d - 1) + (53 - d)) by lia.
      rewrite Z.pow_add_r by lia. nia. }
    assert (H53 : Zpos mz < 2 ^ 53).
    { rewrite Hfst. replace 53 with (d + (53 - d)) at 2 by lia.
      rewrite Z.pow_add_r by lia. nia. }
    pose proof (Zdigits2_ge (Zpos mz) 52 ltac:(lia) H52) as Hg.
    pose proof (Zdigits2_le (Zpos mz) 53 ltac:(lia) H53) as Hl.
    apply binary_round_aux_exact_finite; lia.
Qed.

(** The quotient of a non-negative value by a finite positive value is
    not NaN and not negative. *)
Lemma SFdiv_nonneg_finite x m e :
  nonneg x -> nonneg (SF64div x (S754_finite false m e)).
Proof.
  unfold nonneg. destruct x as [sx|sx| |sx mx ex]; cbn [sf_sign_is]; intros Hx;
    try contradiction; subst; try reflexivity.
  unfold SF64div, SFdiv, SFdiv_core_binary. cbn [xorb].
  set (m' := match _ - _ - _ with Z0 => Zpos mx | Zpos _ => _ | Zneg _ => _ end).
  assert (Hm' : 0 <= m').
  { unfold m'. destruct (_ - _ - _) as [|q|q]; try lia. apply Z.shiftl_nonneg. lia. }
  pose proof (Z.div_pos m' (Zpos m) Hm' ltac:(lia)) as Hq.
  unfold Z.div in Hq. destruct (Z.div_eucl m' (Zpos m)) as [q r]. cbn [fst] in Hq.
  now apply binary_round_aux_sign.
Qed.

Local Open Scope float_scope.

Lemma of_nat_nonneg n : nonneg (Prim2SF (Number.of_nat n)).
Proof.
  unfold Number.of_nat. rewrite of_uint63_spec. apply binary_normalize_nonneg.
  apply Uint63.to_Z_bounded.
Qed.

Lemma of_nat_finite n :
  (0 < Z.of_nat n < 2 ^ 63)%Z -> exists m e, Prim2SF (Number.of_nat n) = S754_finite false m e.
Proof.
  intros H. unfold Number.of_nat. rewrite of_uint63_spec, Uint63.of_Z_spec.
  rewrite Z.mod_small by (change wB with (2 ^ 63)%Z; lia).
  now apply binary_normalize_pos_finite.
Qed.

Lemma div_nonneg x y m e :
  nonneg (Prim2SF x) -> Prim2SF y = S754_finite false m e -> nonneg (Prim2SF (x / y)).
Proof. intros Hx Hy. rewrite FloatAxioms.div_spec, Hy. now apply SFdiv_nonneg_finite. Qed.

Lemma fold_add_of_nat_nonneg {A} (f : A -> nat) (l : list A) (acc : float) :
  nonneg (Prim2SF acc) ->
  nonneg (Prim2SF (fold_left (fun acc x => acc + Number.of_nat (f x)) l acc)).
Proof.
  revert acc. induction l as [|x l IH]; intros acc H; cbn [fold_left]; [exact H|].
  apply IH. apply add_nonneg; [exact H|apply of_nat_nonneg].
Qed.

End DivisionFacts.

(** ** Average sentence length *)

Section AverageLength.

Local Open Scope float_scope.
Import NumberFacts DivisionFacts.

(** X11: as soon as the syntax analysis holds a sentence, the average
    sentence length of the practice feedback is a Number that is neither
    NaN nor negative: the case without sentences is the only one in which
    it is NaN. *)
Theorem averageLength_defined (analysis : Analysis.t) :
  (0 < Z.of_nat (length (Syntax.sentences (Analysis.syntax analysis))) < 2 ^ 32)%Z ->
  exists v,
    JsonOps.get "averageLength" (Pitch.analyzeStructure analysis) = Some (JNum v)
    /\ is_nan v = false /\ (0 <=? v) = true.
Proof.
  intros H. eexists. split; [reflexivity|].
  destruct (of_nat_finite (length (Syntax.sentences (Analysis.syntax analysis)))) as (m & e & Hden).
  { change (2 ^ 63)%Z with 9223372036854775808%Z. change (2 ^ 32)%Z with 4294967296%Z in H. lia. }
  assert (Hq : nonneg
                 (Prim2SF
                    (fold_left (fun acc s => acc + Number.of_nat (String.length (Sentence.text_content s)))
                       (Syntax.sentences (Analysis.syntax analysis)) 0
                     / Number.of_nat (length (Syntax.sentences (Analysis.syntax analysis)))))).
  { eapply div_nonneg; [|exact Hden].
    apply (fold_add_of_nat_nonneg (fun s => String.length (Sentence.text_content s))). reflexivity. }
  split; [now apply is_nan_false | now apply zero_leb].
Qed.

End AverageLength.

Lemma averageLength_defined_witness :
  exists v,
    JsonOps.get "averageLength"
      (Pitch.analyzeStructure
         (Analysis.mk (Sentiment.mk 0.5 0.5) []
            (Syntax.mk [Sentence.mk "We sell shoes."; Sentence.mk "Buy now."]) []))
    = Some (JNum v)
    /\ is_nan v = false /\ (0 <=? v)%float = true.
Proof.
  apply (averageLength_defined
           (Analysis.mk (Sentiment.mk 0.5 0.5) []
              (Syntax.mk [Sentence.mk "We sell shoes."; Sentence.mk "Buy now."]) [])).
  cbn. lia.
Defined.

Lemma analyzeResume_without_file_witness :
  Skilltrack.analyzeResumeRoute memoryClients
    {| Skilltrack.resume := None; Skilltrack.uid := "user-1" |} (Server.mkWorld [] [] [] [])
  = (inr tt,
     Server.mkWorld [] []
       [Server.mkReply 400 (JObj [("error", JStr "No resume file provided")])] []).
Proof.
  apply (analyzeResume_without_file memoryClients
           {| Skilltrack.resume := None; Skilltrack.uid := "user-1" |} (Server.mkWorld [] [] [] [])).
  reflexivity.
Defined.

Lemma skilltrack_predict_then_store_witness :
  Skilltrack.trackProgressRoute memoryClients sampleProgressRequest (Server.mkWorld [] [] [] [])
  = (inr tt,
     Server.mkWorld [Skilltrack.progressWrite sampleProgressRequest (Some (JStr "Python, SQL"))] []
       [Server.mkReply 200 (JObj [("progress", JStr "Python, SQL")])] []).
Proof.
  exact (proj1 (proj2 (skilltrack_predict_then_store memoryClients))
           sampleProgressRequest (Server.mkWorld [] [] [] [])).
Defined.

(** ** Upper bounds of the rounded scores *)

Module UpperBounds.

Import Binary64 NumberFacts OrderFacts.
Local Open Scope Z_scope.

(** Rounding an exact positive mantissa never exceeds a normal value that
    is strictly above the exact one. *)
Lemma binary_round_aux_exact_upper s M E B F :
  0 < M -> -1074 < Zdigits2 M + E -> E <= F -> -1074 <= F <= 971 ->
  2 ^ 52 <= B < 2 ^ 53 -> M < B * 2 ^ (F - E) ->
  exists m' e', binary_round_aux prec emax s M E loc_Exact = S754_finite s m' e'
    /\ (e' < F \/ (e' = F /\ Zpos m' <= B)).
Proof.
  intros HM Hn HEF HF HB HMB.
  pose proof (Zdigits2_bounds M HM) as [Hlo Hhi].
  pose proof (Zdigits2_pos M HM) as Hd.
  set (d := Zdigits2 M) in *.
  set (n1 := Z.max (fexp prec emax (d + E) - E) 0).
  assert (Hd53 : d <= 53 + (F - E)).
  { apply Zdigits2_le; [exact HM|].
    rewrite Z.pow_add_r by lia.
    assert (0 < 2 ^ (F - E)) by (apply Z.pow_pos_nonneg; lia). nia. }
  assert (Hn1 : 0 <= n1 <= d - 1) by (unfold n1; rewrite fexp_eq; lia).
  assert (Hn1F : n1 <= F - E) by (unfold n1; rewrite fexp_eq; lia).
  assert (Hn1d : d - 53 <= n1) by (unfold n1; rewrite fexp_eq; lia).
  assert (He' : -1074 <= E + n1) by (unfold n1; rewrite fexp_eq; lia).
  assert (Hp : 0 < 2 ^ n1) by (apply Z.pow_pos_nonneg; lia).
  assert (Hq : 1 <= M / 2 ^ n1).
  { apply Z.div_le_lower_bound; [lia|].
    assert (2 ^ n1 <= 2 ^ (d - 1)) by (apply Z.pow_le_mono_r; lia). lia. }
  destruct (binary_round_aux_exact s M E HM) as (r & Hr & Hres); [exact Hq|].
  fold d in Hr, Hres. fold n1 in Hr, Hres.
  set (q := M / 2 ^ n1) in *.
  assert (Hqle : 2 ^ n1 * q <= M) by (apply Z.mul_div_le; lia).
  set (k := F - (E + n1)).
  assert (Hk : 0 <= k) by (unfold k; lia).
  assert (Hsplit : 2 ^ (F - E) = 2 ^ k * 2 ^ n1).
  { rewrite <- Z.pow_add_r by lia. f_equal. unfold k. lia. }
  assert (Hpk : 0 < 2 ^ k) by (apply Z.pow_pos_nonneg; lia).
  assert (Hqlt : q < B * 2 ^ k) by (rewrite Hsplit in HMB; nia).
  assert (Hrle : r <= B * 2 ^ k) by lia.
  assert (Hq53 : q < 2 ^ 53).
  { apply Z.div_lt_upper_bound; [lia|].
    destruct (Z.le_gt_cases d 53) as [Hs|Hb].
    - assert (2 ^ d <= 2 ^ 53) by (apply Z.pow_le_mono_r; lia).
      assert (1 <= 2 ^ n1) by lia. nia.
    - assert (2 ^ d <= 2 ^ n1 * 2 ^ 53).
      { rewrite <- Z.pow_add_r by lia. apply Z.pow_le_mono_r; lia. }
      lia. }
  assert (Hrpos : 0 < r) by lia.
  assert (Hr54 : r < 2 ^ 54).
  { change (2 ^ 53) with 9007199254740992 in Hq53.
    change (2 ^ 54) with 18014398509481984. lia. }
  pose proof (Zdigits2_le r 54 Hrpos Hr54) as Hdr54.
  pose proof (Zdigits2_pos r Hrpos) as Hdr1.
  pose proof (Zdigits2_bounds r Hrpos) as [Hrlo Hrhi].
  set (n2 := Z.max (fexp prec emax (Zdigits2 r + (E + n1)) - (E + n1)) 0) in *.
  assert (Hn2 : n2 = Z.max (Zdigits2 r - 53) 0) by (unfold n2; rewrite fexp_eq; lia).
  destruct (Z.le_gt_cases (Zdigits2 r) 53) as [Hsmall|Hbig].
  - assert (Hn20 : n2 = 0) by lia.
    rewrite Hn20, Z.pow_0_r, Z.div_1_r, Z.add_0_r in Hres.
    destruct r as [|m'|m']; try lia.
    replace (E + n1 <=? emax - prec) with true in Hres
      by (symmetry; apply Z.leb_le; change (emax - prec) with 971; lia).
    exists m', (E + n1). split; [exact Hres|].
    destruct (Z.eq_dec k 0) as [Hk0|Hk0].
    + right. rewrite Hk0, Z.pow_0_r in Hrle. unfold k in Hk0. lia.
    + left. unfold k in Hk0, Hk. lia.
  - assert (Hdr : Zdigits2 r = 54) by lia.
    assert (Hn21 : n2 = 1) by lia.
    rewrite Hdr in Hrlo. change (2 ^ (54 - 1)) with 9007199254740992 in Hrlo.
    change (2 ^ 53) with 9007199254740992 in Hq53, HB.
    assert (Hr53 : r = 9007199254740992) by lia.
    assert (Hk1 : 1 <= k).
    { destruct (Z.eq_dec k 0) as [Hk0|Hk0]; [|lia].
      rewrite Hk0, Z.pow_0_r in Hrle. lia. }
    rewrite Hn21, Hr53 in Hres. change (9007199254740992 / 2 ^ 1) with 4503599627370496 in Hres.
    replace (E + n1 + 1 <=? emax - prec) with true in Hres
      by (symmetry; apply Z.leb_le; change (emax - prec) with 971; unfold k in Hk1; lia).
    exists 4503599627370496%positive, (E + n1 + 1). split; [exact Hres|].
    change (2 ^ 52) with 4503599627370496 in HB. unfold k in Hk1. lia.
Qed.


Lemma shl_align_spec m e t :
  Zpos (fst (shl_align m e t)) = Zpos m * 2 ^ (e - snd (shl_align m e t))
  /\ snd (shl_align m e t) <= e.
Proof.
  unfold shl_align.
  destruct (t - e) as [|p|p] eqn:Hd; cbn [fst snd].
  - rewrite Z.sub_diag, Z.pow_0_r. lia.
  - rewrite Z.sub_diag, Z.pow_0_r. lia.
  - pose proof (Pos2Z.opp_pos p). split; [|lia].
    rewrite iter_xO_pow. f_equal. f_equal. lia.
Qed.

Lemma sign_true_leb r B F : sf_sign_is true r -> SFleb r (S754_finite false B F) = true.
Proof. destruct r as [s|s| |s m e]; cbn; intros H; subst; try contradiction; reflexivity. Qed.

(** Rounding a positive exact value strictly below a normal bound gives at
    most the bound. *)
Lemma binary_round_upper p ez mB F :
  2 ^ 52 <= Zpos mB < 2 ^ 53 -> -1074 <= ez -> ez <= F -> F <= 971 ->
  Zpos p < Zpos mB * 2 ^ (F - ez) ->
  SFleb (binary_round prec emax false p ez) (S754_finite false mB F) = true.
Proof.
  intros HB Hez HezF HF Hp. unfold binary_round.
  pose proof (shl_align_spec p ez (fexp prec emax (Zpos (digits2_pos p) + ez))) as [Hm He].
  destruct (shl_align p ez _) as [mz ez']. cbn [fst snd] in Hm, He.
  assert (H2 : 0 < 2 ^ (ez - ez')) by (apply Z.pow_pos_nonneg; lia).
  destruct (binary_round_aux_exact_upper false (Zpos mz) ez' (Zpos mB) F)
    as (m' & e' & Hres & Hle).
  - lia.
  - assert (ez - ez' + 1 <= Zdigits2 (Zpos mz)).
    { apply Zdigits2_ge; [lia|]. rewrite Hm. nia. }
    lia.
  - lia.
  - lia.
  - exact HB.
  - rewrite Hm. replace (F - ez') with ((F - ez) + (ez - ez')) by lia.
    rewrite Z.pow_add_r by lia. nia.
  - rewrite Hres. unfold SFleb. rewrite SFcompare_finite_spec. cbv zeta.
    destruct (Z.compare_spec e' F) as [Heq|Hlt|Hgt]; [|reflexivity|lia].
    destruct (Pos.compare_spec m' mB) as [Hc|Hc|Hc]; try reflexivity. lia.
Qed.

(** [x < 1] gives [x + 1 <= 2]. *)
Lemma SFadd_one_le_two x my :
  Zpos my = 2 ^ 52 -> valid_binary x = true ->
  SFltb x (S754_finite false my (-52)) = true ->
  SFleb (SF64add x (S754_finite false my (-52))) (S754_finite false my (-51)) = true.
Proof.
  intros Hmy Hv Hx.
  destruct x as [sx|sx| |sx m e].
  - change (SF64add (S754_zero sx) (S754_finite false my (-52))) with (S754_finite false my (-52)).
    unfold SFleb. rewrite SFcompare_finite_spec. reflexivity.
  - destruct sx; [reflexivity|discriminate].
  - discriminate.
  - cbn [valid_binary] in Hv.
    pose proof (bounded_digits m e Hv) as (_ & He & _).
    pose proof (bounded_mantissa m e Hv) as Hm.
    rewrite SFadd_finite, !shl_align_fst by lia.
    change (cond_Zopp false (Zpos my * 2 ^ (-52 - Z.min e (-52))))
      with (Zpos my * 2 ^ (-52 - Z.min e (-52))).
    set (ez := Z.min e (-52)).
    assert (Hez : -1074 <= ez <= -52) by (unfold ez; lia).
    assert (H1 : 0 < 2 ^ (e - ez)) by (apply Z.pow_pos_nonneg; unfold ez; lia).
    assert (H2 : 0 < 2 ^ (-52 - ez)) by (apply Z.pow_pos_nonneg; unfold ez; lia).
    assert (H3 : Zpos my * 2 ^ (-52 - ez) = 2 ^ (- ez)).
    { rewrite Hmy, <- Z.pow_add_r by lia. f_equal. lia. }
    assert (H4 : 2 ^ (1 - ez) = 2 * 2 ^ (- ez)).
    { replace (1 - ez) with (Z.succ (- ez)) by lia. rewrite Z.pow_succ_r by lia. reflexivity. }
    assert (Hsum : cond_Zopp sx (Zpos m * 2 ^ (e - ez)) + Zpos my * 2 ^ (-52 - ez) < 2 ^ (1 - ez)).
    { rewrite H3, H4. destruct sx; cbn [cond_Zopp]; [nia|].
      unfold SFltb in Hx. rewrite SFcompare_finite_spec in Hx. cbv zeta iota in Hx.
      destruct (Z.compare_spec e (-52)) as [Heq|Hlt|Hgt]; try discriminate.
      - destruct (Pos.compare_spec m my) as [Hc|Hc|Hc]; try discriminate.
        replace ez with (-52) by (unfold ez; lia).
        replace (e - -52) with 0 by lia. rewrite Z.pow_0_r.
        change (- -52) with 52. lia.
      - replace ez with e by (unfold ez; lia).
        rewrite Z.sub_diag, Z.pow_0_r.
        assert (2 ^ 53 <= 2 ^ (- e)) by (apply Z.pow_le_mono_r; lia). lia. }
    destruct (cond_Zopp sx (Zpos m * 2 ^ (e - ez)) + Zpos my * 2 ^ (-52 - ez)) as [|p|p] eqn:Hz;
      cbn [binary_normalize].
    + reflexivity.
    + apply binary_round_upper; [| lia | lia | lia |].
      * rewrite Hmy. split; [lia|]. apply Z.pow_lt_mono_r; lia.
      * replace (-51 - ez) with (1 + (-52 - ez)) by lia.
        rewrite Z.pow_add_r, Z.pow_1_r by lia. lia.
    + apply sign_true_leb, binary_round_sign.
Qed.

(** [0 <= x < 2] gives [x * c <= 2c] for a normal [c >= 1]. *)
Lemma SFmul_lt_two x my mc ec :
  Zpos my = 2 ^ 52 -> valid_binary x = true -> nonneg x ->
  Zpos (digits2_pos mc) = 53 -> -52 <= ec <= 970 ->
  SFltb x (S754_finite false my (-51)) = true ->
  SFleb (SF64mul x (S754_finite false mc ec)) (S754_finite false mc (ec + 1)) = true.
Proof.
  intros Hmy Hv Hn Hc Hec Hx.
  destruct x as [sx|sx| |sx m e]; cbn in Hn; subst; try contradiction.
  - reflexivity.
  - discriminate.
  - cbn [valid_binary] in Hv.
    pose proof (bounded_digits m e Hv) as (_ & He & Hnorm).
    pose proof (bounded_mantissa m e Hv) as Hm.
    pose proof (digits2_pos_lower mc) as Hclo. rewrite Hc in Hclo.
    pose proof (digits2_pos_bound mc) as Hchi. rewrite Hc in Hchi.
    change (53 - 1) with 52 in Hclo.
    unfold SFltb in Hx. rewrite SFcompare_finite_spec in Hx. cbv zeta iota in Hx.
    assert (Hxe : e < -51 \/ (e = -51 /\ Zpos m < Zpos my)).
    { destruct (Z.compare_spec e (-51)) as [Heq|Hlt|Hgt]; try discriminate; [right|left; lia].
      split; [lia|]. destruct (Pos.compare_spec m my); try discriminate; lia. }
    assert (He51 : e <= -52).
    { destruct Hxe as [|[He51 Hlt]]; [lia|].
      destruct Hnorm as [Hd|Hd]; [|lia].
      pose proof (digits2_pos_lower m) as Hl. rewrite Hd in Hl. change (53 - 1) with 52 in Hl. lia. }
    rewrite SFmul_finite. cbn [xorb].
    assert (Hpow : 2 ^ 53 <= 2 ^ (1 - e)) by (apply Z.pow_le_mono_r; lia).
    assert (Hp52 : 0 < 2 ^ 52) by (apply Z.pow_pos_nonneg; lia).
    destruct (binary_round_aux_exact_upper false (Zpos (m * mc)) (e + ec) (Zpos mc) (ec + 1))
      as (m' & e' & Hres & Hle).
    + lia.
    + assert (52 + 1 <= Zdigits2 (Zpos (m * mc))).
      { apply Zdigits2_ge; [lia|]. rewrite Pos2Z.inj_mul. nia. }
      lia.
    + lia.
    + lia.
    + lia.
    + rewrite Pos2Z.inj_mul. replace (ec + 1 - (e + ec)) with (1 - e) by lia. nia.
    + rewrite Hres. unfold SFleb. rewrite SFcompare_finite_spec. cbv zeta.
      destruct (Z.compare_spec e' (ec + 1)) as [Heq|Hlt|Hgt]; [|reflexivity|lia].
      destruct (Pos.compare_spec m' mc) as [Hcc|Hcc|Hcc]; try reflexivity. lia.
Qed.

(** The order on finite values, as an inequality of mantissas scaled to a
    common exponent. *)
Lemma SFleb_scaled m e mA eA ez :
  bounded prec emax m e = true -> 2 ^ 52 <= Zpos mA -> ez <= e ->
  SFleb (S754_finite false m e) (S754_finite false mA eA) = true ->
  e <= eA /\ Zpos m * 2 ^ (e - ez) <= Zpos mA * 2 ^ (eA - ez).
Proof.
  intros Hb HA Hez Hle.
  pose proof (bounded_mantissa m e Hb) as Hm.
  unfold SFleb in Hle. rewrite SFcompare_finite_spec in Hle. cbv zeta iota in Hle.
  assert (H1 : 0 < 2 ^ (e - ez)) by (apply Z.pow_pos_nonneg; lia).
  destruct (Z.compare_spec e eA) as [Heq|Hlt|Hgt]; try discriminate.
  - subst eA. split; [lia|].
    destruct (Pos.compare_spec m mA) as [Hc|Hc|Hc]; try discriminate; nia.
  - split; [lia|].
    replace (eA - ez) with ((eA - e - 1) + 1 + (e - ez)) by lia.
    rewrite !Z.pow_add_r, Z.pow_1_r by lia.
    assert (0 < 2 ^ (eA - e - 1)) by (apply Z.pow_pos_nonneg; lia).
    change (2 ^ 53) with (2 ^ 52 * 2) in Hm.
    assert (Zpos m <= Zpos mA * (2 ^ (eA - e - 1) * 2)) by nia.
    nia.
Qed.

Lemma SFltb_scaled m e mA eA ez :
  bounded prec emax m e = true -> 2 ^ 52 <= Zpos mA -> ez <= e ->
  SFltb (S754_finite false m e) (S754_finite false mA eA) = true ->
  Zpos m * 2 ^ (e - ez) < Zpos mA * 2 ^ (eA - ez).
Proof.
  intros Hb HA Hez Hle.
  pose proof (bounded_mantissa m e Hb) as Hm.
  unfold SFltb in Hle. rewrite SFcompare_finite_spec in Hle. cbv zeta iota in Hle.
  assert (H1 : 0 < 2 ^ (e - ez)) by (apply Z.pow_pos_nonneg; lia).
  destruct (Z.compare_spec e eA) as [Heq|Hlt|Hgt]; try discriminate.
  - subst eA.
    destruct (Pos.compare_spec m mA) as [Hc|Hc|Hc]; try discriminate; nia.
  - replace (eA - ez) with ((eA - e - 1) + 1 + (e - ez)) by lia.
    rewrite !Z.pow_add_r, Z.pow_1_r by lia.
    assert (0 < 2 ^ (eA - e - 1)) by (apply Z.pow_pos_nonneg; lia).
    change (2 ^ 53) with (2 ^ 52 * 2) in Hm.
    assert (Zpos m < Zpos mA * (2 ^ (eA - e - 1) * 2)) by nia.
    nia.
Qed.

(** The sum of two positive finite values below two normal bounds, one of
    them strictly, is at most the exact sum of the bounds. *)
Lemma SFadd_finite_upper mx ex my ey mA eA mB eB mC eC :
  bounded prec emax mx ex = true -> bounded prec emax my ey = true ->
  2 ^ 52 <= Zpos mA -> 2 ^ 52 <= Zpos mB -> 2 ^ 52 <= Zpos mC < 2 ^ 53 ->
  Z.min eA eB <= eC -> eC <= 971 ->
  Zpos mA * 2 ^ (eA - Z.min eA eB) + Zpos mB * 2 ^ (eB - Z.min eA eB)
    = Zpos mC * 2 ^ (eC - Z.min eA eB) ->
  SFleb (S754_finite false mx ex) (S754_finite false mA eA) = true ->
  SFleb (S754_finite false my ey) (S754_finite false mB eB) = true ->
  SFltb (S754_finite false mx ex) (S754_finite false mA eA) = true
    \/ SFltb (S754_finite false my ey) (S754_finite false mB eB) = true ->
  SFleb (SF64add (S754_finite false mx ex) (S754_finite false my ey))
        (S754_finite false mC eC) = true.
Proof.
  intros Hbx Hby HA HB HC Hg HeC Hsum Hx Hy Hstrict.
  pose proof (bounded_digits mx ex Hbx) as (_ & Hex & _).
  pose proof (bounded_digits my ey Hby) as (_ & Hey & _).
  rewrite SFadd_finite, !shl_align_fst by lia. cbn [cond_Zopp].
  set (ez := Z.min ex ey) in *. set (g := Z.min eA eB) in *.
  assert (Hzx : ez <= ex) by (unfold ez; lia).
  assert (Hzy : ez <= ey) by (unfold ez; lia).
  destruct (SFleb_scaled mx ex mA eA ez Hbx HA Hzx Hx) as [HexA HX].
  destruct (SFleb_scaled my ey mB eB ez Hby HB Hzy Hy) as [HeyB HY].
  assert (Hzg : ez <= g) by (unfold ez, g; lia).
  assert (Hlt : Zpos mx * 2 ^ (ex - ez) + Zpos my * 2 ^ (ey - ez)
                < Zpos mA * 2 ^ (eA - ez) + Zpos mB * 2 ^ (eB - ez)).
  { destruct Hstrict as [Hs|Hs].
    - pose proof (SFltb_scaled mx ex mA eA ez Hbx HA Hzx Hs). lia.
    - pose proof (SFltb_scaled my ey mB eB ez Hby HB Hzy Hs). lia. }
  assert (Hscale : Zpos mA * 2 ^ (eA - ez) + Zpos mB * 2 ^ (eB - ez) = Zpos mC * 2 ^ (eC - ez)).
  { replace (eA - ez) with ((eA - g) + (g - ez)) by lia.
    replace (eB - ez) with ((eB - g) + (g - ez)) by lia.
    replace (eC - ez) with ((eC - g) + (g - ez)) by lia.
    rewrite !Z.pow_add_r by (unfold g; lia).
    rewrite !Z.mul_assoc, <- Z.mul_add_distr_r, Hsum. reflexivity. }
  assert (H1 : 0 < 2 ^ (ex - ez)) by (apply Z.pow_pos_nonneg; lia).
  assert (H2 : 0 < 2 ^ (ey - ez)) by (apply Z.pow_pos_nonneg; lia).
  assert (Hpos : 0 < Zpos mx * 2 ^ (ex - ez) + Zpos my * 2 ^ (ey - ez)) by nia.
  destruct (Zpos mx * 2 ^ (ex - ez) + Zpos my * 2 ^ (ey - ez)) as [|p|p] eqn:Hz; [lia| |lia].
  cbn [binary_normalize].
  apply binary_round_upper; [exact HC | lia | lia | lia | lia].
Qed.

Lemma SFleb_trans a b c : SFleb a b = true -> SFleb b c = true -> SFleb a c = true.
Proof.
  intros Hab Hbc. destruct (SFeqb b c) eqn:Heq.
  - destruct c as [sc|sc| |sc mc ec].
    + unfold SFleb, SFeqb in *.
      destruct a as [sa|sa| |sa ma ea], b as [sb|sb| |sb mb eb];
        try destruct sa; try destruct sb; try destruct sc; try discriminate; reflexivity.
    + unfold SFleb, SFeqb in *.
      destruct a as [sa|sa| |sa ma ea], b as [sb|sb| |sb mb eb];
        try destruct sa; try destruct sb; try destruct sc; try discriminate; reflexivity.
    + destruct b as [[]|[]| |[]]; discriminate.
    + apply SFeqb_finite in Heq. now subst b.
  - pose proof (SFleb_ltb_trans a b c Hab) as H.
    assert (Hlt : SFltb b c = true).
    { unfold SFleb, SFeqb, SFltb in *. destruct (SFcompare b c) as [[]|]; congruence. }
    specialize (H Hlt). unfold SFltb, SFleb in *.
    destruct (SFcompare a c) as [[]|]; congruence.
Qed.

Lemma SFleb_neq_ltb a b : SFleb a b = true -> SFeqb a b = false -> SFltb a b = true.
Proof. unfold SFleb, SFeqb, SFltb. destruct (SFcompare a b) as [[]|]; congruence. Qed.

Local Open Scope float_scope.

(** [x <= 1] gives [x + 1 <= 2]: the rounded sum stays below the exact bound. *)
Lemma add_one_le_two x : (x <=? 1) = true -> (x + 1 <=? 2) = true.
Proof.
  intros Hle. destruct (x =? 1) eqn:Heq.
  - rewrite FloatAxioms.eqb_spec in Heq.
    change (Prim2SF 1) with (S754_finite false 4503599627370496 (-52)) in Heq.
    apply SFeqb_finite in Heq.
    assert (Hx : x = 1) by (apply Prim2SF_inj; exact Heq).
    rewrite Hx. reflexivity.
  - rewrite FloatAxioms.leb_spec in *. rewrite FloatAxioms.eqb_spec in Heq.
    rewrite FloatAxioms.add_spec.
    change (Prim2SF 1) with (S754_finite false 4503599627370496 (-52)) in *.
    change (Prim2SF 2) with (S754_finite false 4503599627370496 (-51)).
    apply SFadd_one_le_two; [reflexivity | apply Prim2SF_valid | now apply SFleb_neq_ltb].
Qed.

(** [0 <= x <= 2] gives [x * c <= c2] when [c2] is the double of a normal
    [c >= 1]. *)
Lemma mul_le_double x c c2 mc ec :
  Prim2SF c = S754_finite false mc ec -> Prim2SF c2 = S754_finite false mc (ec + 1) ->
  Zpos (digits2_pos mc) = 53%Z -> (-52 <= ec <= 970)%Z ->
  (2 * c <=? c2) = true ->
  nonneg (Prim2SF x) -> (x <=? 2) = true -> (x * c <=? c2) = true.
Proof.
  intros Hc Hc2 Hd Hec H2 Hn Hle. destruct (x =? 2) eqn:Heq.
  - rewrite FloatAxioms.eqb_spec in Heq.
    change (Prim2SF 2) with (S754_finite false 4503599627370496 (-51)) in Heq.
    apply SFeqb_finite in Heq.
    assert (Hx : x = 2) by (apply Prim2SF_inj; exact Heq).
    rewrite Hx. exact H2.
  - rewrite FloatAxioms.leb_spec in *. rewrite FloatAxioms.eqb_spec in Heq.
    rewrite FloatAxioms.mul_spec, Hc, Hc2.
    change (Prim2SF 2) with (S754_finite false 4503599627370496 (-51)) in Hle, Heq.
    apply SFmul_lt_two with (my := 4503599627370496%positive); trivial.
    + apply Prim2SF_valid.
    + now apply SFleb_neq_ltb.
Qed.

(** The sum of two Numbers in [0, A] and [0, B] is at most [C] when [C] is
    the exact sum of the normal bounds [A] and [B]. *)
Lemma add_le_sum x y A B C mA eA mB eB mC eC :
  Prim2SF A = S754_finite false mA eA -> Prim2SF B = S754_finite false mB eB ->
  Prim2SF C = S754_finite false mC eC ->
  (2 ^ 52 <= Zpos mA)%Z -> (2 ^ 52 <= Zpos mB)%Z -> (2 ^ 52 <= Zpos mC)%Z ->
  (Z.min eA eB <= eC)%Z ->
  (Zpos mA * 2 ^ (eA - Z.min eA eB) + Zpos mB * 2 ^ (eB - Z.min eA eB)
   = Zpos mC * 2 ^ (eC - Z.min eA eB))%Z ->
  (A <=? C) = true -> (B <=? C) = true -> (A + B <=? C) = true ->
  nonneg (Prim2SF x) -> nonneg (Prim2SF y) ->
  (x <=? A) = true -> (y <=? B) = true -> (x + y <=? C) = true.
Proof.
  intros HA HB HC HmA HmB HmC Hg Hsum HAC HBC HABC Hnx Hny Hx Hy.
  destruct (x =? A) eqn:HxA; [destruct (y =? B) eqn:HyB|].
  - rewrite FloatAxioms.eqb_spec in HxA, HyB. rewrite HA in HxA. rewrite HB in HyB.
    apply SFeqb_finite in HxA, HyB. rewrite <- HA in HxA. rewrite <- HB in HyB.
    apply Prim2SF_inj in HxA, HyB. now subst.
  - assert (Hs : SFltb (Prim2SF y) (Prim2SF B) = true).
    { apply SFleb_neq_ltb; [now rewrite <- FloatAxioms.leb_spec | now rewrite <- FloatAxioms.eqb_spec]. }
    clear HxA HyB HABC. revert Hnx Hny Hx Hy HAC HBC Hs.
    rewrite !FloatAxioms.leb_spec, FloatAxioms.add_spec, HA, HB, HC.
    pose proof (Prim2SF_valid x) as Hvx. pose proof (Prim2SF_valid y) as Hvy.
    pose proof (Prim2SF_valid C) as HvC. rewrite HC in HvC. apply bounded_mantissa in HvC.
    pose proof (bounded_digits mC eC) as HdC.
    destruct (Prim2SF x) as [sx|sx| |sx mx ex], (Prim2SF y) as [sy|sy| |sy my ey];
      cbn [nonneg sf_sign_is]; intros Hnx Hny Hx Hy HAC HBC Hs; subst;
      try contradiction; try discriminate.
    + reflexivity.
    + change (SF64add (S754_zero false) (S754_finite false my ey)) with (S754_finite false my ey).
      apply SFleb_trans with (S754_finite false mB eB); assumption.
    + change (SF64add (S754_finite false mx ex) (S754_zero false)) with (S754_finite false mx ex).
      apply SFleb_trans with (S754_finite false mA eA); assumption.
    + apply SFadd_finite_upper with mA eA mB eB; auto.
      pose proof (Prim2SF_valid C) as Hv. rewrite HC in Hv.
      apply bounded_digits in Hv. lia.
  - assert (Hs : SFltb (Prim2SF x) (Prim2SF A) = true).
    { apply SFleb_neq_ltb; [now rewrite <- FloatAxioms.leb_spec | now rewrite <- FloatAxioms.eqb_spec]. }
    clear HxA HABC. revert Hnx Hny Hx Hy HAC HBC Hs.
    rewrite !FloatAxioms.leb_spec, FloatAxioms.add_spec, HA, HB, HC.
    pose proof (Prim2SF_valid x) as Hvx. pose proof (Prim2SF_valid y) as Hvy.
    pose proof (Prim2SF_valid C) as HvC. rewrite HC in HvC. apply bounded_mantissa in HvC.
    destruct (Prim2SF x) as [sx|sx| |sx mx ex], (Prim2SF y) as [sy|sy| |sy my ey];
      cbn [nonneg sf_sign_is]; intros Hnx Hny Hx Hy HAC HBC Hs; subst;
      try contradiction; try discriminate.
    + reflexivity.
    + change (SF64add (S754_zero false) (S754_finite false my ey)) with (S754_finite false my ey).
      apply SFleb_trans with (S754_finite false mB eB); assumption.
    + change (SF64add (S754_finite false mx ex) (S754_zero false)) with (S754_finite false mx ex).
      apply SFleb_trans with (S754_finite false mA eA); assumption.
    + apply SFadd_finite_upper with mA eA mB eB; auto.
      pose proof (Prim2SF_valid C) as Hv. rewrite HC in Hv.
      apply bounded_digits in Hv. lia.
Qed.

(** [Math.min(100, x)] is [x] itself for [x] in [0, 100]. *)
Lemma Math_min_100_inactive x :
  nonneg (Prim2SF x) -> (x <=? 100) = true -> Number.Math_min 100 x = x.
Proof.
  intros Hn Hle. unfold Number.Math_min.
  rewrite (is_nan_false x Hn). change (is_nan 100) with false. cbn [orb].
  assert (H : (100 <? x) = false).
  { revert Hle. rewrite FloatAxioms.leb_spec, FloatAxioms.ltb_spec. unfold SFleb, SFltb.
    rewrite (SFcompare_antisym (Prim2SF x) (Prim2SF 100)).
    destruct (SFcompare (Prim2SF x) (Prim2SF 100)) as [[]|]; cbn; congruence. }
  rewrite H. destruct (x <? 100); [reflexivity|].
  change (get_sign 100) with false. reflexivity.
Qed.

(** A weighted sentiment [(s + 1) * w] lies in [0, 2w] for a sentiment in
    [-1, 1] and a normal weight [w >= 1]. *)
Lemma weighted_sentiment_range s w w2 mw ew :
  Prim2SF w = S754_finite false mw ew -> Prim2SF w2 = S754_finite false mw (ew + 1) ->
  Zpos (digits2_pos mw) = 53%Z -> (-52 <= ew <= 970)%Z -> (2 * w <=? w2) = true ->
  (-1 <=? s) = true -> (s <=? 1) = true ->
  nonneg (Prim2SF ((s + 1) * w)) /\ ((s + 1) * w <=? w2) = true.
Proof.
  intros Hw Hw2 Hd He H2 Hlo Hhi. pose proof (add_one_nonneg s Hlo) as Hn. split.
  - eapply mul_nonneg; [exact Hw|exact Hn].
  - apply mul_le_double with mw ew; trivial. now apply add_one_le_two.
Qed.

End UpperBounds.

Section ReadinessRange.

Import NumberFacts UpperBounds.
Local Open Scope float_scope.



(** X13: for sentiments in [-1, 1] the cap of the readiness score never
    applies: the weighted sum is at most 100 already, and the score is that
    sum. *)
Theorem readiness_cap_never_applies (businessAnalysis financialsAnalysis teamAnalysis : Analysis.t) :
  (-1 <=? Sentiment.score (Analysis.sentiment businessAnalysis)) = true ->
  (Sentiment.score (Analysis.sentiment businessAnalysis) <=? 1) = true ->
  (-1 <=? Sentiment.score (Analysis.sentiment financialsAnalysis)) = true ->
  (Sentiment.score (Analysis.sentiment financialsAnalysis) <=? 1) = true ->
  (-1 <=? Sentiment.score (Analysis.sentiment teamAnalysis)) = true ->
  (Sentiment.score (Analysis.sentiment teamAnalysis) <=? 1) = true ->
  Funding.calculateReadinessScore businessAnalysis financialsAnalysis teamAnalysis
  = (Sentiment.score (Analysis.sentiment businessAnalysis) + 1) * 20
    + (Sentiment.score (Analysis.sentiment financialsAnalysis) + 1) * 20
    + (Sentiment.score (Analysis.sentiment teamAnalysis) + 1) * 10.
Proof.
  intros Hb1 Hb2 Hf1 Hf2 Ht1 Ht2.
  unfold Funding.calculateReadinessScore. cbv zeta.
  set (b := (Sentiment.score (Analysis.sentiment businessAnalysis) + 1) * 20).
  set (f := (Sentiment.score (Analysis.sentiment financialsAnalysis) + 1) * 20).
  set (t := (Sentiment.score (Analysis.sentiment teamAnalysis) + 1) * 10).
  destruct (weighted_sentiment_range (Sentiment.score (Analysis.sentiment businessAnalysis)) 20 40
              5629499534213120%positive (-48)%Z) as [Hbn Hble];
    [reflexivity | reflexivity | reflexivity | lia | reflexivity | exact Hb1 | exact Hb2 |].
  destruct (weighted_sentiment_range (Sentiment.score (Analysis.sentiment financialsAnalysis)) 20 40
              5629499534213120%positive (-48)%Z) as [Hfn Hfle];
    [reflexivity | reflexivity | reflexivity | lia | reflexivity | exact Hf1 | exact Hf2 |].
  destruct (weighted_sentiment_range (Sentiment.score (Analysis.sentiment teamAnalysis)) 10 20
              5629499534213120%positive (-49)%Z) as [Htn Htle];
    [reflexivity | reflexivity | reflexivity | lia | reflexivity | exact Ht1 | exact Ht2 |].
  fold b in Hbn, Hble. fold f in Hfn, Hfle. fold t in Htn, Htle.
  rewrite (zero_add b Hbn).
  assert (Hbf : (b + f <=? 80) = true).
  { apply add_le_sum with (A := 40) (B := 40)
      (mA := 5629499534213120%positive) (eA := (-47)%Z)
      (mB := 5629499534213120%positive) (eB := (-47)%Z)
      (mC := 5629499534213120%positive) (eC := (-46)%Z);
      try reflexivity; try assumption; lia. }
  assert (Hbfn : nonneg (Prim2SF (b + f))) by now apply add_nonneg.
  assert (Hall : (b + f + t <=? 100) = true).
  { apply add_le_sum with (A := 80) (B := 20)
      (mA := 5629499534213120%positive) (eA := (-46)%Z)
      (mB := 5629499534213120%positive) (eB := (-48)%Z)
      (mC := 7036874417766400%positive) (eC := (-46)%Z);
      try reflexivity; try assumption; lia. }
  apply Math_min_100_inactive; [|exact Hall].
  now apply add_nonneg.
Qed.

Lemma readiness_cap_never_applies_witness :
  Funding.calculateReadinessScore (sampleAnalysis 1 []) (sampleAnalysis 1 []) (sampleAnalysis 1 [])
  = (1 + 1) * 20 + (1 + 1) * 20 + (1 + 1) * 10.
Proof.
  apply (readiness_cap_never_applies (sampleAnalysis 1 []) (sampleAnalysis 1 []) (sampleAnalysis 1 []));
    reflexivity.
Defined.

End ReadinessRange.
